(** * GSearch: the query builder, the URL builder and the recent-queries store

    A shallow embedding of [Gsearch.py].  The pure part of the program is
    [SearchParts.build_query] and the body of [MainWindow.update_preview];
    the stateful part is the recent list kept by [MainWindow] together with
    the INI file [GSearch.ini].

    Python [str] values are modelled by [string]; a character stands for the
    code point of the same number, so the model covers the strings whose
    code points are below 256. *)

From stdpp Require Import base list strings.
From Stdlib Require Import Ascii DecimalString DecimalNat.

Local Open Scope string_scope.
Local Open Scope list_scope.

(** ** Python [str] primitives used by the program *)

Module Py.

(** [str.isspace] on one character.  Below 256 the white space of Python is
    TAB..CR, FS..US, SPACE, NEL (0x85) and NBSP (0xA0). *)
Definition isspace (c : ascii) : bool :=
  let n := nat_of_ascii c in
  (((9 <=? n) && (n <=? 13)) || ((28 <=? n) && (n <=? 32))
   || (n =? 133) || (n =? 160))%nat.

(** Truth value of a [str]: [if s:] holds for the non-empty strings. *)
Definition truthy (s : string) : bool :=
  match s with
  | EmptyString => false
  | String _ _ => true
  end.

Fixpoint lstrip (s : string) : string :=
  match s with
  | EmptyString => EmptyString
  | String c s' => if isspace c then lstrip s' else s
  end.

Fixpoint rstrip (s : string) : string :=
  match s with
  | EmptyString => EmptyString
  | String c s' =>
      match rstrip s' with
      | EmptyString => if isspace c then EmptyString else String c EmptyString
      | r => String c r
      end
  end.

(** [s.strip()] *)
Definition strip (s : string) : string := rstrip (lstrip s).

(** One pass of [s.split()]: the word that starts at the head of [s] (empty
    when [s] starts with white space) and the words after it. *)
Fixpoint fields (s : string) : string * list string :=
  match s with
  | EmptyString => (EmptyString, [])
  | String c s' =>
      let '(w, ws) := fields s' in
      if isspace c
      then (EmptyString, if truthy w then w :: ws else ws)
      else (String c w, ws)
  end.

(** [s.split()]: the maximal runs of characters that are not white space. *)
Definition split (s : string) : list string :=
  let '(w, ws) := fields s in if truthy w then w :: ws else ws.

(** [s.split(sep)] for a one-character separator: empty pieces are kept and
    the result always has at least one piece. *)
Fixpoint split_on (sep : ascii) (s : string) : list string :=
  match s with
  | EmptyString => [EmptyString]
  | String c s' =>
      if Ascii.eqb c sep then EmptyString :: split_on sep s'
      else match split_on sep s' with
           | w :: ws => String c w :: ws
           | [] => [String c EmptyString]
           end
  end.

(** [sep.join(l)] *)
Definition join (sep : string) (l : list string) : string := String.concat sep l.

(** [s.replace(c, new)] for a one-character [c]. *)
Fixpoint replace_char (c : ascii) (new : string) (s : string) : string :=
  match s with
  | EmptyString => EmptyString
  | String a s' =>
      if Ascii.eqb a c then new +:+ replace_char c new s'
      else String a (replace_char c new s')
  end.

(** [c in s] for a one-character [c]. *)
Fixpoint contains_char (c : ascii) (s : string) : bool :=
  match s with
  | EmptyString => false
  | String a s' => Ascii.eqb a c || contains_char c s'
  end.

(** [str(i)] for a natural number. *)
Definition str_of_nat (i : nat) : string := NilZero.string_of_uint (Nat.to_uint i).

(** [s.lower()] below 256: A..Z and the Latin-1 capitals 0xC0..0xDE except
    the multiplication sign 0xD7 move up by 32. *)
Definition lower_char (c : ascii) : ascii :=
  let n := nat_of_ascii c in
  if (((65 <=? n) && (n <=? 90))
      || ((192 <=? n) && (n <=? 222) && negb (n =? 215)))%nat
  then ascii_of_nat (n + 32) else c.

Fixpoint lower (s : string) : string :=
  match s with
  | EmptyString => EmptyString
  | String c s' => String (lower_char c) (lower s')
  end.

End Py.

(** The double quote character, as a one-character string. *)
Definition dquote : string := String (ascii_of_nat 34) EmptyString.

(** ** The criteria record *)

(** [@dataclass class SearchParts] *)
Record SearchParts := mkSearchParts {
  all_words : string;
  terms_location : string;
  exact_phrase : string;
  exclude_words : string;
  or_words : string;
  site : string;
  filetype : string;
  intitle : string;
  inurl : string;
  range_from : string;
  range_to : string;
  range_unit : string;
  before : string;
  after : string;
  search_type : string;
  image_size : string;
  aspect_ratio : string;
  color_filter : string;
  specific_color : string;
  image_type : string;
  region : string;
  usage_rights : string
}.

(** The record with every field at the default of the dataclass. *)
Definition default_parts : SearchParts := {|
  all_words := ""; terms_location := "anywhere"; exact_phrase := "";
  exclude_words := ""; or_words := ""; site := ""; filetype := "";
  intitle := ""; inurl := ""; range_from := ""; range_to := "";
  range_unit := ""; before := ""; after := ""; search_type := "Web";
  image_size := "Any size"; aspect_ratio := "Any aspect ratio";
  color_filter := "Any color"; specific_color := ""; image_type := "Any type";
  region := "Any region"; usage_rights := "All" |}.

(** ** [SearchParts.build_query]

    The method appends to the list [pieces] in eleven consecutive [if]
    blocks and joins the list at the end.  Each block is a function from the
    list before the block to the list after it. *)

Section BuildQuery.
Import Py.
Variable self : SearchParts.

Definition blk_all_words (pieces : list string) : list string :=
  if truthy (all_words self) then
    let words := strip (all_words self) in
    if terms_location self =? "title" then pieces ++ ["allintitle:" +:+ words]
    else if terms_location self =? "text" then pieces ++ ["allintext:" +:+ words]
    else if terms_location self =? "url" then pieces ++ ["allinurl:" +:+ words]
    else if terms_location self =? "links" then pieces ++ ["allinanchor:" +:+ words]
    else pieces ++ [words]
  else pieces.

Definition blk_exact_phrase (pieces : list string) : list string :=
  if truthy (exact_phrase self)
  then pieces ++ [dquote +:+ strip (exact_phrase self) +:+ dquote]
  else pieces.

Definition blk_exclude_words (pieces : list string) : list string :=
  if truthy (exclude_words self) then
    let ex := join " " (map (fun w => "-" +:+ w) (split (exclude_words self))) in
    pieces ++ [ex]
  else pieces.

Definition blk_or_words (pieces : list string) : list string :=
  if truthy (or_words self) then
    let ors :=
      join " OR "
        (map strip
           (List.filter (fun t => truthy (strip t)) (split_on "|" (or_words self)))) in
    if truthy ors then pieces ++ ["(" +:+ ors +:+ ")"] else pieces
  else pieces.

Definition blk_site (pieces : list string) : list string :=
  if truthy (site self) then pieces ++ ["site:" +:+ strip (site self)] else pieces.

Definition blk_filetype (pieces : list string) : list string :=
  if truthy (filetype self)
  then pieces ++ ["filetype:" +:+ strip (filetype self)] else pieces.

Definition blk_intitle (pieces : list string) : list string :=
  if truthy (intitle self)
  then pieces ++ ["intitle:" +:+ strip (intitle self)] else pieces.

Definition blk_inurl (pieces : list string) : list string :=
  if truthy (inurl self) then pieces ++ ["inurl:" +:+ strip (inurl self)] else pieces.

Definition blk_range (pieces : list string) : list string :=
  if truthy (range_from self) && truthy (range_to self) then
    let r_from := strip (range_from self) in
    let r_to := strip (range_to self) in
    let unit := strip (range_unit self) in
    let range_str :=
      if truthy unit then unit +:+ r_from +:+ ".." +:+ unit +:+ r_to
      else r_from +:+ ".." +:+ r_to in
    pieces ++ [range_str]
  else pieces.

Definition blk_before (pieces : list string) : list string :=
  if truthy (before self) then pieces ++ ["before:" +:+ strip (before self)] else pieces.

Definition blk_after (pieces : list string) : list string :=
  if truthy (after self) then pieces ++ ["after:" +:+ strip (after self)] else pieces.

(** The list [pieces] at the [return] statement. *)
Definition pieces_of : list string :=
  let pieces := [] in
  let pieces := blk_all_words pieces in
  let pieces := blk_exact_phrase pieces in
  let pieces := blk_exclude_words pieces in
  let pieces := blk_or_words pieces in
  let pieces := blk_site pieces in
  let pieces := blk_filetype pieces in
  let pieces := blk_intitle pieces in
  let pieces := blk_inurl pieces in
  let pieces := blk_range pieces in
  let pieces := blk_before pieces in
  let pieces := blk_after pieces in
  pieces.

Definition build_query : string := strip (join " " pieces_of).

End BuildQuery.

(** ** [urllib.parse.quote_plus] *)

Module Urllib.
Import Py.

(** [str.encode('utf-8')] on a code point below 256: one byte below 128,
    two bytes from 128 on. *)
Definition utf8_char (c : ascii) : list Byte.byte :=
  let n := nat_of_ascii c in
  if (n <? 128)%nat then [byte_of_ascii c]
  else [byte_of_ascii (ascii_of_nat (192 + n / 64));
        byte_of_ascii (ascii_of_nat (128 + n mod 64))].

Fixpoint utf8 (s : string) : list Byte.byte :=
  match s with
  | EmptyString => []
  | String c s' => utf8_char c ++ utf8 s'
  end.

(** [_ALWAYS_SAFE]: the letters, the digits and [_.-~]. *)
Definition always_safe (b : Byte.byte) : bool :=
  let n := Byte.to_nat b in
  (((65 <=? n) && (n <=? 90)) || ((97 <=? n) && (n <=? 122))
   || ((48 <=? n) && (n <=? 57))
   || (n =? 95) || (n =? 46) || (n =? 45) || (n =? 126))%nat.

Definition hex_digit (d : nat) : ascii :=
  match String.get d "0123456789ABCDEF" with
  | Some c => c
  | None => "0"%char
  end.

(** ['%{:02X}'.format(b)] *)
Definition percent_hex (b : Byte.byte) : string :=
  let n := Byte.to_nat b in
  String "%" (String (hex_digit (n / 16)) (String (hex_digit (n mod 16)) EmptyString)).

(** [_Quoter.__missing__] for a given safe set. *)
Definition quoter (safe : Byte.byte -> bool) (b : Byte.byte) : string :=
  if safe b then String (ascii_of_byte b) EmptyString else percent_hex b.

(** [quote_from_bytes]: when every byte is safe the bytes come back decoded,
    which is what the general branch computes as well. *)
Definition quote_from_bytes (safe : Byte.byte -> bool) (bs : list Byte.byte) : string :=
  String.concat EmptyString (map (quoter safe) bs).

(** [quote(string, safe)], with [safe] given as the whole safe set. *)
Definition quote (safe : Byte.byte -> bool) (s : string) : string :=
  if truthy s then quote_from_bytes safe (utf8 s) else s.

Definition is_space_byte (b : Byte.byte) : bool := (Byte.to_nat b =? 32)%nat.

(** [quote_plus(string)] with the default [safe=''] *)
Definition quote_plus (s : string) : string :=
  if negb (contains_char " " s) then quote always_safe s
  else
    let s' := quote (fun b => always_safe b || is_space_byte b) s in
    replace_char " " "+" s'.

End Urllib.

(** ** [MainWindow.update_preview] *)

(** A [dict] literal with [str] keys and values, and [d.get(k)]. *)
Definition dict := list (string * string).

Fixpoint dict_get (d : dict) (k : string) : option string :=
  match d with
  | [] => None
  | (k', v) :: d' => if k' =? k then Some v else dict_get d' k
  end.

Definition tbm_map : dict :=
  [("Images", "isch"); ("Videos", "vid"); ("News", "nws")].

Definition size_map : dict :=
  [("Large", "isz:l"); ("Medium", "isz:m"); ("Icon", "isz:i")].

Definition aspect_map : dict :=
  [("Square", "iar:s"); ("Tall", "iar:t"); ("Wide", "iar:w"); ("Panoramic", "iar:xw")].

Definition color_map : dict :=
  [("Full color", "ic:color"); ("Black and white", "ic:gray");
   ("Transparent", "ic:trans")].

Definition spec_map : dict :=
  [("Black", "isc:black"); ("Blue", "isc:blue"); ("Brown", "isc:brown");
   ("Gray", "isc:gray"); ("Green", "isc:green"); ("Orange", "isc:orange");
   ("Pink", "isc:pink"); ("Purple", "isc:purple"); ("Red", "isc:red");
   ("Teal", "isc:teal"); ("White", "isc:white"); ("Yellow", "isc:yellow")].

Definition type_map : dict :=
  [("Face", "itp:face"); ("Photo", "itp:photo"); ("Clip art", "itp:clipart");
   ("Line drawing", "itp:lineart"); ("Animated", "itp:animated")].

Definition usage_map : dict :=
  [("Free to use or share", "sur:f");
   ("Free to use or share commercially", "sur:fc");
   ("Free to use or share or modify", "sur:fm");
   ("Free to use or share or modify commercially", "sur:fmc")].

(** [self.region_map], set in [__init__] *)
Definition region_map : dict :=
  [("Afghanistan", "countryAF"); ("Albania", "countryAL"); ("Algeria", "countryDZ");
   ("Australia", "countryAU"); ("Brazil", "countryBR"); ("Canada", "countryCA");
   ("France", "countryFR"); ("Germany", "countryDE"); ("India", "countryIN");
   ("Japan", "countryJP"); ("United Kingdom", "countryGB");
   ("United States", "countryUS")].

(** [if k in d: l.append(d[k])] *)
Definition append_code (d : dict) (k : string) (l : list string) : list string :=
  match dict_get d k with
  | Some code => l ++ [code]
  | None => l
  end.

(** The list [tbs_parts] built in the [Images] branch. *)
Definition tbs_parts_of (sp : SearchParts) : list string :=
  let tbs_parts := [] in
  let tbs_parts := append_code size_map (image_size sp) tbs_parts in
  let tbs_parts := append_code aspect_map (aspect_ratio sp) tbs_parts in
  let tbs_parts :=
    match dict_get color_map (color_filter sp) with
    | Some code => (tbs_parts ++ [code])%list
    | None =>
        if (color_filter sp =? "Specific color") && Py.truthy (specific_color sp)
        then append_code spec_map (specific_color sp) tbs_parts
        else tbs_parts
    end in
  let tbs_parts := append_code type_map (image_type sp) tbs_parts in
  let tbs_parts := append_code usage_map (usage_rights sp) tbs_parts in
  tbs_parts.

(** The string [url_frag] built after the guard on the empty query:
    [search_type] is the text of the search-type selector, [q] the query. *)
Definition url_frag_of (search_type : string) (sp : SearchParts) (q : string) : string :=
  let url_frag := "q=" +:+ Urllib.quote_plus q in
  let url_frag :=
    match dict_get tbm_map search_type with
    | Some code => url_frag +:+ "&tbm=" +:+ code
    | None => url_frag
    end in
  if search_type =? "Images" then
    let tbs_parts := tbs_parts_of sp in
    let url_frag :=
      match tbs_parts with
      | [] => url_frag
      | _ :: _ => url_frag +:+ "&tbs=" +:+ Py.join "," tbs_parts
      end in
    let url_frag :=
      match dict_get region_map (region sp) with
      | Some code => url_frag +:+ "&cr=" +:+ code
      | None => url_frag
      end in
    url_frag
  else url_frag.

(** What the preview pane shows: the placeholder text for an empty query, or
    the URL query string. *)
Inductive preview_text :=
  | EmptyPreview
  | UrlPreview (url_frag : string).

(** The body of [update_preview] once [sp = self.gather_parts()] is known. *)
Definition update_preview_of (search_type : string) (sp : SearchParts) : preview_text :=
  let q := build_query sp in
  if negb (Py.truthy q) then EmptyPreview
  else UrlPreview (url_frag_of search_type sp q).

(** The form: the text of every input and selector, the two date check
    boxes, and the two date editors as [toString] prints their dates with the
    format yyyy-MM-dd. *)
Record Widgets := mkWidgets {
  all_input : string;
  terms_combo : string;
  exact_input : string;
  exclude_input : string;
  or_input : string;
  site_input : string;
  filetype_input : string;
  intitle_input : string;
  inurl_input : string;
  range_from_input : string;
  range_to_input : string;
  range_unit_input : string;
  after_checkbox : bool;
  after_dateedit : string;
  before_checkbox : bool;
  before_dateedit : string;
  search_type_combo : string;
  image_size_combo : string;
  aspect_combo : string;
  color_combo : string;
  specific_color_combo : string;
  image_type_combo : string;
  region_combo : string;
  usage_combo : string
}.

Definition terms_location_map : dict :=
  [("anywhere in the page", "anywhere"); ("in the title of the page", "title");
   ("in the text of the page", "text"); ("in the URL of the page", "url");
   ("in links to the page", "links")].

(** [MainWindow.gather_parts]; [None] stands for the [KeyError] of the
    look-up in [terms_location_map]. *)
Definition gather_parts (w : Widgets) : option SearchParts :=
  let after_str := if after_checkbox w then after_dateedit w else "" in
  let before_str := if before_checkbox w then before_dateedit w else "" in
  match dict_get terms_location_map (terms_combo w) with
  | None => None
  | Some terms_location =>
      let specific_color :=
        if color_combo w =? "Specific color" then specific_color_combo w else "" in
      Some {|
        all_words := all_input w;
        terms_location := terms_location;
        exact_phrase := exact_input w;
        exclude_words := exclude_input w;
        or_words := or_input w;
        site := site_input w;
        filetype := filetype_input w;
        intitle := intitle_input w;
        inurl := inurl_input w;
        range_from := range_from_input w;
        range_to := range_to_input w;
        range_unit := range_unit_input w;
        before := before_str;
        after := after_str;
        search_type := search_type_combo w;
        image_size := image_size_combo w;
        aspect_ratio := aspect_combo w;
        color_filter := color_combo w;
        specific_color := specific_color;
        image_type := image_type_combo w;
        region := region_combo w;
        usage_rights := usage_combo w |}
  end.

(** [MainWindow.update_preview] *)
Definition update_preview (w : Widgets) : option preview_text :=
  match gather_parts w with
  | None => None
  | Some sp => Some (update_preview_of (search_type_combo w) sp)
  end.

(** ** [json.dumps] on the [__dict__] of a record *)

Module Json.

Definition hex_lower (d : nat) : ascii :=
  match String.get d "0123456789abcdef" with
  | Some c => c
  | None => "0"%char
  end.

(** ['\\u{0:04x}'.format(n)] for [n] below 256 *)
Definition u_escape (n : nat) : string :=
  "\u00" +:+ String (hex_lower (n / 16)) (String (hex_lower (n mod 16)) EmptyString).

(** The replacement of one character by [encode_basestring_ascii]:
    [ESCAPE_ASCII] matches the backslash, the double quote and everything
    outside the range from the space to the tilde. *)
Definition escape_char (c : ascii) : string :=
  let n := nat_of_ascii c in
  if (n =? 92)%nat then "\\"
  else if (n =? 34)%nat then "\" +:+ dquote
  else if ((32 <=? n) && (n <=? 126))%nat then String c EmptyString
  else if (n =? 8)%nat then "\b"
  else if (n =? 12)%nat then "\f"
  else if (n =? 10)%nat then "\n"
  else if (n =? 13)%nat then "\r"
  else if (n =? 9)%nat then "\t"
  else u_escape n.

Fixpoint escape (s : string) : string :=
  match s with
  | EmptyString => EmptyString
  | String c s' => escape_char c +:+ escape s'
  end.

Definition encode_basestring_ascii (s : string) : string :=
  dquote +:+ escape s +:+ dquote.

(** [json.dumps(d)] for a [dict] from [str] to [str], items in insertion
    order, with the default separators. *)
Definition dumps_dict (d : list (string * string)) : string :=
  "{" +:+
  Py.join ", "
    (map (fun kv => encode_basestring_ascii (fst kv) +:+ ": "
                    +:+ encode_basestring_ascii (snd kv)) d)
  +:+ "}".

End Json.

(** [SearchParts.__dict__]: the fields in the order of their declaration. *)
Definition dict_of_parts (sp : SearchParts) : list (string * string) :=
  [("all_words", all_words sp); ("terms_location", terms_location sp);
   ("exact_phrase", exact_phrase sp); ("exclude_words", exclude_words sp);
   ("or_words", or_words sp); ("site", site sp); ("filetype", filetype sp);
   ("intitle", intitle sp); ("inurl", inurl sp); ("range_from", range_from sp);
   ("range_to", range_to sp); ("range_unit", range_unit sp);
   ("before", before sp); ("after", after sp); ("search_type", search_type sp);
   ("image_size", image_size sp); ("aspect_ratio", aspect_ratio sp);
   ("color_filter", color_filter sp); ("specific_color", specific_color sp);
   ("image_type", image_type sp); ("region", region sp);
   ("usage_rights", usage_rights sp)].

(** ** [configparser.ConfigParser] with its default settings

    The class as CPython 3.11 has it, which the program creates with
    [ConfigParser()].  Delimiters [=] and [:], comment prefixes [#] and [;], no inline
    comments, strict, empty lines allowed in values, default section
    DEFAULT, [BasicInterpolation], option names lower-cased. *)

Module ConfigParser.
Import Py.

(** An insertion-ordered [dict] with [str] keys. *)
Section OrderedDict.
Context {V : Type}.

Fixpoint od_get (d : list (string * V)) (k : string) : option V :=
  match d with
  | [] => None
  | (k', v) :: d' => if k' =? k then Some v else od_get d' k
  end.

(** [d[k] = v]: an existing key keeps its place *)
Fixpoint od_set (d : list (string * V)) (k : string) (v : V) : list (string * V) :=
  match d with
  | [] => [(k, v)]
  | (k', v') :: d' => if k' =? k then (k, v) :: d' else (k', v') :: od_set d' k v
  end.

Definition od_mem (d : list (string * V)) (k : string) : bool :=
  match od_get d k with Some _ => true | None => false end.

End OrderedDict.

Definition DEFAULTSECT : string := "DEFAULT".
Definition MAX_INTERPOLATION_DEPTH : nat := 10.

(** The parser object: [_defaults] and [_sections]. *)
Record t := mk {
  defaults : list (string * string);
  sections : list (string * list (string * string))
}.

(** [ConfigParser()] *)
Definition empty : t := mk [] [].

Definition optionxform (optionstr : string) : string := lower optionstr.

Definition has_section (cfg : t) (section : string) : bool :=
  od_mem (sections cfg) section.

(** [key in config] *)
Definition contains (cfg : t) (key : string) : bool :=
  (key =? DEFAULTSECT) || has_section cfg key.

Definition has_option (cfg : t) (section optname : string) : bool :=
  if negb (truthy section) || (section =? DEFAULTSECT) then
    od_mem (defaults cfg) (optionxform optname)
  else
    match od_get (sections cfg) section with
    | None => false
    | Some sect =>
        od_mem sect (optionxform optname) || od_mem (defaults cfg) (optionxform optname)
    end.

(** *** Interpolation *)

(** [_KEYCRE] matches a percent sign, an opening parenthesis, a non-empty
    name, a closing parenthesis and the letter s.  [key_name s] reads the part
    of a match that follows the opening parenthesis: a non-empty name with
    no closing parenthesis in it, then the closing parenthesis and [s].  It
    gives the name and the number of characters read. *)
Fixpoint key_name (s : string) : option (string * nat) :=
  match s with
  | EmptyString => None
  | String c s' =>
      if Ascii.eqb c ")" then None
      else
        match s' with
        | String ")" (String "s" _) => Some (String c EmptyString, 3)
        | _ =>
            match key_name s' with
            | Some (name, n) => Some (String c name, S n)
            | None => None
            end
        end
  end.

(** [_KEYCRE.match(s)] for an [s] taken after its first character, which is
    the percent sign: the name, and the number of characters of [s] that
    the match covers. *)
Definition keycre_match (s : string) : option (string * nat) :=
  match s with
  | String "(" s' =>
      match key_name s' with
      | Some (name, n) => Some (name, S n)
      | None => None
      end
  | _ => None
  end.

(** [value.replace('%%', '')] *)
Fixpoint drop_escaped_percent (s : string) : string :=
  match s with
  | EmptyString => EmptyString
  | String "%" (String "%" s') => drop_escaped_percent s'
  | String c s' => String c (drop_escaped_percent s')
  end.

(** [_KEYCRE.sub('', s)]: the matches are removed from left to right;
    [skip] counts the characters of the current match still to be dropped. *)
Fixpoint keycre_sub (skip : nat) (s : string) : string :=
  match s with
  | EmptyString => EmptyString
  | String c s' =>
      match skip with
      | S k => keycre_sub k s'
      | O =>
          if Ascii.eqb c "%" then
            match keycre_match s' with
            | Some (_, n) => keycre_sub n s'
            | None => String c (keycre_sub 0 s')
            end
          else String c (keycre_sub 0 s')
      end
  end.

(** [BasicInterpolation.before_set]; [None] stands for the [ValueError]. *)
Definition before_set (value : string) : option string :=
  let tmp_value := drop_escaped_percent value in
  let tmp_value := keycre_sub 0 tmp_value in
  if contains_char "%" tmp_value then None else Some value.

(** [_interpolate_some], giving the joined [accum]; [None] stands for any
    of the interpolation errors.  [fuel] is the number of nested calls
    still allowed: the call of depth [d] runs with
    [MAX_INTERPOLATION_DEPTH + 1 - d]. *)
Fixpoint interpolate_some (map : list (string * string)) (fuel : nat) (rest : string)
  : option string :=
  match fuel with
  | O => None
  | S fuel' =>
      (fix loop (skip : nat) (rest : string) {struct rest} : option string :=
         match rest with
         | EmptyString => Some EmptyString
         | String c r =>
             match skip with
             | S k => loop k r
             | O =>
                 if Ascii.eqb c "%" then
                   match r with
                   | String "%" _ =>
                       match loop 1 r with
                       | Some out => Some (String "%" out)
                       | None => None
                       end
                   | String "(" _ =>
                       match keycre_match r with
                       | None => None
                       | Some (name, n) =>
                           match od_get map (optionxform name) with
                           | None => None
                           | Some v =>
                               let expanded :=
                                 if contains_char "%" v
                                 then interpolate_some map fuel' v
                                 else Some v in
                               match expanded, loop n r with
                               | Some x, Some out => Some (x +:+ out)
                               | _, _ => None
                               end
                           end
                       end
                   | _ => None
                   end
                 else
                   match loop 0 r with
                   | Some out => Some (String c out)
                   | None => None
                   end
             end
         end) 0 rest
  end.

(** [BasicInterpolation.before_get] *)
Definition before_get (value : string) (map : list (string * string)) : option string :=
  interpolate_some map MAX_INTERPOLATION_DEPTH value.

(** The look-up order of [_unify_values] without [vars]: the section, then
    the defaults. *)
Definition unify_values (cfg : t) (section : string) : option (list (string * string)) :=
  match od_get (sections cfg) section with
  | Some sect => Some (sect ++ defaults cfg)%list
  | None => if section =? DEFAULTSECT then Some (defaults cfg) else None
  end.

(** The three ways [get] can end. *)
Inductive got :=
  | Value (v : string)
  | Missing
  | Raised.

(** [parser.get(section, option)]: [Missing] when the section or the option
    is not there, [Raised] when the interpolation fails. *)
Definition get (cfg : t) (section optname : string) : got :=
  match unify_values cfg section with
  | None => Missing
  | Some d =>
      match od_get d (optionxform optname) with
      | None => Missing
      | Some value =>
          match before_get value d with
          | Some v => Value v
          | None => Raised
          end
      end
  end.

(** [section[key]] of a section proxy; [None] stands for an exception. *)
Definition getitem (cfg : t) (section key : string) : option string :=
  if has_option cfg section key then
    match get cfg section key with
    | Value v => Some v
    | _ => None
    end
  else None.

(** [section.get(option, fallback)] of a section proxy. *)
Definition get_fallback (cfg : t) (section optname fallback : string) : option string :=
  match get cfg section optname with
  | Value v => Some v
  | Missing => Some fallback
  | Raised => None
  end.

(** *** Building and writing *)

(** [config[key] = {}] *)
Definition setitem_empty (cfg : t) (key : string) : t :=
  if key =? DEFAULTSECT then mk [] (sections cfg)
  else mk (defaults cfg) (od_set (sections cfg) key []).

(** [config[section][option] = value]; [None] stands for an exception. *)
Definition set (cfg : t) (section optname value : string) : option t :=
  if negb (section =? DEFAULTSECT) && negb (has_section cfg section) then None
  else
    match (if truthy value then before_set value else Some value) with
    | None => None
    | Some value =>
        if negb (truthy section) || (section =? DEFAULTSECT) then
          Some (mk (od_set (defaults cfg) (optionxform optname) value) (sections cfg))
        else
          match od_get (sections cfg) section with
          | None => None
          | Some sect =>
              Some (mk (defaults cfg)
                      (od_set (sections cfg) section
                         (od_set sect (optionxform optname) value)))
          end
    end.

Definition newline : string := String "010" EmptyString.
Definition tab : string := String "009" EmptyString.

(** [_write_section] *)
Definition write_section (section_name : string) (items : list (string * string)) : string :=
  "[" +:+ section_name +:+ "]" +:+ newline +:+
  String.concat EmptyString
    (map (fun kv => fst kv +:+ " = " +:+ replace_char "010" (newline +:+ tab) (snd kv)
                    +:+ newline) items)
  +:+ newline.

(** [config.write(f)]: the text written to the file. *)
Definition write (cfg : t) : string :=
  (if defaults cfg is [] then EmptyString else write_section DEFAULTSECT (defaults cfg))
  +:+ String.concat EmptyString (map (fun s => write_section (fst s) (snd s)) (sections cfg)).

(** *** Reading *)

(** The translation of line ends done by a file opened for reading in text
    mode: CR LF and a lone CR become LF. *)
Fixpoint universal_newlines (s : string) : string :=
  match s with
  | EmptyString => EmptyString
  | String "013" (String "010" s') => String "010" (universal_newlines s')
  | String "013" s' => String "010" (universal_newlines s')
  | String c s' => String c (universal_newlines s')
  end.

(** The lines that iterating over the file yields, without their line end. *)
Definition file_lines (text : string) : list string :=
  let pieces := split_on "010" (universal_newlines text) in
  match last pieces with
  | Some EmptyString => removelast pieces
  | _ => pieces
  end.

Definition startswith (c : ascii) (s : string) : bool :=
  match s with
  | String a _ => Ascii.eqb a c
  | EmptyString => false
  end.

Fixpoint leading_space (line : string) : nat :=
  match line with
  | EmptyString => 0
  | String c s' => if isspace c then S (leading_space s') else 0
  end.

(** [first_nonspace.start() if first_nonspace else 0] for
    [first_nonspace = NONSPACECRE.search(line)] *)
Definition first_nonspace_start (line : string) : nat :=
  if truthy (lstrip line) then leading_space line else 0.

(** [s[:s.rfind(c)]], [None] when [c] does not occur *)
Fixpoint upto_last (c : ascii) (s : string) : option string :=
  match s with
  | EmptyString => None
  | String a s' =>
      match upto_last c s' with
      | Some p => Some (String a p)
      | None => if Ascii.eqb a c then Some EmptyString else None
      end
  end.

(** [SECTCRE.match(value)]: the pattern is an opening bracket, a greedy
    non-empty header and a closing bracket, so the header runs from after
    the opening bracket to before the last closing bracket. *)
Definition sectcre_match (value : string) : option string :=
  match value with
  | String "[" rest =>
      match upto_last "]" rest with
      | Some header => if truthy header then Some header else None
      | None => None
      end
  | _ => None
  end.

Definition is_delimiter (c : ascii) : bool := Ascii.eqb c "=" || Ascii.eqb c ":".

(** The text before the first delimiter and the text after it. *)
Fixpoint split_delimiter (value : string) : option (string * string) :=
  match value with
  | EmptyString => None
  | String c s' =>
      if is_delimiter c then Some (EmptyString, s')
      else
        match split_delimiter s' with
        | Some (o, v) => Some (String c o, v)
        | None => None
        end
  end.

(** [_optcre.match(value)], groups [option] and [value]: the pattern is a
    lazy option name, optional white space, one delimiter, optional white
    space and the rest of the line, so the name ends before the white space
    that precedes the first delimiter. *)
Definition optcre_match (value : string) : option (string * string) :=
  match split_delimiter value with
  | Some (o, v) => Some (rstrip o, lstrip v)
  | None => None
  end.

(** The local variables of [_read] and the two tables under construction,
    whose values are still lists of lines. *)
Record read_state := mk_read_state {
  r_defaults : list (string * list string);
  r_sections : list (string * list (string * list string));
  added_sections : list string;
  added_options : list (string * string);
  sectname : option string;
  optname : option string;
  indent_level : nat;
  e : bool
}.

Definition read_start (cfg : t) : read_state :=
  mk_read_state
    (map (fun kv => (fst kv, [snd kv])) (defaults cfg))
    (map (fun s => (fst s, map (fun kv => (fst kv, [snd kv])) (snd s))) (sections cfg))
    [] [] None None 0 false.

(** [cursect], found through [sectname]: [None] before the first header. *)
Definition cursect (st : read_state) : option (list (string * list string)) :=
  match sectname st with
  | None => None
  | Some name =>
      match od_get (r_sections st) name with
      | Some sect => Some sect
      | None => Some (r_defaults st)
      end
  end.

Definition set_cursect (st : read_state) (sect : list (string * list string)) : read_state :=
  match sectname st with
  | None => st
  | Some name =>
      if od_mem (r_sections st) name
      then mk_read_state (r_defaults st) (od_set (r_sections st) name sect)
             (added_sections st) (added_options st) (sectname st) (optname st)
             (indent_level st) (e st)
      else mk_read_state sect (r_sections st)
             (added_sections st) (added_options st) (sectname st) (optname st)
             (indent_level st) (e st)
  end.

(** [cursect[optname].append(line)] *)
Definition append_to_option (st : read_state) (name line : string) : read_state :=
  match cursect st with
  | None => st
  | Some sect =>
      match od_get sect name with
      | None => st
      | Some val => set_cursect st (od_set sect name (val ++ [line])%list)
      end
  end.

Definition mem_string (x : string) (l : list string) : bool :=
  existsb (String.eqb x) l.

Definition mem_pair (x : string * string) (l : list (string * string)) : bool :=
  existsb (fun y => (fst x =? fst y) && (snd x =? snd y)) l.

(** The current option when there is one to continue: [cursect is not None
    and optname]. *)
Definition open_option (st : read_state) : option string :=
  match cursect st, optname st with
  | Some _, Some name => if truthy name then Some name else None
  | _, _ => None
  end.

Definition with_indent (st : read_state) (n : nat) : read_state :=
  mk_read_state (r_defaults st) (r_sections st) (added_sections st)
    (added_options st) (sectname st) (optname st) n (e st).

Definition with_error (st : read_state) : read_state :=
  mk_read_state (r_defaults st) (r_sections st) (added_sections st)
    (added_options st) (sectname st) (optname st) (indent_level st) true.

(** The branch of [_read] for a section header: [cursect] moves to the
    section and [optname] is reset. *)
Definition read_header (st : read_state) (name : string) : option read_state :=
  if od_mem (r_sections st) name then
    if mem_string name (added_sections st) then None
    else Some (mk_read_state (r_defaults st) (r_sections st)
                 (name :: added_sections st) (added_options st)
                 (Some name) None (indent_level st) (e st))
  else if name =? DEFAULTSECT then
    Some (mk_read_state (r_defaults st) (r_sections st)
            (added_sections st) (added_options st)
            (Some name) None (indent_level st) (e st))
  else
    Some (mk_read_state (r_defaults st) (od_set (r_sections st) name [])
            (name :: added_sections st) (added_options st)
            (Some name) None (indent_level st) (e st)).

(** The branch of [_read] for an option line. *)
Definition read_option (st : read_state) (value : string) : option read_state :=
  match sectname st, cursect st with
  | Some sname, Some sect =>
      match optcre_match value with
      | Some (o, optval) =>
          let e' := e st || negb (truthy o) in
          let o := optionxform (rstrip o) in
          if mem_pair (sname, o) (added_options st) then None
          else
            let st := mk_read_state (r_defaults st) (r_sections st)
                        (added_sections st) ((sname, o) :: added_options st)
                        (sectname st) (Some o) (indent_level st) e' in
            Some (set_cursect st (od_set sect o [strip optval]))
      | None => Some (with_error st)
      end
  | _, _ => None
  end.

(** One turn of the loop of [_read]; [None] stands for an exception raised
    on the spot. *)
Definition read_line (st : read_state) (line : string) : option read_state :=
  let stripped := strip line in
  let comment := startswith "#" stripped || startswith ";" stripped in
  let value := if comment then EmptyString else stripped in
  if negb (truthy value) then
    match open_option st with
    | Some name =>
        if comment then Some st else Some (append_to_option st name EmptyString)
    | None => Some st
    end
  else
    let cur_indent_level := first_nonspace_start line in
    let continued :=
      match open_option st with
      | Some name => if (indent_level st <? cur_indent_level)%nat then Some name else None
      | None => None
      end in
    match continued with
    | Some name => Some (append_to_option st name value)
    | None =>
        let st := with_indent st cur_indent_level in
        match sectcre_match value with
        | Some name => read_header st name
        | None => read_option st value
        end
    end.

Fixpoint read_lines (st : read_state) (lines : list string) : option read_state :=
  match lines with
  | [] => Some st
  | line :: lines' =>
      match read_line st line with
      | Some st' => read_lines st' lines'
      | None => None
      end
  end.

(** [_join_multiline_values] on one value *)
Definition join_value (val : list string) : string := rstrip (join newline val).

(** [config.read(filename)] on a parser and the text of a file that can be
    opened; [None] stands for an exception. *)
Definition read (cfg : t) (text : string) : option t :=
  match read_lines (read_start cfg) (file_lines text) with
  | None => None
  | Some st =>
      if e st then None
      else
        Some (mk (map (fun kv => (fst kv, join_value (snd kv))) (r_defaults st))
                (map (fun s => (fst s, map (fun kv => (fst kv, join_value (snd kv))) (snd s)))
                   (r_sections st)))
  end.

End ConfigParser.

(** ** The recent-queries store

    The state is the list [self._recent_data] and the file [GSearch.ini]:
    [None] when the file does not exist, its text otherwise (the file is
    written as UTF-8 and read in the encoding of the locale; the text is
    taken to be the same under both).  The decoder
    [json.loads] and the type of what it returns are parameters, and so is
    [json.dumps] on a decoded value; [json.dumps] on the dictionary of a
    record is [Json.dumps_dict]. *)

Definition MAX_RECENT : nat := 20.

Section Store.
Variable J : Type.
Variable json_loads : string -> option J.
Variable json_dumps : J -> string.

(** The value under the key [parts] of an entry: the [__dict__] of a record
    gathered from the form, or a value decoded from the file. *)
Inductive parts_value :=
  | FormDict (sp : SearchParts)
  | Decoded (j : J).

Record entry := mk_entry {
  query : string;
  parts : parts_value
}.

Record store := mk_store {
  _recent_data : list entry;
  file : option string
}.

Definition dumps_parts (p : parts_value) : string :=
  match p with
  | FormDict sp => Json.dumps_dict (dict_of_parts sp)
  | Decoded j => json_dumps j
  end.

Definition query_key (i : nat) : string := "query_" +:+ Py.str_of_nat i.
Definition parts_key (i : nat) : string := "parts_" +:+ Py.str_of_nat i.

(** The [for] loop of [_write_recent_to_disk], from index [i] on; [None]
    stands for an exception. *)
Fixpoint write_entries (i : nat) (entries : list entry) (config : ConfigParser.t)
  : option ConfigParser.t :=
  match entries with
  | [] => Some config
  | entry :: entries' =>
      match ConfigParser.set config "Recent" (query_key i) (query entry) with
      | None => None
      | Some config =>
          match ConfigParser.set config "Recent" (parts_key i) (dumps_parts (parts entry)) with
          | None => None
          | Some config => write_entries (S i) entries' config
          end
      end
  end.

(** [_write_recent_to_disk]: an exception leaves the file as it was. *)
Definition _write_recent_to_disk (st : store) : store :=
  let config := ConfigParser.empty in
  let config := ConfigParser.setitem_empty config "Recent" in
  match write_entries 1 (_recent_data st) config with
  | Some config => mk_store (_recent_data st) (Some (ConfigParser.write config))
  | None => st
  end.

(** How the body of a [try] ends. *)
Inductive outcome :=
  | Finished
  | Exception
  | OutOfFuel.

(** The [while] loop of [load_recent_from_disk]: the list appended to so
    far, and how the loop ends. *)
Fixpoint read_entries (fuel i : nat) (config : ConfigParser.t) (data : list entry)
  : list entry * outcome :=
  match fuel with
  | O => (data, OutOfFuel)
  | S fuel' =>
      if ConfigParser.has_option config "Recent" (query_key i) then
        match ConfigParser.getitem config "Recent" (query_key i) with
        | None => (data, Exception)
        | Some query =>
            match ConfigParser.get_fallback config "Recent" (parts_key i) "{}" with
            | None => (data, Exception)
            | Some parts_str =>
                match json_loads parts_str with
                | None => (data, Exception)
                | Some parts =>
                    read_entries fuel' (S i) config (data ++ [mk_entry query (Decoded parts)])
                end
            end
        end
      else (data, Finished)
  end.

(** The option names a look-up in the section [Recent] can find; the loop
    cannot make more turns than there are such names. *)
Definition visible_options (config : ConfigParser.t) : list string :=
  match ConfigParser.od_get (ConfigParser.sections config) "Recent" with
  | Some sect => map fst sect ++ map fst (ConfigParser.defaults config)
  | None => map fst (ConfigParser.defaults config)
  end.

(** The body of the [try] statement of [load_recent_from_disk] on the text
    of the file. *)
Definition load_body (st : store) (text : string) : list entry * outcome :=
  match ConfigParser.read ConfigParser.empty text with
  | None => (_recent_data st, Exception)
  | Some config =>
      let data := [] in
      if ConfigParser.contains config "Recent"
      then read_entries (S (length (visible_options config))) 1 config data
      else (data, Finished)
  end.

(** [load_recent_from_disk] *)
Definition load_recent_from_disk (st : store) : store :=
  match file st with
  | None => _write_recent_to_disk (mk_store [] (file st))
  | Some text =>
      match load_body st text with
      | (_, Exception) => mk_store [] (file st)
      | (data, _) => mk_store data (file st)
      end
  end.

(** [save_current_query] for the record [sp] that [gather_parts] returns. *)
Definition save_current_query (sp : SearchParts) (st : store) : store :=
  let text_q := build_query sp in
  if negb (Py.truthy text_q) then st
  else
    let entry := mk_entry text_q (FormDict sp) in
    let data := List.filter (fun e => negb (query e =? text_q)) (_recent_data st) in
    let data := entry :: data in
    let data := take MAX_RECENT data in
    _write_recent_to_disk (mk_store data (file st)).

(** [delete_selected_recent] for the row [idx] of the selected item. *)
Definition delete_selected_recent (idx : nat) (st : store) : store :=
  if (length (_recent_data st) <=? idx)%nat then st
  else _write_recent_to_disk (mk_store (delete idx (_recent_data st)) (file st)).

End Store.

Arguments FormDict {J} sp.
Arguments Decoded {J} j.
Arguments mk_entry {J} query parts.
Arguments query {J} e.
Arguments parts {J} e.
Arguments mk_store {J} _ _.
Arguments _recent_data {J} s.
Arguments file {J} s.
Arguments read_entries {J} json_loads fuel i config data.
Arguments load_body {J} json_loads st text.
Arguments load_recent_from_disk {J} json_loads json_dumps st.
Arguments _write_recent_to_disk {J} json_dumps st.
Arguments write_entries {J} json_dumps i entries config.
Arguments save_current_query {J} json_dumps sp st.
Arguments delete_selected_recent {J} json_dumps idx st.
Arguments dumps_parts {J} json_dumps p.

(** ** The tokens of the query, item by item

    The eleven tokens in the order of the list of the specification, each
    [None] when it is left out.  [build_query] is compared with them below. *)

Section Tokens.
Import Py.
Variable sp : SearchParts.

Definition location_prefix (loc : string) : string :=
  if loc =? "title" then "allintitle:"
  else if loc =? "text" then "allintext:"
  else if loc =? "url" then "allinurl:"
  else if loc =? "links" then "allinanchor:"
  else EmptyString.

Definition tok_all_words : option string :=
  if truthy (all_words sp)
  then Some (location_prefix (terms_location sp) +:+ strip (all_words sp))
  else None.

Definition tok_exact_phrase : option string :=
  if truthy (exact_phrase sp)
  then Some (dquote +:+ strip (exact_phrase sp) +:+ dquote)
  else None.

Definition tok_exclude_words : option string :=
  if truthy (exclude_words sp)
  then Some (join " " (map (String "-") (split (exclude_words sp))))
  else None.

(** The OR group of a field value: split on the bar, trim each piece, drop
    the empty pieces, join the rest and wrap it in parentheses; no group
    when no piece remains. *)
Definition or_group (value : string) : option string :=
  match List.filter truthy (map strip (split_on "|" value)) with
  | [] => None
  | remaining => Some ("(" +:+ join " OR " remaining +:+ ")")
  end.

Definition tok_or_words : option string := or_group (or_words sp).

Definition tok_site : option string :=
  if truthy (site sp) then Some ("site:" +:+ strip (site sp)) else None.

Definition tok_filetype : option string :=
  if truthy (filetype sp) then Some ("filetype:" +:+ strip (filetype sp)) else None.

Definition tok_intitle : option string :=
  if truthy (intitle sp) then Some ("intitle:" +:+ strip (intitle sp)) else None.

Definition tok_inurl : option string :=
  if truthy (inurl sp) then Some ("inurl:" +:+ strip (inurl sp)) else None.

(** The range token with the unit and the two bounds trimmed. *)
Definition tok_range : option string :=
  if truthy (range_from sp) && truthy (range_to sp)
  then Some (strip (range_unit sp) +:+ strip (range_from sp) +:+ ".."
             +:+ strip (range_unit sp) +:+ strip (range_to sp))
  else None.

Definition tok_before : option string :=
  if truthy (before sp) then Some ("before:" +:+ strip (before sp)) else None.

Definition tok_after : option string :=
  if truthy (after sp) then Some ("after:" +:+ strip (after sp)) else None.

Definition tokens_in_order : list (option string) :=
  [tok_all_words; tok_exact_phrase; tok_exclude_words; tok_or_words; tok_site;
   tok_filetype; tok_intitle; tok_inurl; tok_range; tok_before; tok_after].

(** The field each token comes from, in the same order; the range token
    comes from the two bounds, listed here by the lower one. *)
Definition source_fields : list string :=
  [all_words sp; exact_phrase sp; exclude_words sp; or_words sp; site sp;
   filetype sp; intitle sp; inurl sp; range_from sp; before sp; after sp].

End Tokens.

(** Records for the examples: the default record with some fields set. *)
Definition with_all_words (v : string) (sp : SearchParts) : SearchParts :=
  mkSearchParts v (terms_location sp) (exact_phrase sp) (exclude_words sp)
    (or_words sp) (site sp) (filetype sp) (intitle sp) (inurl sp) (range_from sp)
    (range_to sp) (range_unit sp) (before sp) (after sp) (search_type sp)
    (image_size sp) (aspect_ratio sp) (color_filter sp) (specific_color sp)
    (image_type sp) (region sp) (usage_rights sp).

Definition with_exact_phrase (v : string) (sp : SearchParts) : SearchParts :=
  mkSearchParts (all_words sp) (terms_location sp) v (exclude_words sp)
    (or_words sp) (site sp) (filetype sp) (intitle sp) (inurl sp) (range_from sp)
    (range_to sp) (range_unit sp) (before sp) (after sp) (search_type sp)
    (image_size sp) (aspect_ratio sp) (color_filter sp) (specific_color sp)
    (image_type sp) (region sp) (usage_rights sp).

Definition with_exclude_words (v : string) (sp : SearchParts) : SearchParts :=
  mkSearchParts (all_words sp) (terms_location sp) (exact_phrase sp) v
    (or_words sp) (site sp) (filetype sp) (intitle sp) (inurl sp) (range_from sp)
    (range_to sp) (range_unit sp) (before sp) (after sp) (search_type sp)
    (image_size sp) (aspect_ratio sp) (color_filter sp) (specific_color sp)
    (image_type sp) (region sp) (usage_rights sp).

Definition with_or_words (v : string) (sp : SearchParts) : SearchParts :=
  mkSearchParts (all_words sp) (terms_location sp) (exact_phrase sp) (exclude_words sp)
    v (site sp) (filetype sp) (intitle sp) (inurl sp) (range_from sp)
    (range_to sp) (range_unit sp) (before sp) (after sp) (search_type sp)
    (image_size sp) (aspect_ratio sp) (color_filter sp) (specific_color sp)
    (image_type sp) (region sp) (usage_rights sp).

Definition with_site (v : string) (sp : SearchParts) : SearchParts :=
  mkSearchParts (all_words sp) (terms_location sp) (exact_phrase sp) (exclude_words sp)
    (or_words sp) v (filetype sp) (intitle sp) (inurl sp) (range_from sp)
    (range_to sp) (range_unit sp) (before sp) (after sp) (search_type sp)
    (image_size sp) (aspect_ratio sp) (color_filter sp) (specific_color sp)
    (image_type sp) (region sp) (usage_rights sp).

Definition with_range (r_from r_to unit : string) (sp : SearchParts) : SearchParts :=
  mkSearchParts (all_words sp) (terms_location sp) (exact_phrase sp) (exclude_words sp)
    (or_words sp) (site sp) (filetype sp) (intitle sp) (inurl sp) r_from
    r_to unit (before sp) (after sp) (search_type sp)
    (image_size sp) (aspect_ratio sp) (color_filter sp) (specific_color sp)
    (image_type sp) (region sp) (usage_rights sp).

Definition with_search_type (v : string) (sp : SearchParts) : SearchParts :=
  mkSearchParts (all_words sp) (terms_location sp) (exact_phrase sp) (exclude_words sp)
    (or_words sp) (site sp) (filetype sp) (intitle sp) (inurl sp) (range_from sp)
    (range_to sp) (range_unit sp) (before sp) (after sp) v
    (image_size sp) (aspect_ratio sp) (color_filter sp) (specific_color sp)
    (image_type sp) (region sp) (usage_rights sp).

Definition with_color (filter specific : string) (sp : SearchParts) : SearchParts :=
  mkSearchParts (all_words sp) (terms_location sp) (exact_phrase sp) (exclude_words sp)
    (or_words sp) (site sp) (filetype sp) (intitle sp) (inurl sp) (range_from sp)
    (range_to sp) (range_unit sp) (before sp) (after sp) (search_type sp)
    (image_size sp) (aspect_ratio sp) filter specific
    (image_type sp) (region sp) (usage_rights sp).

(** [sp] with another value in the field [specific_color] and nothing else
    changed. *)
Definition with_specific_color (v : string) (sp : SearchParts) : SearchParts :=
  with_color (color_filter sp) v sp.

(** ** Two readings used in the statements below *)

(** The percent-encoding of one character with the space written as a plus
    sign: the character itself when it is a letter, a digit or one of
    [_.-~], and its UTF-8 bytes as two upper-case hexadecimal digits after a
    percent sign otherwise. *)
Definition encode_char_plus (c : ascii) : string :=
  if Ascii.eqb c " " then "+"
  else String.concat EmptyString (map (Urllib.quoter Urllib.always_safe) (Urllib.utf8_char c)).

Fixpoint percent_encode_plus (s : string) : string :=
  match s with
  | EmptyString => EmptyString
  | String c s' => encode_char_plus c +:+ percent_encode_plus s'
  end.

(** The codes the colour selectors contribute. *)
Definition color_codes (sp : SearchParts) : list string :=
  match dict_get color_map (color_filter sp) with
  | Some code => [code]
  | None =>
      if (color_filter sp =? "Specific color") && Py.truthy (specific_color sp)
      then option_list (dict_get spec_map (specific_color sp))
      else []
  end.

(** The three parameters that follow [q] in the URL, each empty when it
    is left out. *)
Definition tbm_param (search_type : string) : string :=
  match dict_get tbm_map search_type with
  | Some code => "&tbm=" +:+ code
  | None => EmptyString
  end.

Definition tbs_param (sp : SearchParts) : string :=
  match tbs_parts_of sp with
  | [] => EmptyString
  | _ :: _ => "&tbs=" +:+ Py.join "," (tbs_parts_of sp)
  end.

Definition cr_param (sp : SearchParts) : string :=
  match dict_get region_map (region sp) with
  | Some code => "&cr=" +:+ code
  | None => EmptyString
  end.

(** Two records that agree on every field except, possibly,
    [specific_color]. *)
Definition differ_only_in_specific_color (a b : SearchParts) : Prop :=
  all_words a = all_words b /\ terms_location a = terms_location b
  /\ exact_phrase a = exact_phrase b /\ exclude_words a = exclude_words b
  /\ or_words a = or_words b /\ site a = site b /\ filetype a = filetype b
  /\ intitle a = intitle b /\ inurl a = inurl b /\ range_from a = range_from b
  /\ range_to a = range_to b /\ range_unit a = range_unit b
  /\ before a = before b /\ after a = after b /\ search_type a = search_type b
  /\ image_size a = image_size b /\ aspect_ratio a = aspect_ratio b
  /\ color_filter a = color_filter b /\ image_type a = image_type b
  /\ region a = region b /\ usage_rights a = usage_rights b.

(** * More of the program *)

(** ** More about strings *)

(** All the characters of a string are white space. *)
Fixpoint blank (s : string) : bool :=
  match s with
  | EmptyString => true
  | String c s' => Py.isspace c && blank s'
  end.

(** A string without white space. *)
Fixpoint spaceless (s : string) : bool :=
  match s with
  | EmptyString => true
  | String c s' => negb (Py.isspace c) && spaceless s'
  end.

(** ** Values and lists that the file carries unchanged *)

(** A value that a line of the file gives back as it is: no percent sign,
    no line end, no white space at either end. *)
Definition clean (v : string) : bool :=
  negb (Py.contains_char "%" v) && negb (Py.contains_char "010" v)
  && negb (Py.contains_char "013" v)
  && (Py.lstrip v =? v) && (Py.rstrip v =? v).

Section StoreReadings.
Context {J : Type} (json_loads : string -> option J) (json_dumps : J -> string).

Definition clean_entry (e : entry J) : bool :=
  clean (query e) && clean (dumps_parts json_dumps (parts e)).

(** The options that the loop of [_write_recent_to_disk] sets, from index
    [i] on. *)
Fixpoint entries_options (i : nat) (data : list (entry J)) : list (string * string) :=
  match data with
  | [] => []
  | e :: data' =>
      (query_key i, query e) :: (parts_key i, dumps_parts json_dumps (parts e))
      :: entries_options (S i) data'
  end.

(** The parser object that holds a list of entries. *)
Definition recent_config (data : list (entry J)) : ConfigParser.t :=
  ConfigParser.mk [] [("Recent", entries_options 1 data)].

(** An entry as it comes back from the file: its parts written and decoded. *)
Definition decode_entry (e : entry J) : option (entry J) :=
  match json_loads (dumps_parts json_dumps (parts e)) with
  | Some j => Some (mk_entry (query e) (Decoded j))
  | None => None
  end.

(** The entries as they come back from the file, up to the first one that
    [json.loads] refuses. *)
Fixpoint decode_entries (data : list (entry J)) : list (entry J) * outcome :=
  match data with
  | [] => ([], Finished)
  | e :: data' =>
      match decode_entry e with
      | None => ([], Exception)
      | Some e' => let '(l, o) := decode_entries data' in (e' :: l, o)
      end
  end.

(** [json.loads] accepts the text written for the parts of an entry. *)
Definition decodable (e : entry J) : bool :=
  match decode_entry e with
  | Some _ => true
  | None => false
  end.

(** An entry that the file carries and [json.loads] accepts. *)
Definition kept_entry (e : entry J) : bool := clean_entry e && decodable e.

End StoreReadings.

(** A character of an option name that the parser reads back as it is: no
    white space, no delimiter, no comment sign, no bracket, no capital. *)
Definition key_char (c : ascii) : bool :=
  negb (Py.isspace c) && negb (ConfigParser.is_delimiter c)
  && negb (Ascii.eqb c "#") && negb (Ascii.eqb c ";") && negb (Ascii.eqb c "[")
  && Ascii.eqb (Py.lower_char c) c.

Fixpoint plain_key (k : string) : bool :=
  match k with
  | EmptyString => true
  | String c k' => key_char c && plain_key k'
  end.

(** The line written for an option, without its line end, and the text of
    a list of lines. *)
Definition option_line (kv : string * string) : string :=
  fst kv +:+ " = " +:+ snd kv.

Fixpoint unlines (lines : list string) : string :=
  match lines with
  | [] => EmptyString
  | l :: lines' => l +:+ ConfigParser.newline +:+ unlines lines'
  end.

(** The state of [_read] inside the section Recent of a file that holds
    nothing else: the options read so far and the name of the last one. *)
Definition recent_state (sect : list (string * list string)) (last : option string)
  : ConfigParser.read_state :=
  ConfigParser.mk_read_state [] [("Recent", sect)] ["Recent"]
    (rev (map (fun kv => ("Recent", fst kv)) sect)) (Some "Recent") last 0 false.

(** An option that the file carries unchanged. *)
Definition clean_option (kv : string * string) : bool :=
  plain_key (fst kv) && Py.truthy (fst kv) && clean (snd kv).

(** The name of the last option of a list, [last] when there is none. *)
Fixpoint last_option_name (opts : list (string * string)) (last : option string)
  : option string :=
  match opts with
  | [] => last
  | kv :: opts' => last_option_name opts' (Some (fst kv))
  end.

(** The text fields of a record, which are the fields [build_query] reads
    characters from. *)
Definition text_fields (sp : SearchParts) : list string :=
  [all_words sp; exact_phrase sp; exclude_words sp; or_words sp; site sp;
   filetype sp; intitle sp; inurl sp; range_from sp; range_to sp; range_unit sp;
   before sp; after sp].

(** A record that the file can carry: no percent sign in any field, no line
    end in a text field. *)
Definition storable (sp : SearchParts) : bool :=
  forallb (fun kv => negb (Py.contains_char "%" (snd kv))) (dict_of_parts sp)
  && forallb (fun f => negb (Py.contains_char "010" f) && negb (Py.contains_char "013" f))
       (text_fields sp).

(** The constant pieces that [build_query] puts around the text of the
    fields. *)
Definition query_constants : list string :=
  ["allintitle:"; "allintext:"; "allinurl:"; "allinanchor:"; dquote; "-"; " ";
   " OR "; "("; ")"; "site:"; "filetype:"; "intitle:"; "inurl:"; "..";
   "before:"; "after:"].

(** ** The selectors of the form

    The items that [__init__] adds to each selector.  None of the selectors
    is editable, so the text of a selector is one of its items. *)

Definition terms_items : list string :=
  ["anywhere in the page"; "in the title of the page"; "in the text of the page";
   "in the URL of the page"; "in links to the page"].

Definition search_type_items : list string := ["Web"; "Images"; "Videos"; "News"].

Definition image_size_items : list string := ["Any size"; "Large"; "Medium"; "Icon"].

Definition aspect_items : list string :=
  ["Any aspect ratio"; "Square"; "Tall"; "Wide"; "Panoramic"].

Definition color_items : list string :=
  ["Any color"; "Full color"; "Black and white"; "Transparent"; "Specific color"].

Definition specific_color_items : list string :=
  ["Black"; "Blue"; "Brown"; "Gray"; "Green"; "Orange"; "Pink"; "Purple"; "Red";
   "Teal"; "White"; "Yellow"].

Definition image_type_items : list string :=
  ["Any type"; "Face"; "Photo"; "Clip art"; "Line drawing"; "Animated"].

(** [self.regions] *)
Definition regions : list string :=
  ["Any region"; "United States"; "United Kingdom"; "Canada"; "Australia";
   "Germany"; "France"; "India"; "Japan"; "Brazil"; "Afghanistan"; "Albania";
   "Algeria"].

Definition usage_items : list string :=
  ["All"; "Free to use or share"; "Free to use or share commercially";
   "Free to use or share or modify"; "Free to use or share or modify commercially"].

Definition is_item (items : list string) (text : string) : bool :=
  existsb (String.eqb text) items.

(** A state of the form in which every selector shows one of its items. *)
Definition selectable (w : Widgets) : bool :=
  is_item terms_items (terms_combo w)
  && is_item search_type_items (search_type_combo w)
  && is_item image_size_items (image_size_combo w)
  && is_item aspect_items (aspect_combo w)
  && is_item color_items (color_combo w)
  && is_item specific_color_items (specific_color_combo w)
  && is_item image_type_items (image_type_combo w)
  && is_item regions (region_combo w)
  && is_item usage_items (usage_combo w).

(** The text of a selector after [setCurrentIndex(0)]. *)
Definition first_item (items : list string) : string :=
  match items with
  | [] => EmptyString
  | item :: _ => item
  end.

(** 1 for a selector that shows another item than its first, 0 otherwise. *)
Definition chosen (items : list string) (text : string) : nat :=
  if text =? first_item items then 0 else 1.

(** ** [MainWindow.clear_all]

    The form after the method: the inputs cleared, the check boxes
    unchecked, every selector at its first item; the dates of the two date
    editors stay. *)
Definition clear_all (w : Widgets) : Widgets := {|
  all_input := "";
  terms_combo := first_item terms_items;
  exact_input := "";
  exclude_input := "";
  or_input := "";
  site_input := "";
  filetype_input := "";
  intitle_input := "";
  inurl_input := "";
  range_from_input := "";
  range_to_input := "";
  range_unit_input := "";
  after_checkbox := false;
  after_dateedit := after_dateedit w;
  before_checkbox := false;
  before_dateedit := before_dateedit w;
  search_type_combo := first_item search_type_items;
  image_size_combo := first_item image_size_items;
  aspect_combo := first_item aspect_items;
  color_combo := first_item color_items;
  specific_color_combo := first_item specific_color_items;
  image_type_combo := first_item image_type_items;
  region_combo := first_item regions;
  usage_combo := first_item usage_items |}.

(** ** [MainWindow.set_date_preset] *)

(** The form with the date [d] in the editor of the date after, its check
    box checked and the check box of the date before unchecked. *)
Definition with_after_only (d : string) (w : Widgets) : Widgets := {|
  all_input := all_input w;
  terms_combo := terms_combo w;
  exact_input := exact_input w;
  exclude_input := exclude_input w;
  or_input := or_input w;
  site_input := site_input w;
  filetype_input := filetype_input w;
  intitle_input := intitle_input w;
  inurl_input := inurl_input w;
  range_from_input := range_from_input w;
  range_to_input := range_to_input w;
  range_unit_input := range_unit_input w;
  after_checkbox := true;
  after_dateedit := d;
  before_checkbox := false;
  before_dateedit := before_dateedit w;
  search_type_combo := search_type_combo w;
  image_size_combo := image_size_combo w;
  aspect_combo := aspect_combo w;
  color_combo := color_combo w;
  specific_color_combo := specific_color_combo w;
  image_type_combo := image_type_combo w;
  region_combo := region_combo w;
  usage_combo := usage_combo w |}.

Section DatePreset.

(** What the date editor prints after [setDate] with [current.addDays(n)],
    [current.addMonths(n)] and [current.addYears(n)], where [current] is the
    date of the day. *)
Variables addDays addMonths addYears : Z -> string.

Definition set_date_preset (days months years : Z) (w : Widgets) : Widgets :=
  if negb (days =? 0)%Z then with_after_only (addDays (- days)) w
  else if negb (months =? 0)%Z then with_after_only (addMonths (- months)) w
  else if negb (years =? 0)%Z then with_after_only (addYears (- years)) w
  else w.

End DatePreset.

(** ** [MainWindow.copy_query] and [MainWindow.open_in_browser] *)

(** [s.startswith(prefix)] *)
Definition startswith_str (prefix s : string) : bool := String.prefix prefix s.

(** The text put on the clipboard, [None] when nothing is copied.  The
    placeholder of the empty query, whose dash is outside the code points
    of this model, is not empty after [strip] and starts with the six
    characters tested. *)
Definition copy_query (p : preview_text) : option string :=
  match p with
  | EmptyPreview => None
  | UrlPreview text =>
      let q := Py.strip text in
      if negb (Py.truthy q) || startswith_str "<empty" q then None else Some q
  end.

(** The address handed to [webbrowser.open], [None] when nothing is opened. *)
Definition open_in_browser (p : preview_text) : option string :=
  match p with
  | EmptyPreview => None
  | UrlPreview text =>
      let preview := Py.strip text in
      if negb (Py.truthy preview) || startswith_str "<empty" preview then None
      else Some ("https://www.google.com/search?" +:+ preview)
  end.

(** ** The characters of the URL *)

Fixpoint all_chars (p : ascii -> bool) (s : string) : bool :=
  match s with
  | EmptyString => true
  | String c s' => p c && all_chars p s'
  end.

(** The characters [quote_plus] leaves as they are, the plus sign and the
    percent sign it writes, and the four signs that [update_preview] puts
    between and inside the parameters. *)
Definition url_char (c : ascii) : bool :=
  let n := nat_of_ascii c in
  (((48 <=? n) && (n <=? 57)) || ((65 <=? n) && (n <=? 90))
   || ((97 <=? n) && (n <=? 122)))%nat
  || Py.contains_char c "_.-~+%&=:,".

(** ** When the query string is empty *)

(** No token of [build_query] has a character that is not white space: the
    field of the words is empty, or blank with no prefix in front of it;
    the field of the words to exclude is blank; the field of the
    alternatives gives no group; both bounds of the range are not there
    together; every other text field is empty. *)
Definition no_token (sp : SearchParts) : bool :=
  (negb (Py.truthy (all_words sp))
   || (blank (all_words sp) && negb (Py.truthy (location_prefix (terms_location sp)))))
  && negb (Py.truthy (exact_phrase sp))
  && blank (exclude_words sp)
  && all_chars (fun c => Py.isspace c || Ascii.eqb c "|") (or_words sp)
  && negb (Py.truthy (site sp))
  && negb (Py.truthy (filetype sp))
  && negb (Py.truthy (intitle sp))
  && negb (Py.truthy (inurl sp))
  && negb (Py.truthy (range_from sp) && Py.truthy (range_to sp))
  && negb (Py.truthy (before sp))
  && negb (Py.truthy (after sp)).

(** A token that is not there, or has white space only. *)
Definition tok_blank (t : option string) : bool :=
  match t with
  | None => true
  | Some s => blank s
  end.

(** ** The form at the start

    The form as [__init__] leaves it: the inputs empty, the check boxes
    unchecked, every selector at its first item, and in the two date
    editors the dates that [__init__] sets, as the editors print them. *)
Definition initial_form (after_date before_date : string) : Widgets := {|
  all_input := "";
  terms_combo := first_item terms_items;
  exact_input := "";
  exclude_input := "";
  or_input := "";
  site_input := "";
  filetype_input := "";
  intitle_input := "";
  inurl_input := "";
  range_from_input := "";
  range_to_input := "";
  range_unit_input := "";
  after_checkbox := false;
  after_dateedit := after_date;
  before_checkbox := false;
  before_dateedit := before_date;
  search_type_combo := first_item search_type_items;
  image_size_combo := first_item image_size_items;
  aspect_combo := first_item aspect_items;
  color_combo := first_item color_items;
  specific_color_combo := first_item specific_color_items;
  image_type_combo := first_item image_type_items;
  region_combo := first_item regions;
  usage_combo := first_item usage_items |}.

(** Two states of the form that show the same: they agree on every widget,
    except for the date of an editor whose check box is unchecked, and for
    the selector of the specific colour when the colour filter is not
    Specific color. *)
Definition same_shown (a b : Widgets) : Prop :=
  all_input a = all_input b /\ terms_combo a = terms_combo b
  /\ exact_input a = exact_input b /\ exclude_input a = exclude_input b
  /\ or_input a = or_input b /\ site_input a = site_input b
  /\ filetype_input a = filetype_input b /\ intitle_input a = intitle_input b
  /\ inurl_input a = inurl_input b /\ range_from_input a = range_from_input b
  /\ range_to_input a = range_to_input b /\ range_unit_input a = range_unit_input b
  /\ after_checkbox a = after_checkbox b
  /\ (after_checkbox a = true -> after_dateedit a = after_dateedit b)
  /\ before_checkbox a = before_checkbox b
  /\ (before_checkbox a = true -> before_dateedit a = before_dateedit b)
  /\ search_type_combo a = search_type_combo b
  /\ image_size_combo a = image_size_combo b /\ aspect_combo a = aspect_combo b
  /\ color_combo a = color_combo b
  /\ (color_combo a = "Specific color" -> specific_color_combo a = specific_color_combo b)
  /\ image_type_combo a = image_type_combo b /\ region_combo a = region_combo b
  /\ usage_combo a = usage_combo b.

(** A record with other dates. *)
Definition with_dates (before_date after_date : string) (sp : SearchParts) : SearchParts :=
  mkSearchParts (all_words sp) (terms_location sp) (exact_phrase sp) (exclude_words sp)
    (or_words sp) (site sp) (filetype sp) (intitle sp) (inurl sp) (range_from sp)
    (range_to sp) (range_unit sp) before_date after_date (search_type sp)
    (image_size sp) (aspect_ratio sp) (color_filter sp) (specific_color sp)
    (image_type sp) (region sp) (usage_rights sp).

(** A form for the examples: an image search for large red photos, limited
    to France, with a date in each editor and both check boxes unchecked. *)
Definition red_images_form : Widgets := {|
  all_input := "roses";
  terms_combo := "anywhere in the page";
  exact_input := "";
  exclude_input := "";
  or_input := "";
  site_input := "";
  filetype_input := "";
  intitle_input := "";
  inurl_input := "";
  range_from_input := "";
  range_to_input := "";
  range_unit_input := "";
  after_checkbox := false;
  after_dateedit := "2024-10-05";
  before_checkbox := false;
  before_dateedit := "2024-11-04";
  search_type_combo := "Images";
  image_size_combo := "Large";
  aspect_combo := "Any aspect ratio";
  color_combo := "Specific color";
  specific_color_combo := "Red";
  image_type_combo := "Photo";
  region_combo := "France";
  usage_combo := "All" |}.

(** The record that [gather_parts] reads from that form. *)
Definition red_images_parts : SearchParts :=
  mkSearchParts "roses" "anywhere" "" "" "" "" "" "" "" "" "" "" "" ""
    "Images" "Large" "Any aspect ratio" "Specific color" "Red" "Photo" "France" "All".

(** ** Reading the [q] parameter back

    The decoding of what [quote_plus] writes: a plus sign is a space, a
    percent sign with two hexadecimal digits is a byte, any other character
    is its own byte; one byte below 128 is a character, and two bytes from
    192 and from 128 on are the character of the code point they spell in
    UTF-8. *)
Definition unhex (c : ascii) : nat :=
  let n := nat_of_ascii c in
  if ((48 <=? n) && (n <=? 57))%nat then n - 48
  else if ((65 <=? n) && (n <=? 70))%nat then n - 55
  else if ((97 <=? n) && (n <=? 102))%nat then n - 87
  else 0.

Fixpoint decode_bytes (s : string) : list nat :=
  match s with
  | EmptyString => []
  | String c r =>
      if Ascii.eqb c "+" then 32 :: decode_bytes r
      else if Ascii.eqb c "%" then
        match r with
        | String h (String l r') => (16 * unhex h + unhex l) :: decode_bytes r'
        | _ => []
        end
      else nat_of_ascii c :: decode_bytes r
  end.

Fixpoint decode_utf8 (bs : list nat) : string :=
  match bs with
  | [] => EmptyString
  | b :: bs' =>
      if (b <? 128)%nat then String (ascii_of_nat b) (decode_utf8 bs')
      else
        match bs' with
        | b2 :: bs'' => String (ascii_of_nat ((b - 192) * 64 + (b2 - 128))) (decode_utf8 bs'')
        | [] => EmptyString
        end
  end.

Definition decode_query (s : string) : string := decode_utf8 (decode_bytes s).

(** ** The wording of the specification

    Notions written from the words of the specification rather than from
    the code: what it is for a string to be another one trimmed, to be a
    list of strings joined by a separator, to occur in a string, and the
    percent-encoding of a query parameter.  They use none of [Py.strip],
    [Py.join], [Py.split_on] and [Urllib.quote_plus]; the theorems compare
    them with what the code computes. *)

Definition first_char (s : string) : option ascii :=
  match s with
  | EmptyString => None
  | String c _ => Some c
  end.

Fixpoint last_char (s : string) : option ascii :=
  match s with
  | EmptyString => None
  | String c s' =>
      match s' with
      | EmptyString => Some c
      | String _ _ => last_char s'
      end
  end.

(** [t] is [s] without its leading and trailing white space: [s] is [t]
    between two strings of white space, and [t] neither starts nor ends
    with a white-space character. *)
Definition trimmed_from (s t : string) : Prop :=
  (exists l r : string, s = l +:+ t +:+ r /\ blank l = true /\ blank r = true)
  /\ (forall c : ascii, first_char t = Some c -> Py.isspace c = false)
  /\ (forall c : ascii, last_char t = Some c -> Py.isspace c = false).

(** The strings of [l] one after the other, with [sep] between each two. *)
Fixpoint glue (sep : string) (l : list string) : string :=
  match l with
  | [] => EmptyString
  | x :: l' =>
      match l' with
      | [] => x
      | _ :: _ => x +:+ sep +:+ glue sep l'
      end
  end.

(** [p] is at the start of [s]; [p] occurs somewhere in [s]. *)
Fixpoint starts_with (p s : string) : bool :=
  match p with
  | EmptyString => true
  | String a p' =>
      match s with
      | EmptyString => false
      | String b s' => Ascii.eqb a b && starts_with p' s'
      end
  end.

Fixpoint occurs (p s : string) : bool :=
  starts_with p s
  || match s with
     | EmptyString => false
     | String _ s' => occurs p s'
     end.

(** The percent-encoding of a query parameter: a letter, a digit and each
    of the four signs [-._~] stands for itself, a space is written as a
    plus sign, and any other character is written as the bytes of its UTF-8
    encoding, each as a percent sign and two hexadecimal digits in upper
    case.  A code point from 128 to 255 has the two bytes [192 + n / 64] and
    [128 + n mod 64]. *)
Definition upper_hex (d : nat) : ascii :=
  match d with
  | 0 => "0" | 1 => "1" | 2 => "2" | 3 => "3" | 4 => "4" | 5 => "5" | 6 => "6"
  | 7 => "7" | 8 => "8" | 9 => "9" | 10 => "A" | 11 => "B" | 12 => "C"
  | 13 => "D" | 14 => "E" | _ => "F"
  end%char.

Definition percent_byte (n : nat) : string :=
  String "%" (String (upper_hex (n / 16)) (String (upper_hex (n mod 16)) EmptyString)).

Definition unreserved (c : ascii) : bool :=
  let n := nat_of_ascii c in
  (((97 <=? n) && (n <=? 122)) || ((65 <=? n) && (n <=? 90))
   || ((48 <=? n) && (n <=? 57)))%nat
  || Ascii.eqb c "-" || Ascii.eqb c "." || Ascii.eqb c "_" || Ascii.eqb c "~".

Definition percent_encode_char (c : ascii) : string :=
  let n := nat_of_ascii c in
  if Ascii.eqb c " " then "+"
  else if unreserved c then String c EmptyString
  else if (n <? 128)%nat then percent_byte n
  else percent_byte (192 + n / 64) +:+ percent_byte (128 + n mod 64).

Fixpoint percent_encode (s : string) : string :=
  match s with
  | EmptyString => EmptyString
  | String c s' => percent_encode_char c +:+ percent_encode s'
  end.

(** A record with every text field filled, some of them with white space
    around the text, and its query string as the specification builds it. *)
Definition full_parts : SearchParts :=
  mkSearchParts " laptop  " "title" " to be " "fried  spicy" " red wine |white wine | "
    " example.com " "pdf " " review" "shop" " 500" "1000 " " $" "2024-12-31 "
    " 2024-01-01" "Web" "Any size" "Any aspect ratio" "Any color" "" "Any type"
    "Any region" "All".

Definition full_query : string :=
  "allintitle:laptop " +:+ dquote +:+ "to be" +:+ dquote
  +:+ " -fried -spicy (red wine OR white wine) site:example.com filetype:pdf"
  +:+ " intitle:review inurl:shop $500..$1000 before:2024-12-31 after:2024-01-01".

(** An image search with every image selector off its first item. *)
Definition full_image_parts : SearchParts :=
  mkSearchParts "rose" "anywhere" "" "" "" "" "" "" "" "" "" "" "" ""
    "Images" "Large" "Square" "Specific color" "Red" "Photo" "France"
    "Free to use or share".

(** ** The file as bytes

    [_write_recent_to_disk] opens the file with the encoding UTF-8, and
    [ConfigParser.read] opens it with the encoding of the locale.  The
    state [file] holds the text written; the bytes on disk are its UTF-8
    encoding, and what [read] sees is these bytes decoded in the locale.
    [locale_decode] is that decoding, [None] standing for the
    [UnicodeDecodeError], which the [try] of [load_recent_from_disk]
    catches like any other exception. *)

Definition is_ascii (c : ascii) : bool := (nat_of_ascii c <? 128)%nat.

Definition ascii_only (s : string) : bool := all_chars is_ascii s.

Definition read_back (locale_decode : list Byte.byte -> option string) (text : string)
  : option string :=
  locale_decode (Urllib.utf8 text).

(** A locale whose encoding reads the bytes below 128 as the characters of
    the same numbers, as ASCII, Latin-1, the Windows code pages and UTF-8
    do. *)
Definition ascii_compatible (locale_decode : list Byte.byte -> option string) : Prop :=
  forall t : string, ascii_only t = true -> read_back locale_decode t = Some t.

(** The decoding of the locale C, which refuses a byte from 128 on, and
    that of a Latin-1 locale, which reads every byte as the character of
    its number. *)
Fixpoint ascii_decode (bs : list Byte.byte) : option string :=
  match bs with
  | [] => Some EmptyString
  | b :: bs' =>
      if (Byte.to_nat b <? 128)%nat then
        match ascii_decode bs' with
        | Some s => Some (String (ascii_of_byte b) s)
        | None => None
        end
      else None
  end.

Fixpoint latin1_decode (bs : list Byte.byte) : option string :=
  match bs with
  | [] => Some EmptyString
  | b :: bs' =>
      match latin1_decode bs' with
      | Some s => Some (String (ascii_of_byte b) s)
      | None => None
      end
  end.

Section LocaleStore.
Context {J : Type} (json_loads : string -> option J) (json_dumps : J -> string).
Variable locale_decode : list Byte.byte -> option string.

(** [load_recent_from_disk] with the decoding of the file in the locale
    made explicit; it is [load_recent_from_disk] when the locale reads the
    file back as the text that was written. *)
Definition load_recent_from_disk_locale (st : store J) : store J :=
  match file st with
  | None => _write_recent_to_disk json_dumps (mk_store [] (file st))
  | Some text =>
      match read_back locale_decode text with
      | None => mk_store [] (file st)
      | Some text' =>
          match load_body json_loads st text' with
          | (_, Exception) => mk_store [] (file st)
          | (data, _) => mk_store data (file st)
          end
      end
  end.

(** An entry all of whose characters in the file are below 128. *)
Definition ascii_entry (e : entry J) : bool :=
  ascii_only (query e) && ascii_only (dumps_parts json_dumps (parts e)).

End LocaleStore.

(** * Properties *)

Example ex_strip : Py.strip "  a b  " = "a b". Proof. reflexivity. Qed.
Example ex_split : Py.split " fried   spicy " = ["fried"; "spicy"]. Proof. reflexivity. Qed.
Example ex_split_on : Py.split_on "|" "chicken|beef| |tofu" = ["chicken"; "beef"; " "; "tofu"].
Proof. reflexivity. Qed.
Example ex_split_on_empty : Py.split_on "|" "" = [""]. Proof. reflexivity. Qed.
Example ex_str_of_nat : Py.str_of_nat 12 = "12". Proof. reflexivity. Qed.
Example ex_build_default : build_query default_parts = "". Proof. reflexivity. Qed.
Example ex_quote_plus : Urllib.quote_plus "a b&c/$500..~" = "a+b%26c%2F%24500..~".
Proof. reflexivity. Qed.
Example ex_quote_plus_latin1 : Urllib.quote_plus (String (ascii_of_nat 233) "") = "%C3%A9".
Proof. reflexivity. Qed.

(** ** The query builder *)

Section BuildQueryFacts.
Import Py.

Lemma truthy_true (s : string) : truthy s = true <-> s <> EmptyString.
Proof. destruct s; simpl; split; congruence. Qed.

Lemma truthy_false (s : string) : truthy s = false <-> s = EmptyString.
Proof. destruct s; simpl; split; congruence. Qed.

Lemma filter_strip_commute (l : list string) :
  List.filter truthy (map strip l)
  = map strip (List.filter (fun t => truthy (strip t)) l).
Proof.
  induction l as [|t l IH]; simpl; [reflexivity|].
  destruct (truthy (strip t)); simpl; rewrite IH; reflexivity.
Qed.

Lemma filter_all_truthy (l : list string) :
  Forall (fun p => truthy p = true) (List.filter truthy l).
Proof.
  induction l as [|t l IH]; simpl; [constructor|].
  destruct (truthy t) eqn:E; [constructor; assumption | assumption].
Qed.

(** A join of non-empty pieces is empty exactly when there is no piece. *)
Lemma join_truthy (sep : string) (l : list string) :
  Forall (fun p => truthy p = true) l ->
  truthy (join sep l) = match l with [] => false | _ :: _ => true end.
Proof.
  intros H. destruct H as [|p l Hp Hl]; [reflexivity|].
  destruct p as [|c p]; [discriminate|].
  unfold join. simpl. destruct l; reflexivity.
Qed.

Lemma blk_all_words_eq self pieces :
  blk_all_words self pieces = pieces ++ option_list (tok_all_words self).
Proof.
  unfold blk_all_words, tok_all_words, location_prefix.
  destruct (truthy (all_words self)); simpl; [|by rewrite app_nil_r].
  repeat match goal with |- context [if ?b then _ else _] => destruct b end;
    reflexivity.
Qed.

Lemma blk_exact_phrase_eq self pieces :
  blk_exact_phrase self pieces = pieces ++ option_list (tok_exact_phrase self).
Proof.
  unfold blk_exact_phrase, tok_exact_phrase.
  destruct (truthy (exact_phrase self)); simpl; [reflexivity | by rewrite app_nil_r].
Qed.

Lemma blk_exclude_words_eq self pieces :
  blk_exclude_words self pieces = pieces ++ option_list (tok_exclude_words self).
Proof.
  unfold blk_exclude_words, tok_exclude_words.
  destruct (truthy (exclude_words self)); simpl; [reflexivity | by rewrite app_nil_r].
Qed.

Lemma or_group_empty : or_group EmptyString = None.
Proof. reflexivity. Qed.

Lemma blk_or_words_eq self pieces :
  blk_or_words self pieces = pieces ++ option_list (or_group (or_words self)).
Proof.
  unfold blk_or_words, or_group.
  destruct (truthy (or_words self)) eqn:E.
  - rewrite <- filter_strip_commute.
    rewrite join_truthy by apply filter_all_truthy.
    destruct (List.filter truthy (map strip (split_on "|" (or_words self))));
      simpl; [by rewrite app_nil_r | reflexivity].
  - apply truthy_false in E. rewrite E. simpl. by rewrite app_nil_r.
Qed.

Lemma blk_site_eq self pieces :
  blk_site self pieces = pieces ++ option_list (tok_site self).
Proof.
  unfold blk_site, tok_site.
  destruct (truthy (site self)); simpl; [reflexivity | by rewrite app_nil_r].
Qed.

Lemma blk_filetype_eq self pieces :
  blk_filetype self pieces = pieces ++ option_list (tok_filetype self).
Proof.
  unfold blk_filetype, tok_filetype.
  destruct (truthy (filetype self)); simpl; [reflexivity | by rewrite app_nil_r].
Qed.

Lemma blk_intitle_eq self pieces :
  blk_intitle self pieces = pieces ++ option_list (tok_intitle self).
Proof.
  unfold blk_intitle, tok_intitle.
  destruct (truthy (intitle self)); simpl; [reflexivity | by rewrite app_nil_r].
Qed.

Lemma blk_inurl_eq self pieces :
  blk_inurl self pieces = pieces ++ option_list (tok_inurl self).
Proof.
  unfold blk_inurl, tok_inurl.
  destruct (truthy (inurl self)); simpl; [reflexivity | by rewrite app_nil_r].
Qed.

Lemma blk_range_eq self pieces :
  blk_range self pieces = pieces ++ option_list (tok_range self).
Proof.
  unfold blk_range, tok_range.
  destruct (truthy (range_from self) && truthy (range_to self)); simpl;
    [|by rewrite app_nil_r].
  destruct (truthy (strip (range_unit self))) eqn:E; [reflexivity|].
  apply truthy_false in E. rewrite E. reflexivity.
Qed.

Lemma blk_before_eq self pieces :
  blk_before self pieces = pieces ++ option_list (tok_before self).
Proof.
  unfold blk_before, tok_before.
  destruct (truthy (before self)); simpl; [reflexivity | by rewrite app_nil_r].
Qed.

Lemma blk_after_eq self pieces :
  blk_after self pieces = pieces ++ option_list (tok_after self).
Proof.
  unfold blk_after, tok_after.
  destruct (truthy (after self)); simpl; [reflexivity | by rewrite app_nil_r].
Qed.

Lemma omap_id_cons (o : option string) (l : list (option string)) :
  omap id (o :: l) = option_list o ++ omap id l.
Proof. destruct o; reflexivity. Qed.

(** The list joined by [build_query] is the list of the tokens present. *)
Lemma pieces_of_tokens self : pieces_of self = omap id (tokens_in_order self).
Proof.
  unfold pieces_of.
  rewrite blk_after_eq, blk_before_eq, blk_range_eq, blk_inurl_eq, blk_intitle_eq,
    blk_filetype_eq, blk_site_eq, blk_or_words_eq, blk_exclude_words_eq,
    blk_exact_phrase_eq, blk_all_words_eq.
  unfold tokens_in_order, tok_or_words.
  rewrite !omap_id_cons. simpl (omap id []).
  rewrite app_nil_r, app_nil_l, <- !app_assoc. reflexivity.
Qed.

End BuildQueryFacts.

(** ** Facts about strings and about the URL builder *)

Section UrlFacts.
Import Py Urllib.

Lemma append_cons (x : ascii) (a b : string) : String x a +:+ b = String x (a +:+ b).
Proof. reflexivity. Qed.

Lemma append_empty_l (a : string) : EmptyString +:+ a = a.
Proof. reflexivity. Qed.

Lemma append_assoc (a b c : string) : (a +:+ b) +:+ c = a +:+ (b +:+ c).
Proof.
  induction a as [|x a IH]; [reflexivity | rewrite !append_cons; f_equal; exact IH].
Qed.

Lemma append_empty_r (a : string) : a +:+ EmptyString = a.
Proof.
  induction a as [|x a IH]; [reflexivity | rewrite append_cons; f_equal; exact IH].
Qed.

Lemma contains_char_app (c : ascii) (a b : string) :
  contains_char c (a +:+ b) = contains_char c a || contains_char c b.
Proof.
  induction a as [|x a IH]; [reflexivity|].
  rewrite append_cons. simpl. rewrite IH. by rewrite orb_assoc.
Qed.

Lemma replace_char_app (c : ascii) (new a b : string) :
  replace_char c new (a +:+ b) = replace_char c new a +:+ replace_char c new b.
Proof.
  induction a as [|x a IH]; [reflexivity|].
  rewrite append_cons. simpl. rewrite IH.
  destruct (Ascii.eqb x c); [symmetry; apply append_assoc | reflexivity].
Qed.

Lemma concat_empty_app (l1 l2 : list string) :
  String.concat EmptyString (l1 ++ l2)
  = String.concat EmptyString l1 +:+ String.concat EmptyString l2.
Proof.
  induction l1 as [|x l1 IH]; simpl; [reflexivity|].
  destruct l1 as [|y l1].
  - simpl in *. destruct l2; simpl; [by rewrite append_empty_r | reflexivity].
  - change ((x :: y :: l1) ++ l2) with (x :: (y :: l1) ++ l2) in *.
    simpl in *. rewrite IH. by rewrite append_assoc.
Qed.

Ltac each_ascii c :=
  destruct c as [[] [] [] [] [] [] [] []]; vm_compute; try reflexivity; try discriminate.

(** Without a space in it, a character goes through [quote] as its
    percent-encoding says. *)
Lemma quote_char_no_space (c : ascii) :
  Ascii.eqb c " " = false ->
  String.concat EmptyString (map (quoter always_safe) (utf8_char c)) = encode_char_plus c.
Proof. intros H. unfold encode_char_plus. by rewrite H. Qed.

Lemma quote_char_with_space (c : ascii) :
  replace_char " " "+"
    (String.concat EmptyString
       (map (quoter (fun b => always_safe b || is_space_byte b)) (utf8_char c)))
  = encode_char_plus c.
Proof. each_ascii c. Qed.

Lemma quote_bytes_no_space (s : string) :
  contains_char " " s = false ->
  quote_from_bytes always_safe (utf8 s) = percent_encode_plus s.
Proof.
  unfold quote_from_bytes. induction s as [|c s IH]; simpl; [reflexivity|].
  intros H. apply orb_false_iff in H as [Hc Hs].
  rewrite map_app, concat_empty_app, IH by assumption.
  by rewrite quote_char_no_space.
Qed.

Lemma quote_bytes_with_space (s : string) :
  replace_char " " "+"
    (quote_from_bytes (fun b => always_safe b || is_space_byte b) (utf8 s))
  = percent_encode_plus s.
Proof.
  unfold quote_from_bytes. induction s as [|c s IH]; simpl; [reflexivity|].
  rewrite map_app, concat_empty_app, replace_char_app, IH.
  by rewrite quote_char_with_space.
Qed.

(** [quote_plus] is the percent-encoding with the space as a plus sign. *)
Lemma quote_plus_encoding (s : string) : quote_plus s = percent_encode_plus s.
Proof.
  unfold quote_plus, quote. destruct s as [|c s]; [reflexivity|].
  change (truthy (String c s)) with true. cbv iota.
  destruct (contains_char " " (String c s)) eqn:E; simpl negb; cbv iota.
  - apply quote_bytes_with_space.
  - by apply quote_bytes_no_space.
Qed.

Lemma encode_char_no_ampersand (c : ascii) :
  contains_char "&" (encode_char_plus c) = false.
Proof. each_ascii c. Qed.

(** No ampersand comes out of [quote_plus]: the query cannot start a
    parameter of its own. *)
Lemma quote_plus_no_ampersand (s : string) :
  contains_char "&" (quote_plus s) = false.
Proof.
  rewrite quote_plus_encoding.
  induction s as [|c s IH]; simpl; [reflexivity|].
  by rewrite contains_char_app, encode_char_no_ampersand, IH.
Qed.

Lemma append_code_eq (d : dict) (k : string) (l : list string) :
  append_code d k l = l ++ option_list (dict_get d k).
Proof. unfold append_code. destruct (dict_get d k); simpl; by rewrite ?app_nil_r. Qed.

Lemma tbs_parts_of_eq (sp : SearchParts) :
  tbs_parts_of sp
  = option_list (dict_get size_map (image_size sp))
    ++ option_list (dict_get aspect_map (aspect_ratio sp))
    ++ color_codes sp
    ++ option_list (dict_get type_map (image_type sp))
    ++ option_list (dict_get usage_map (usage_rights sp)).
Proof.
  unfold tbs_parts_of, color_codes. rewrite !append_code_eq.
  destruct (dict_get color_map (color_filter sp)).
  - simpl. by rewrite <- !app_assoc.
  - destruct ((color_filter sp =? "Specific color") && truthy (specific_color sp)).
    + by rewrite <- !app_assoc.
    + simpl. rewrite <- !app_assoc. reflexivity.
Qed.

Lemma dict_get_in (d : dict) (k code : string) :
  dict_get d k = Some code -> In code (map snd d).
Proof.
  induction d as [|[k' v] d IH]; simpl; [discriminate|].
  destruct (k' =? k); [intros [= ->]; by left | intros H; right; auto].
Qed.

Lemma option_list_in (d : dict) (k code : string) :
  In code (option_list (dict_get d k)) -> In code (map snd d).
Proof.
  destruct (dict_get d k) eqn:E; simpl; [|tauto].
  intros [<-|[]]. by apply dict_get_in with k.
Qed.

End UrlFacts.

Section PreviewFacts.
Import Py Urllib.

(** [url_frag] is the [q] parameter followed by the three others. *)
Lemma url_frag_of_eq (st : string) (sp : SearchParts) (q : string) :
  url_frag_of st sp q
  = "q=" +:+ quote_plus q +:+ tbm_param st
    +:+ (if st =? "Images" then tbs_param sp +:+ cr_param sp else EmptyString).
Proof.
  unfold url_frag_of, tbm_param, tbs_param, cr_param.
  destruct (dict_get tbm_map st) as [code|];
    destruct (st =? "Images");
    destruct (tbs_parts_of sp) as [|p ps];
    destruct (dict_get region_map (region sp)) as [cr|];
    rewrite ?append_assoc, ?append_empty_r, ?append_empty_l; reflexivity.
Qed.

Lemma update_preview_of_url (st : string) (sp : SearchParts) :
  build_query sp <> EmptyString ->
  update_preview_of st sp = UrlPreview (url_frag_of st sp (build_query sp)).
Proof.
  intros H. unfold update_preview_of. apply truthy_true in H. by rewrite H.
Qed.

Lemma eqb_ne (a b : string) : a <> b -> (a =? b) = false.
Proof. intros H. by apply String.eqb_neq. Qed.

Lemma color_codes_not_specific (sp : SearchParts) (code : string) :
  color_filter sp <> "Specific color" ->
  In code (color_codes sp) -> In code (map snd color_map).
Proof.
  intros Hne. unfold color_codes.
  destruct (dict_get color_map (color_filter sp)) as [c|] eqn:E.
  - intros [<-|[]]. by apply dict_get_in with (color_filter sp).
  - rewrite (eqb_ne _ _ Hne). simpl. tauto.
Qed.

Lemma in_tbs_parts (sp : SearchParts) (code : string) :
  In code (tbs_parts_of sp) ->
  In code (map snd size_map) \/ In code (map snd aspect_map)
  \/ In code (color_codes sp)
  \/ In code (map snd type_map) \/ In code (map snd usage_map).
Proof.
  rewrite tbs_parts_of_eq. rewrite !in_app_iff.
  intros [H|[H|[H|[H|H]]]]; eauto 6 using option_list_in.
Qed.

Lemma differ_only_with (a b : SearchParts) :
  differ_only_in_specific_color a b -> b = with_specific_color (specific_color b) a.
Proof.
  destruct a, b. unfold differ_only_in_specific_color. simpl.
  intros H. decompose [and] H. subst. reflexivity.
Qed.

Lemma tbs_parts_of_other_color (sp : SearchParts) (c : string) :
  color_filter sp <> "Specific color" ->
  tbs_parts_of (with_specific_color c sp) = tbs_parts_of sp.
Proof.
  intros Hne. rewrite !tbs_parts_of_eq. unfold color_codes. simpl.
  rewrite (eqb_ne _ _ Hne). reflexivity.
Qed.

End PreviewFacts.

(** The record that [gather_parts] returns carries the text of the
    search-type selector, so [update_preview] is [update_preview_of] at the
    search type of the record. *)
Lemma update_preview_gathered (w : Widgets) (sp : SearchParts) :
  gather_parts w = Some sp ->
  search_type sp = search_type_combo w
  /\ update_preview w = Some (update_preview_of (search_type sp) sp).
Proof.
  unfold update_preview, gather_parts.
  destruct (dict_get terms_location_map (terms_combo w)); [|discriminate].
  intros [= <-]. split; reflexivity.
Qed.

(** ** White space at the ends of a string *)

Section StripFacts.
Import Py.

Lemma lstrip_head (c : ascii) (s : string) :
  isspace c = false -> lstrip (String c s) = String c s.
Proof. intros H. simpl. by rewrite H. Qed.

Lemma rstrip_cons (c : ascii) (s : string) :
  isspace c = false -> rstrip (String c s) = String c (rstrip s).
Proof. intros H. simpl. rewrite H. by destruct (rstrip s). Qed.

Lemma rstrip_idem (s : string) : rstrip (rstrip s) = rstrip s.
Proof.
  induction s as [|c s IH]; [reflexivity|].
  simpl. destruct (rstrip s) as [|d r] eqn:E.
  - destruct (isspace c) eqn:Hc; [reflexivity|].
    simpl. by rewrite Hc.
  - change (rstrip (String c (String d r))) with
      (match rstrip (String d r) with
       | EmptyString => if isspace c then EmptyString else String c EmptyString
       | r' => String c r'
       end).
    rewrite IH. reflexivity.
Qed.

(** What [lstrip] gives is empty or starts with a character that is not
    white space. *)
Lemma lstrip_starts (s : string) :
  match lstrip s with
  | EmptyString => True
  | String c _ => isspace c = false
  end.
Proof.
  induction s as [|c s IH]; simpl; [exact I|].
  destruct (isspace c) eqn:E; [exact IH | exact E].
Qed.

Lemma lstrip_idem (s : string) : lstrip (lstrip s) = lstrip s.
Proof.
  pose proof (lstrip_starts s) as H.
  destruct (lstrip s) as [|c r]; [reflexivity | by apply lstrip_head].
Qed.

Lemma lstrip_strip (s : string) : lstrip (strip s) = strip s.
Proof.
  unfold strip. pose proof (lstrip_starts s) as H.
  destruct (lstrip s) as [|c r]; [reflexivity|].
  rewrite (rstrip_cons _ _ H). by apply lstrip_head.
Qed.

Lemma rstrip_strip (s : string) : rstrip (strip s) = strip s.
Proof. apply rstrip_idem. Qed.

Lemma strip_idem (s : string) : strip (strip s) = strip s.
Proof. unfold strip at 1. by rewrite lstrip_strip, rstrip_strip. Qed.

Lemma rstrip_empty (s : string) : rstrip s = EmptyString <-> blank s = true.
Proof.
  induction s as [|c s IH]; simpl; [tauto|].
  destruct (rstrip s) as [|d r].
  - destruct (isspace c); simpl; [tauto|]. split; discriminate.
  - split; [discriminate|]. intros H. apply andb_true_iff in H as [_ H].
    apply IH in H. discriminate.
Qed.

Lemma lstrip_blank (s : string) : blank (lstrip s) = blank s.
Proof.
  induction s as [|c s IH]; simpl; [reflexivity|].
  destruct (isspace c) eqn:E; simpl; [exact IH | by rewrite E].
Qed.

Lemma strip_empty (s : string) : strip s = EmptyString <-> blank s = true.
Proof. unfold strip. by rewrite rstrip_empty, lstrip_blank. Qed.

Lemma blank_app (a b : string) : blank (a +:+ b) = blank a && blank b.
Proof.
  induction a as [|c a IH]; [reflexivity|].
  rewrite append_cons. simpl. rewrite IH. by rewrite andb_assoc.
Qed.

Lemma rstrip_app_blank (a w : string) : blank w = true -> rstrip (a +:+ w) = rstrip a.
Proof.
  intros H. induction a as [|c a IH].
  - rewrite append_empty_l. by apply rstrip_empty.
  - rewrite append_cons. simpl. by rewrite IH.
Qed.

(** Nothing is cut from the right of a string that ends well, whatever
    stands before it. *)
Lemma rstrip_app_kept (a s : string) :
  s <> EmptyString -> rstrip s = s -> rstrip (a +:+ s) = a +:+ s.
Proof.
  intros Hne Hs. induction a as [|c a IH]; [exact Hs|].
  rewrite append_cons. simpl. rewrite IH.
  destruct (a +:+ s) eqn:E; [|reflexivity].
  destruct a; [by rewrite append_empty_l in E | discriminate].
Qed.

Lemma rstrip_app_spaceless (k s : string) :
  spaceless k = true -> rstrip (k +:+ s) = k +:+ rstrip s.
Proof.
  induction k as [|c k IH]; [reflexivity|].
  intros H. simpl in H. apply andb_true_iff in H as [Hc Hk].
  apply negb_true_iff in Hc.
  rewrite !append_cons, (rstrip_cons _ _ Hc), IH by assumption. reflexivity.
Qed.

Lemma spaceless_strip (s : string) : spaceless s = true -> strip s = s.
Proof.
  intros H. unfold strip.
  assert (Hr : rstrip s = s).
  { rewrite <- (append_empty_r s) at 1. rewrite (rstrip_app_spaceless _ _ H).
    apply append_empty_r. }
  destruct s as [|c s]; [reflexivity|].
  simpl in H. apply andb_true_iff in H as [Hc _]. apply negb_true_iff in Hc.
  by rewrite (lstrip_head _ _ Hc).
Qed.

Lemma spaceless_app (a b : string) : spaceless (a +:+ b) = spaceless a && spaceless b.
Proof.
  induction a as [|c a IH]; [reflexivity|].
  rewrite append_cons. simpl. rewrite IH. by rewrite andb_assoc.
Qed.

End StripFacts.

(** ** The code against the wording of the specification *)

Section SpecFacts.
Import Py Urllib.

Lemma lstrip_split (s : string) :
  exists l : string, s = l +:+ lstrip s /\ blank l = true.
Proof.
  induction s as [|c s (l & Hl & Hb)]; [by exists EmptyString|]. simpl.
  destruct (isspace c) eqn:E.
  - exists (String c l). rewrite append_cons, <- Hl. simpl. by rewrite E, Hb.
  - by exists EmptyString.
Qed.

Lemma rstrip_split (s : string) :
  exists r : string, s = rstrip s +:+ r /\ blank r = true.
Proof.
  induction s as [|c s (r & Hr & Hb)]; [by exists EmptyString|]. simpl.
  destruct (rstrip s) as [|d t] eqn:E.
  - rewrite append_empty_l in Hr. subst r. destruct (isspace c) eqn:Ec.
    + exists (String c s). split; [reflexivity|]. simpl. by rewrite Ec, Hb.
    + exists s. by split.
  - exists r. split; [|exact Hb]. rewrite append_cons. by f_equal.
Qed.

Lemma rstrip_last (s : string) (c : ascii) :
  last_char (rstrip s) = Some c -> isspace c = false.
Proof.
  induction s as [|a s IH]; [discriminate|]. simpl.
  destruct (rstrip s) as [|d t] eqn:E.
  - destruct (isspace a) eqn:Ea; [discriminate|]. simpl. by intros [= <-].
  - simpl. exact IH.
Qed.

Lemma strip_first (s : string) (c : ascii) :
  first_char (strip s) = Some c -> isspace c = false.
Proof.
  unfold strip. pose proof (lstrip_starts s) as H.
  destruct (lstrip s) as [|a t]; [discriminate|].
  rewrite (rstrip_cons _ _ H). simpl. by intros [= <-].
Qed.

(** [Py.strip] trims. *)
Lemma strip_trimmed (s : string) : trimmed_from s (strip s).
Proof.
  split; [|split; [apply strip_first | apply rstrip_last]].
  destruct (lstrip_split s) as (l & Hl & Hbl).
  destruct (rstrip_split (lstrip s)) as (r & Hr & Hbr).
  exists l, r. split; [|by split]. unfold strip. by rewrite <- Hr.
Qed.

(** [Py.join] glues. *)
Lemma join_glue (sep : string) (l : list string) : join sep l = glue sep l.
Proof.
  unfold join. induction l as [|x l IH]; [reflexivity|].
  destruct l as [|y l]; [reflexivity|].
  change (String.concat sep (x :: y :: l)) with (x +:+ sep +:+ String.concat sep (y :: l)).
  by rewrite IH.
Qed.

(** [Py.split_on] cuts at the separators and nowhere else. *)
Lemma split_on_glue (sep : ascii) (s : string) :
  glue (String sep EmptyString) (split_on sep s) = s
  /\ Forall (fun p => contains_char sep p = false) (split_on sep s).
Proof.
  induction s as [|c s [IH1 IH2]]; [by split; repeat constructor|]. simpl.
  destruct (Ascii.eqb c sep) eqn:E.
  - apply Ascii.eqb_eq in E. subst c. split; [|by constructor].
    destruct (split_on sep s) as [|w ws] eqn:Es; simpl in *; [by subst|].
    rewrite append_empty_l, append_cons, append_empty_l. by f_equal.
  - destruct (split_on sep s) as [|w ws] eqn:Es; simpl in *.
    + subst s. split; [reflexivity|]. repeat constructor. simpl. by rewrite E.
    + inversion IH2 as [|? ? Hw Hws]; subst. split.
      * destruct ws as [|w' ws]; [by f_equal|]. rewrite append_cons. by f_equal.
      * constructor; [simpl; by rewrite E, Hw | exact Hws].
Qed.

Lemma truthy_eqb (t : string) : truthy t = negb (t =? EmptyString).
Proof. by destruct t. Qed.

Lemma filter_truthy_eqb (l : list string) :
  List.filter truthy l = List.filter (fun t => negb (t =? EmptyString)) l.
Proof.
  induction l as [|x l IH]; [reflexivity|]. simpl.
  by rewrite IH, truthy_eqb.
Qed.

(** What [quote_plus] writes is the percent-encoding. *)
Lemma encode_char_percent (c : ascii) : encode_char_plus c = percent_encode_char c.
Proof. destruct c as [[] [] [] [] [] [] [] []]; vm_compute; reflexivity. Qed.

Lemma quote_plus_percent_encode (s : string) : quote_plus s = percent_encode s.
Proof.
  rewrite quote_plus_encoding.
  induction s as [|c s IH]; [reflexivity|]. simpl.
  by rewrite encode_char_percent, IH.
Qed.

(** The group of alternatives, in the words of the specification. *)
Lemma or_group_wording (v : string) :
  exists parts trimmed : list string,
    v = glue "|" parts
    /\ Forall (fun p => contains_char "|" p = false) parts
    /\ Forall2 trimmed_from parts trimmed
    /\ or_group v
       = match List.filter (fun t => negb (t =? EmptyString)) trimmed with
         | [] => None
         | kept => Some ("(" +:+ glue " OR " kept +:+ ")")
         end.
Proof.
  exists (split_on "|" v), (map strip (split_on "|" v)).
  destruct (split_on_glue "|" v) as [Hg Hb].
  split; [by rewrite Hg|]. split; [exact Hb|]. split.
  - clear. induction (split_on "|" v) as [|p ps IH]; constructor;
      [apply strip_trimmed | exact IH].
  - unfold or_group. rewrite filter_truthy_eqb.
    destruct (List.filter _ (map strip (split_on "|" v))); [reflexivity|].
    by rewrite join_glue.
Qed.

End SpecFacts.

(** ** The [q] parameter carries the query string *)

Section DecodeFacts.
Import Py Urllib.

Lemma decode_encoded_char (c : ascii) (r : string) :
  decode_query (encode_char_plus c +:+ r) = String c (decode_query r).
Proof.
  unfold decode_query.
  destruct c as [[] [] [] [] [] [] [] []]; reflexivity.
Qed.

Lemma decode_encoded (s : string) : decode_query (percent_encode_plus s) = s.
Proof.
  induction s as [|c s IH]; [reflexivity|]. simpl.
  by rewrite decode_encoded_char, IH.
Qed.

Lemma decode_encoded_app (s r : string) :
  decode_query (percent_encode_plus s +:+ r) = s +:+ decode_query r.
Proof.
  induction s as [|c s IH]; [reflexivity|]. simpl.
  by rewrite append_assoc, decode_encoded_char, IH.
Qed.

Lemma length_append (a b : string) :
  String.length (a +:+ b) = String.length a + String.length b.
Proof.
  induction a as [|x a IH]; [reflexivity|]. rewrite append_cons. simpl. by rewrite IH.
Qed.

Lemma append_inj_tail (a b t : string) : a +:+ t = b +:+ t -> a = b.
Proof.
  revert b. induction a as [|x a IH]; intros [|y b] H.
  - reflexivity.
  - apply (f_equal String.length) in H. rewrite append_empty_l, length_append in H.
    simpl in H. lia.
  - apply (f_equal String.length) in H. rewrite append_empty_l, length_append in H.
    simpl in H. lia.
  - rewrite !append_cons in H. injection H as -> H. f_equal. by apply IH.
Qed.

End DecodeFacts.

(** ** The query builder: the claims *)

(** C1.  For every record, [build_query] joins with single spaces, and then
    trims, the tokens of the record taken in the fixed order all-words,
    exact phrase, exclude words, OR group, site, filetype, intitle, inurl,
    numeric range, before, after: the query string is the glued tokens
    without their leading and trailing white space, in the words of the
    specification as well as in those of the code.  A token is present
    only if the field it comes from is not empty, and a record whose text
    fields are all empty yields the empty string, whatever its selectors
    say.  The record [full_parts], which fills every text field and puts
    white space around several values, has the eleven tokens listed and the
    query string [full_query]; words followed by two spaces and a site
    preceded by one give the two tokens a single space apart. *)
Theorem C1_build_query_joins_tokens_in_order (sp : SearchParts) :
  build_query sp = Py.strip (Py.join " " (omap id (tokens_in_order sp)))
  /\ trimmed_from (glue " " (omap id (tokens_in_order sp))) (build_query sp)
  /\ Forall2 (fun tok field => is_Some tok -> field <> EmptyString)
       (tokens_in_order sp) (source_fields sp)
  /\ (forall loc st sz ar cf sc it rg ur : string,
        build_query (mkSearchParts "" loc "" "" "" "" "" "" "" "" "" "" "" ""
                       st sz ar cf sc it rg ur) = EmptyString)
  /\ omap id (tokens_in_order full_parts)
     = ["allintitle:laptop"; dquote +:+ "to be" +:+ dquote; "-fried -spicy";
        "(red wine OR white wine)"; "site:example.com"; "filetype:pdf";
        "intitle:review"; "inurl:shop"; "$500..$1000"; "before:2024-12-31";
        "after:2024-01-01"]
  /\ build_query full_parts = full_query
  /\ build_query (with_site " example.com" (with_all_words "laptop  " default_parts))
     = "laptop site:example.com".
Proof.
  assert (Heq : build_query sp = Py.strip (Py.join " " (omap id (tokens_in_order sp)))).
  { unfold build_query. rewrite pieces_of_tokens. reflexivity. }
  split; [exact Heq|]. split.
  { pose proof (strip_trimmed (Py.join " " (omap id (tokens_in_order sp)))) as Ht.
    rewrite <- Heq in Ht. by rewrite join_glue in Ht. }
  split; [|split; [|split; [|split]]]; try reflexivity.
  unfold tokens_in_order, source_fields.
  repeat constructor; intros [tok Htok].
  + unfold tok_all_words in Htok.
    destruct (Py.truthy (all_words sp)) eqn:E; [by apply truthy_true | discriminate].
  + unfold tok_exact_phrase in Htok.
    destruct (Py.truthy (exact_phrase sp)) eqn:E; [by apply truthy_true | discriminate].
  + unfold tok_exclude_words in Htok.
    destruct (Py.truthy (exclude_words sp)) eqn:E; [by apply truthy_true | discriminate].
  + unfold tok_or_words in Htok. intros E. rewrite E in Htok. discriminate.
  + unfold tok_site in Htok.
    destruct (Py.truthy (site sp)) eqn:E; [by apply truthy_true | discriminate].
  + unfold tok_filetype in Htok.
    destruct (Py.truthy (filetype sp)) eqn:E; [by apply truthy_true | discriminate].
  + unfold tok_intitle in Htok.
    destruct (Py.truthy (intitle sp)) eqn:E; [by apply truthy_true | discriminate].
  + unfold tok_inurl in Htok.
    destruct (Py.truthy (inurl sp)) eqn:E; [by apply truthy_true | discriminate].
  + unfold tok_range in Htok.
    destruct (Py.truthy (range_from sp)) eqn:E; [by apply truthy_true | discriminate].
  + unfold tok_before in Htok.
    destruct (Py.truthy (before sp)) eqn:E; [by apply truthy_true | discriminate].
  + unfold tok_after in Htok.
    destruct (Py.truthy (after sp)) eqn:E; [by apply truthy_true | discriminate].
Qed.

Example ex_build_exclude :
  build_query (with_exclude_words "fried spicy" default_parts) = "-fried -spicy".
Proof. reflexivity. Qed.

(** An exclude field made of white space is a non-empty field whose token is
    the empty string: the tokens around it are then two spaces apart. *)
Example ex_build_blank_exclude :
  build_query (with_site "x" (with_exclude_words " " (with_all_words "a" default_parts)))
  = "a  site:x".
Proof. reflexivity. Qed.

(** C6.  For every value of [or_words], the block of [build_query] for the
    OR words appends the group obtained by splitting the value on the bar,
    trimming each piece, dropping the empty pieces, joining the rest with
    OR between spaces and wrapping it in parentheses, and appends nothing
    when no piece remains.  In the words of the specification: the value is
    a list of pieces without a bar glued with bars, each piece has its
    trimmed form, and the token is the trimmed forms that are not empty,
    glued with OR between spaces, in parentheses.  The value
    chicken|beef| |tofu gives the token (chicken OR beef OR tofu), and
    white space around the pieces of a value goes away. *)
Theorem C6_or_words_group (self : SearchParts) (pieces : list string) :
  blk_or_words self pieces = pieces ++ option_list (or_group (or_words self))
  /\ (exists parts trimmed : list string,
        or_words self = glue "|" parts
        /\ Forall (fun p => Py.contains_char "|" p = false) parts
        /\ Forall2 trimmed_from parts trimmed
        /\ blk_or_words self pieces
           = pieces
             ++ match List.filter (fun t => negb (t =? EmptyString)) trimmed with
                | [] => []
                | kept => ["(" +:+ glue " OR " kept +:+ ")"]
                end)
  /\ or_group "chicken|beef| |tofu" = Some "(chicken OR beef OR tofu)"
  /\ or_group " red wine |white wine " = Some "(red wine OR white wine)"
  /\ or_group " | |" = None
  /\ build_query (with_or_words "chicken|beef| |tofu" default_parts)
     = "(chicken OR beef OR tofu)"
  /\ build_query (with_or_words " red wine |white wine " default_parts)
     = "(red wine OR white wine)".
Proof.
  split; [apply blk_or_words_eq|]. split; [|repeat split].
  destruct (or_group_wording (or_words self)) as (parts & trimmed & H1 & H2 & H3 & H4).
  exists parts, trimmed. repeat (split; [assumption|]).
  rewrite blk_or_words_eq, H4.
  by destruct (List.filter _ trimmed).
Qed.

Example ex_or_words_blank_pieces :
  build_query (with_or_words " | |" (with_all_words "recipe" default_parts)) = "recipe".
Proof. reflexivity. Qed.

(** C7, as the claim states it, fails: with the lower bound written with a
    leading space the token is not the unit and the bounds as they stand in
    the fields, because the block trims all three. *)
Lemma C7_counterexample_padded_bound :
  blk_range (with_range " 500" "1000" "$" default_parts) []
  <> ["$" +:+ " 500" +:+ ".." +:+ "$" +:+ "1000"].
Proof. vm_compute. discriminate. Qed.

(** C7, amended.  For every record, the block for the numeric range appends
    a token if and only if both [range_from] and [range_to] are non-empty,
    and the token is then the trimmed unit, the trimmed lower bound, two
    dots, the trimmed unit and the trimmed upper bound (an empty unit gives
    the two trimmed bounds around the dots); from 500, to 1000 and unit $
    give $500..$1000.  The trimmed forms are those of the specification's
    wording too, and white space around the unit and the bounds goes
    away. *)
Theorem C7_range_token_trimmed (self : SearchParts) (pieces : list string) :
  blk_range self pieces = pieces ++ option_list (tok_range self)
  /\ (is_Some (tok_range self)
      <-> range_from self <> EmptyString /\ range_to self <> EmptyString)
  /\ (tok_range self = None
      \/ tok_range self
         = Some (Py.strip (range_unit self) +:+ Py.strip (range_from self) +:+ ".."
                 +:+ Py.strip (range_unit self) +:+ Py.strip (range_to self)))
  /\ tok_range (with_range "500" "1000" "$" default_parts) = Some "$500..$1000"
  /\ tok_range (with_range "2000" "2020" "" default_parts) = Some "2000..2020"
  /\ (forall token : string,
        tok_range self = Some token ->
        exists unit lower upper : string,
          trimmed_from (range_unit self) unit
          /\ trimmed_from (range_from self) lower
          /\ trimmed_from (range_to self) upper
          /\ token = unit +:+ lower +:+ ".." +:+ unit +:+ upper)
  /\ tok_range (with_range " 500" "1000  " " $ " default_parts) = Some "$500..$1000".
Proof.
  split; [apply blk_range_eq|].
  split; [|split; [|split; [|split; [|split]]]]; try reflexivity.
  - unfold tok_range. rewrite <- !truthy_true.
    destruct (Py.truthy (range_from self)), (Py.truthy (range_to self)); simpl;
      split; try (intros [? ?]; discriminate); try (intros [? ?]; congruence);
      eauto.
  - unfold tok_range.
    destruct (Py.truthy (range_from self) && Py.truthy (range_to self)); auto.
  - intros token. unfold tok_range.
    destruct (Py.truthy (range_from self) && Py.truthy (range_to self));
      [|discriminate].
    intros [= <-].
    exists (Py.strip (range_unit self)), (Py.strip (range_from self)),
      (Py.strip (range_to self)).
    repeat split; apply strip_trimmed.
Qed.

(** C8, as the claim states it, fails: a phrase written between two spaces
    is not quoted as it stands, because the block trims it first. *)
Lemma C8_counterexample_padded_phrase :
  blk_exact_phrase (with_exact_phrase " a " default_parts) []
  <> [dquote +:+ " a " +:+ dquote].
Proof. vm_compute. discriminate. Qed.

(** C8, amended.  For every record with a non-empty [exact_phrase], the
    block for the exact phrase appends the token made of a double quote,
    the value of the field with its leading and trailing white space
    removed, and a double quote; what stands between the quotes is the
    trimmed form of the value in the specification's wording too, and a
    phrase written between spaces is quoted without them. *)
Theorem C8_exact_phrase_quoted_trimmed (self : SearchParts) (pieces : list string) :
  exact_phrase self <> EmptyString ->
  blk_exact_phrase self pieces
  = pieces ++ [dquote +:+ Py.strip (exact_phrase self) +:+ dquote]
  /\ (exists phrase : string,
        trimmed_from (exact_phrase self) phrase
        /\ blk_exact_phrase self pieces = pieces ++ [dquote +:+ phrase +:+ dquote])
  /\ blk_exact_phrase (with_exact_phrase "  to be " default_parts) []
     = [dquote +:+ "to be" +:+ dquote].
Proof.
  intros H.
  assert (Heq : blk_exact_phrase self pieces
                = pieces ++ [dquote +:+ Py.strip (exact_phrase self) +:+ dquote]).
  { rewrite blk_exact_phrase_eq. unfold tok_exact_phrase.
    apply truthy_true in H. rewrite H. reflexivity. }
  split; [exact Heq|]. split; [|reflexivity].
  exists (Py.strip (exact_phrase self)). split; [apply strip_trimmed | exact Heq].
Qed.

(** The amended C8 at the phrase of one of the built-in examples. *)
Lemma C8_witness :
  exact_phrase (with_exact_phrase "to be or not to be" default_parts) <> EmptyString
  /\ blk_exact_phrase (with_exact_phrase "to be or not to be" default_parts) ["shakespeare"]
     = ["shakespeare"; dquote +:+ "to be or not to be" +:+ dquote].
Proof.
  split; [discriminate|].
  apply (C8_exact_phrase_quoted_trimmed
           (with_exact_phrase "to be or not to be" default_parts) ["shakespeare"]).
  discriminate.
Defined.

(** ** The URL builder: the claims *)

(** C5.  For every record with a non-empty query string, the preview is the
    URL query string that starts with q= and the percent-encoding of the
    query, the space written as a plus sign; what follows starts with
    &tbm=isch for Images, is &tbm=vid for Videos and &tbm=nws for News, and
    is empty for Web, where the whole string holds no ampersand and so no
    tbm parameter.  The percent-encoding is the one of the specification's
    wording, [percent_encode], which names no function of the model of
    [quote_plus]; decoding it gives the query string back; and a string
    with a quote, a space, an ampersand, a colon, a slash, a percent sign
    and a plus sign in it is encoded sign by sign as listed. *)
Theorem C5_q_then_tbm (sp : SearchParts) :
  build_query sp <> EmptyString ->
  exists rest,
    update_preview_of (search_type sp) sp
    = UrlPreview ("q=" +:+ Urllib.quote_plus (build_query sp) +:+ rest)
    /\ Urllib.quote_plus (build_query sp) = percent_encode_plus (build_query sp)
    /\ (search_type sp = "Images" -> exists rest', rest = "&tbm=isch" +:+ rest')
    /\ (search_type sp = "Videos" -> rest = "&tbm=vid")
    /\ (search_type sp = "News" -> rest = "&tbm=nws")
    /\ (search_type sp = "Web" ->
        rest = EmptyString
        /\ Py.contains_char "&" ("q=" +:+ Urllib.quote_plus (build_query sp) +:+ rest)
           = false)
    /\ update_preview_of (search_type sp) sp
       = UrlPreview ("q=" +:+ percent_encode (build_query sp) +:+ rest)
    /\ decode_query (percent_encode (build_query sp)) = build_query sp
    /\ percent_encode (dquote +:+ "a b" +:+ dquote +:+ " x&y:z/w 5%+~_-.")
       = "%22a+b%22+x%26y%3Az%2Fw+5%25%2B~_-."
    /\ Urllib.quote_plus (String (ascii_of_nat 233) "t" +:+ String (ascii_of_nat 10) "")
       = "%C3%A9t%0A".
Proof.
  intros H.
  exists (tbm_param (search_type sp)
          +:+ (if search_type sp =? "Images" then tbs_param sp +:+ cr_param sp
               else EmptyString)).
  assert (Hurl : update_preview_of (search_type sp) sp
                 = UrlPreview ("q=" +:+ Urllib.quote_plus (build_query sp)
                               +:+ tbm_param (search_type sp)
                               +:+ (if search_type sp =? "Images"
                                    then tbs_param sp +:+ cr_param sp
                                    else EmptyString))).
  { by rewrite update_preview_of_url, url_frag_of_eq. }
  split; [exact Hurl|].
  split; [apply quote_plus_encoding|].
  refine (conj _ (conj _ (conj _ (conj _ (conj _ (conj _ (conj _ _))))))).
  - intros ->. eexists. reflexivity.
  - intros ->. reflexivity.
  - intros ->. reflexivity.
  - intros ->. split; [reflexivity|].
    change (tbm_param "Web" +:+ _) with EmptyString.
    rewrite append_empty_r, contains_char_app.
    apply quote_plus_no_ampersand.
  - by rewrite <- quote_plus_percent_encode.
  - rewrite <- quote_plus_percent_encode, quote_plus_encoding. apply decode_encoded.
  - reflexivity.
  - reflexivity.
Qed.

(** C5 at a video search for a phrase with an ampersand in it. *)
Lemma C5_witness :
  build_query (with_search_type "Videos" (with_exact_phrase "fish & chips" default_parts))
  <> EmptyString
  /\ exists rest,
      update_preview_of "Videos"
        (with_search_type "Videos" (with_exact_phrase "fish & chips" default_parts))
      = UrlPreview ("q=" +:+ "%22fish+%26+chips%22" +:+ rest)
      /\ rest = "&tbm=vid".
Proof.
  split; [discriminate|].
  destruct (C5_q_then_tbm
              (with_search_type "Videos" (with_exact_phrase "fish & chips" default_parts)))
    as (rest & Hurl & _ & _ & Hvid & _); [discriminate|].
  exists rest. split; [exact Hurl | apply Hvid; reflexivity].
Defined.

Example ex_preview_images_red :
  update_preview_of "Images"
    (with_color "Specific color" "Red"
       (with_search_type "Images" (with_all_words "mountain landscape" default_parts)))
  = UrlPreview "q=mountain+landscape&tbm=isch&tbs=isc:red".
Proof. reflexivity. Qed.

Example ex_preview_empty_query :
  update_preview_of "Images"
    (with_color "Specific color" "Red" (with_search_type "Images" default_parts))
  = EmptyPreview.
Proof. reflexivity. Qed.

Ltac no_common_code :=
  simpl in *; intuition (subst; discriminate).

Lemma option_list_codes (d : dict) (k : string) :
  In (option_list (dict_get d k)) ([] :: map (fun code => [code]) (map snd d)).
Proof.
  destruct (dict_get d k) as [code|] eqn:E; [|by left].
  right. change (option_list (Some code)) with ((fun c : string => [c]) code).
  apply in_map. by apply dict_get_in with k.
Qed.

(** The value of the tbs parameter of such a record, as a string. *)
Lemma red_tbs_value (sp : SearchParts) :
  color_codes sp = ["isc:red"] ->
  occurs "isc:red" (glue "," (tbs_parts_of sp)) = true
  /\ occurs "ic:" (glue "," (tbs_parts_of sp)) = false
  /\ forallb (fun code => negb (Py.contains_char "," code)
                          && negb (Py.contains_char "&" code))
       (tbs_parts_of sp) = true.
Proof.
  intros Hcc. rewrite tbs_parts_of_eq, Hcc.
  pose proof (option_list_codes size_map (image_size sp)) as H1.
  pose proof (option_list_codes aspect_map (aspect_ratio sp)) as H2.
  pose proof (option_list_codes type_map (image_type sp)) as H3.
  pose proof (option_list_codes usage_map (usage_rights sp)) as H4.
  remember (option_list (dict_get size_map (image_size sp))) as o1 eqn:E1.
  remember (option_list (dict_get aspect_map (aspect_ratio sp))) as o2 eqn:E2.
  remember (option_list (dict_get type_map (image_type sp))) as o3 eqn:E3.
  remember (option_list (dict_get usage_map (usage_rights sp))) as o4 eqn:E4.
  clear E1 E2 E3 E4 Hcc. simpl in H1, H2, H3, H4.
  repeat match goal with
         | H : _ \/ _ |- _ => destruct H as [<-|H]
         | H : False |- _ => destruct H
         end;
    vm_compute; by repeat split.
Qed.

(** C4.  For every record of an image search whose colour filter is
    Specific color and whose specific colour is Red, the colour selectors
    contribute the one code isc:red; the list joined into the tbs parameter
    holds it, holds none of ic:color, ic:gray and ic:trans, and holds no
    code of another specific colour; the URL carries that list after
    &tbs=.  As strings: the URL query string is q= and the percent-encoded
    query, then &tbm=isch, then &tbs= and the codes with commas between
    them, then the region; isc:red occurs in the value of the tbs parameter
    and ic: does not; no code holds a comma or an ampersand, so the value
    is read back code by code; and the image search [full_image_parts] for
    a rose gives the URL query string written out.  And for every record
    whose colour filter is not Specific color, no code of the table of
    specific colours is in the list. *)
Theorem C4_specific_color_red (sp : SearchParts) :
  search_type sp = "Images" ->
  color_filter sp = "Specific color" ->
  specific_color sp = "Red" ->
  color_codes sp = ["isc:red"]
  /\ In "isc:red" (tbs_parts_of sp)
  /\ ~ In "ic:color" (tbs_parts_of sp)
  /\ ~ In "ic:gray" (tbs_parts_of sp)
  /\ ~ In "ic:trans" (tbs_parts_of sp)
  /\ (forall code, In code (tbs_parts_of sp) -> In code (map snd spec_map) ->
      code = "isc:red")
  /\ (forall q,
        url_frag_of (search_type sp) sp q
        = "q=" +:+ Urllib.quote_plus q +:+ "&tbm=isch" +:+ "&tbs="
          +:+ Py.join "," (tbs_parts_of sp) +:+ cr_param sp)
  /\ (forall sp' code,
        color_filter sp' <> "Specific color" ->
        In code (tbs_parts_of sp') -> ~ In code (map snd spec_map))
  /\ (forall q,
        url_frag_of (search_type sp) sp q
        = "q=" +:+ percent_encode q +:+ "&tbm=isch" +:+ "&tbs="
          +:+ glue "," (tbs_parts_of sp)
          +:+ match dict_get region_map (region sp) with
              | Some code => "&cr=" +:+ code
              | None => EmptyString
              end)
  /\ occurs "isc:red" (glue "," (tbs_parts_of sp)) = true
  /\ occurs "ic:" (glue "," (tbs_parts_of sp)) = false
  /\ forallb (fun code => negb (Py.contains_char "," code)
                          && negb (Py.contains_char "&" code))
       (tbs_parts_of sp) = true
  /\ url_frag_of "Images" full_image_parts "red rose"
     = "q=red+rose&tbm=isch&tbs=isz:l,iar:s,isc:red,itp:photo,sur:f&cr=countryFR".
Proof.
  intros Hst Hcf Hsc.
  assert (Hcc : color_codes sp = ["isc:red"]).
  { unfold color_codes. rewrite Hcf, Hsc. reflexivity. }
  assert (Hin : In "isc:red" (tbs_parts_of sp)).
  { rewrite tbs_parts_of_eq, Hcc, !in_app_iff. right. right. left. by left. }
  assert (Hcodes : forall code, In code (tbs_parts_of sp) ->
            In code (map snd size_map) \/ In code (map snd aspect_map)
            \/ code = "isc:red"
            \/ In code (map snd type_map) \/ In code (map snd usage_map)).
  { intros code H. apply in_tbs_parts in H. rewrite Hcc in H.
    destruct H as [H|[H|[H|[H|H]]]]; auto.
    right; right; left. by destruct H as [<-|[]]. }
  assert (Hurl : forall q,
            url_frag_of (search_type sp) sp q
            = "q=" +:+ Urllib.quote_plus q +:+ "&tbm=isch" +:+ "&tbs="
              +:+ Py.join "," (tbs_parts_of sp) +:+ cr_param sp).
  { intros q. rewrite url_frag_of_eq, Hst. unfold tbs_param.
    destruct (tbs_parts_of sp) as [|p ps] eqn:E; [destruct Hin|].
    change (tbm_param "Images") with "&tbm=isch".
    change ("Images" =? "Images") with true. cbv iota.
    rewrite !append_assoc. reflexivity. }
  destruct (red_tbs_value sp Hcc) as (Hocc & Hno & Hsep).
  split; [exact Hcc|]. split; [exact Hin|].
  split; [intros H; apply Hcodes in H; no_common_code|].
  split; [intros H; apply Hcodes in H; no_common_code|].
  split; [intros H; apply Hcodes in H; no_common_code|].
  split.
  { intros code H Hspec. apply Hcodes in H.
    destruct H as [H|[H|[H|[H|H]]]]; [| |exact H| |]; exfalso; no_common_code. }
  split; [exact Hurl|].
  split.
  { intros sp' code Hne H Hspec. apply in_tbs_parts in H.
    destruct H as [H|[H|[H|[H|H]]]];
      try apply (color_codes_not_specific _ _ Hne) in H; no_common_code. }
  split.
  { intros q. rewrite Hurl, quote_plus_percent_encode, join_glue. reflexivity. }
  split; [exact Hocc|]. split; [exact Hno|]. split; [exact Hsep | reflexivity].
Qed.

(** C4 at an image search for a red rose: the URL query string. *)
Lemma C4_witness :
  let sp := with_color "Specific color" "Red"
              (with_search_type "Images" (with_all_words "rose" default_parts)) in
  (search_type sp = "Images" /\ color_filter sp = "Specific color"
   /\ specific_color sp = "Red")
  /\ In "isc:red" (tbs_parts_of sp)
  /\ ~ In "ic:color" (tbs_parts_of sp)
  /\ url_frag_of "Images" sp (build_query sp) = "q=rose&tbm=isch&tbs=isc:red".
Proof.
  split; [repeat split|].
  destruct (C4_specific_color_red
              (with_color "Specific color" "Red"
                 (with_search_type "Images" (with_all_words "rose" default_parts)))
              eq_refl eq_refl eq_refl)
    as (_ & Hred & Hcolor & _ & _ & _ & _ & _ & Hurl & _).
  split; [exact Hred|]. split; [exact Hcolor|].
  exact (Hurl "rose").
Defined.

(** C10.  For every two records that differ only in [specific_color] and
    whose colour filter is not Specific color, the preview and the URL query
    string are the same. *)
Theorem C10_specific_color_ignored (a b : SearchParts) :
  differ_only_in_specific_color a b ->
  color_filter a <> "Specific color" ->
  build_query a = build_query b
  /\ tbs_parts_of a = tbs_parts_of b
  /\ (forall st q, url_frag_of st a q = url_frag_of st b q)
  /\ update_preview_of (search_type a) a = update_preview_of (search_type b) b.
Proof.
  intros Hd Hne. apply differ_only_with in Hd. rewrite Hd.
  assert (Hq : build_query a
               = build_query (with_specific_color (specific_color b) a))
    by reflexivity.
  assert (Ht : tbs_parts_of a
               = tbs_parts_of (with_specific_color (specific_color b) a))
    by (symmetry; by apply tbs_parts_of_other_color).
  assert (Hu : forall st q,
             url_frag_of st a q
             = url_frag_of st (with_specific_color (specific_color b) a) q).
  { intros st q. unfold url_frag_of. rewrite <- Ht. reflexivity. }
  split; [exact Hq|]. split; [exact Ht|]. split; [exact Hu|].
  unfold update_preview_of. rewrite <- Hq.
  destruct (negb (Py.truthy (build_query a))); [reflexivity|].
  f_equal. apply Hu.
Qed.

(** C10 at two image searches in full colour that differ in the specific
    colour left in the record. *)
Lemma C10_witness :
  let a := with_color "Full color" "Red"
             (with_search_type "Images" (with_all_words "rose" default_parts)) in
  let b := with_color "Full color" "Blue"
             (with_search_type "Images" (with_all_words "rose" default_parts)) in
  (differ_only_in_specific_color a b /\ color_filter a <> "Specific color")
  /\ update_preview_of (search_type a) a = update_preview_of (search_type b) b.
Proof.
  split; [split; [repeat split | discriminate]|].
  apply (C10_specific_color_ignored
           (with_color "Full color" "Red"
              (with_search_type "Images" (with_all_words "rose" default_parts)))
           (with_color "Full color" "Blue"
              (with_search_type "Images" (with_all_words "rose" default_parts)))).
  - repeat split.
  - discriminate.
Defined.

(** ** The recent-queries store *)

Section StoreFacts.
Context {J : Type} (json_loads : string -> option J) (json_dumps : J -> string).
Import Py.

Implicit Types (st : store J) (sp : SearchParts) (config : ConfigParser.t).

(** Writing the file, or failing to, leaves the list as it is. *)
Lemma write_keeps_recent st :
  _recent_data (_write_recent_to_disk json_dumps st) = _recent_data st.
Proof.
  unfold _write_recent_to_disk.
  by destruct (write_entries json_dumps 1 (_recent_data st) _).
Qed.




(** *** The loop of [load_recent_from_disk] ends by itself *)

Lemma od_get_in {V : Type} (d : list (string * V)) (k : string) (v : V) :
  ConfigParser.od_get d k = Some v -> In k (map fst d).
Proof.
  induction d as [|[k' v'] d IH]; simpl; [discriminate|].
  destruct (k' =? k) eqn:E; [apply String.eqb_eq in E; by left | by right; auto].
Qed.

Lemma od_mem_in {V : Type} (d : list (string * V)) (k : string) :
  ConfigParser.od_mem d k = true -> In k (map fst d).
Proof.
  unfold ConfigParser.od_mem.
  destruct (ConfigParser.od_get d k) eqn:E; [intros _; by eapply od_get_in | discriminate].
Qed.

Lemma has_option_visible config (key : string) :
  ConfigParser.has_option config "Recent" key = true ->
  In (ConfigParser.optionxform key) (visible_options config).
Proof.
  unfold ConfigParser.has_option, visible_options.
  change (negb (truthy "Recent") || ("Recent" =? ConfigParser.DEFAULTSECT)) with false.
  cbv iota.
  destruct (ConfigParser.od_get (ConfigParser.sections config) "Recent") as [sect|];
    [|discriminate].
  intros H. apply orb_true_iff in H. apply in_app_iff.
  destruct H as [H|H]; [left | right]; by apply od_mem_in.
Qed.

Lemma lower_digits (d : Decimal.uint) :
  lower (NilEmpty.string_of_uint d) = NilEmpty.string_of_uint d.
Proof. induction d; simpl; [reflexivity | f_equal; assumption ..]. Qed.

Lemma lower_str_of_nat (i : nat) : lower (str_of_nat i) = str_of_nat i.
Proof.
  unfold str_of_nat, NilZero.string_of_uint.
  destruct (Nat.to_uint i); [reflexivity | apply lower_digits ..].
Qed.

Lemma optionxform_query_key (i : nat) :
  ConfigParser.optionxform (query_key i) = query_key i.
Proof.
  unfold ConfigParser.optionxform, query_key.
  change ("query_" +:+ str_of_nat i)
    with (String "q" (String "u" (String "e" (String "r" (String "y" (String "_"
            (str_of_nat i))))))).
  simpl. by rewrite lower_str_of_nat.
Qed.

Lemma to_uint_not_nil (i : nat) : Nat.to_uint i <> Decimal.Nil.
Proof.
  rewrite <- (Unsigned.of_to i) at 1. rewrite Unsigned.to_of.
  apply DecimalFacts.unorm_nonnil.
Qed.

Lemma str_of_nat_inj (i j : nat) : str_of_nat i = str_of_nat j -> i = j.
Proof.
  unfold str_of_nat. intros H.
  apply Unsigned.to_uint_inj.
  assert (Hi := NilZero.usu _ (to_uint_not_nil i)).
  assert (Hj := NilZero.usu _ (to_uint_not_nil j)).
  rewrite H in Hi. congruence.
Qed.

Lemma query_key_inj (i j : nat) : query_key i = query_key j -> i = j.
Proof.
  unfold query_key. intros H. apply String.app_inj in H. by apply str_of_nat_inj.
Qed.

(** If the loop runs out of fuel, every key it looked for was there. *)
Lemma read_entries_out_of_fuel config (fuel : nat) :
  forall (i : nat) (data r : list (entry J)),
    read_entries json_loads fuel i config data = (r, OutOfFuel) ->
    forall k, i <= k < i + fuel ->
      ConfigParser.has_option config "Recent" (query_key k) = true.
Proof.
  induction fuel as [|fuel IH]; intros i data r H k Hk; [lia|].
  simpl in H.
  destruct (ConfigParser.has_option config "Recent" (query_key i)) eqn:Hi;
    [|discriminate].
  destruct (ConfigParser.getitem config "Recent" (query_key i)); [|discriminate].
  destruct (ConfigParser.get_fallback config "Recent" (parts_key i) "{}");
    [|discriminate].
  destruct (json_loads s0); [|discriminate].
  destruct (decide (k = i)) as [->|Hne]; [exact Hi|].
  apply (IH _ _ _ H). lia.
Qed.

(** With one more unit of fuel than there are option names to find, the
    loop does not run out of fuel. *)
Lemma read_entries_ends config (i : nat) (data : list (entry J)) :
  snd (read_entries json_loads (S (length (visible_options config))) i config data)
  <> OutOfFuel.
Proof.
  destruct (read_entries json_loads _ i config data) as [r o] eqn:E. simpl.
  intros ->.
  pose proof (read_entries_out_of_fuel _ _ _ _ _ E) as Hall.
  set (n := length (visible_options config)) in *.
  assert (Hsub : query_key <$> seq i (S n) ⊆+ visible_options config).
  { apply NoDup_submseteq.
    - apply (@NoDup_fmap_2 _ _ query_key query_key_inj), NoDup_seq.
    - intros key Hkey. apply list_elem_of_fmap in Hkey as (k & -> & Hk).
      apply elem_of_seq in Hk. apply list_elem_of_In.
      rewrite <- optionxform_query_key.
      apply has_option_visible, Hall. lia. }
  apply submseteq_length in Hsub.
  rewrite length_fmap, length_seq in Hsub. subst n. lia.
Qed.

Lemma load_body_ends st (text : string) :
  snd (load_body json_loads st text) <> OutOfFuel.
Proof.
  unfold load_body.
  destruct (ConfigParser.read ConfigParser.empty text) as [config|]; [|discriminate].
  destruct (ConfigParser.contains config "Recent"); [|discriminate].
  apply read_entries_ends.
Qed.

End StoreFacts.

Section StoreClaims.
Context {J : Type} (json_loads : string -> option J) (json_dumps : J -> string).


(** C9, as the claim states it, fails: the file written when none exists is
    not an empty file. *)
Lemma C9_counterexample_file_not_empty :
  file (load_recent_from_disk (fun _ => @None unit) (fun _ => "null") (mk_store [] None))
  <> Some EmptyString.
Proof. vm_compute. discriminate. Qed.

(** C9, amended.  When the file is missing, [load_recent_from_disk] ends
    with an empty list and writes a file that consists of the header of an
    empty section Recent and a blank line; loading that file gives the
    empty list again.  When the file exists and the body of the [try]
    raises an exception, as it does when the file cannot be parsed, the
    list becomes empty and the file stays as it is.  The loop over the
    entries always ends by itself. *)
Theorem C9_load_missing_or_broken_file (st : store J) :
  (file st = None ->
   load_recent_from_disk json_loads json_dumps st
   = mk_store [] (Some ("[Recent]" +:+ ConfigParser.newline +:+ ConfigParser.newline)))
  /\ load_recent_from_disk json_loads json_dumps
       (mk_store (_recent_data st)
          (Some ("[Recent]" +:+ ConfigParser.newline +:+ ConfigParser.newline)))
     = mk_store [] (Some ("[Recent]" +:+ ConfigParser.newline +:+ ConfigParser.newline))
  /\ (forall text : string,
        file st = Some text ->
        snd (load_body json_loads st text) = Exception ->
        load_recent_from_disk json_loads json_dumps st = mk_store [] (Some text))
  /\ (forall text : string,
        file st = Some text ->
        ConfigParser.read ConfigParser.empty text = None ->
        load_recent_from_disk json_loads json_dumps st = mk_store [] (Some text))
  /\ (forall text : string, snd (load_body json_loads st text) <> OutOfFuel).
Proof.
  assert (Hexc : forall text : string,
            file st = Some text ->
            snd (load_body json_loads st text) = Exception ->
            load_recent_from_disk json_loads json_dumps st = mk_store [] (Some text)).
  { intros text Hf Hb. unfold load_recent_from_disk. rewrite Hf.
    destruct (load_body json_loads st text) as [data o]. simpl in Hb. by rewrite Hb. }
  split; [|split; [|split; [|split]]].
  - intros Hf. unfold load_recent_from_disk. rewrite Hf. reflexivity.
  - reflexivity.
  - exact Hexc.
  - intros text Hf Hr. apply Hexc; [exact Hf|].
    unfold load_body. by rewrite Hr.
  - intros text. apply load_body_ends.
Qed.

(** C2 fails on the code: a record whose query string holds a percent sign
    is kept in the list in memory but never reaches the file, because the
    parser object refuses the value and [_write_recent_to_disk] swallows
    the exception.  Starting without a file, loading, saving the record and
    loading again ends with an empty list. *)
Theorem C2_percent_query_not_persisted :
  let sp := with_all_words "100%" default_parts in
  let st0 := load_recent_from_disk json_loads json_dumps (mk_store [] None) in
  let st1 := save_current_query json_dumps sp st0 in
  let st2 := load_recent_from_disk json_loads json_dumps st1 in
  build_query sp = "100%"
  /\ ConfigParser.before_set "100%" = None
  /\ _recent_data st1 = [mk_entry "100%" (FormDict sp)]
  /\ file st1 = file st0
  /\ _recent_data st2 = []
  /\ _recent_data st2 !! 0 = None.
Proof. repeat split. Qed.

(** A doubled percent sign passes the check on writing and comes back as a
    single one: whatever [json.loads] gives, the entry at position 0 after
    the reload, when there is one, has another query string than the one
    saved. *)
Lemma escaped_percent_query_altered :
  let sp := with_all_words "50%%" default_parts in
  let st0 := load_recent_from_disk json_loads json_dumps (mk_store [] None) in
  let st1 := save_current_query json_dumps sp st0 in
  let st2 := load_recent_from_disk json_loads json_dumps st1 in
  build_query sp = "50%%"
  /\ forall e, _recent_data st2 !! 0 = Some e -> query e = "50%".
Proof.
  split; [reflexivity|].
  intros e. vm_compute.
  match goal with |- context [json_loads ?s] => destruct (json_loads s) end;
    [intros [= <-]; reflexivity | discriminate].
Qed.

(** A query without a percent sign reaches the file and comes back with the
    same query string, as far as [json.loads] accepts the stored record. *)
Lemma plain_query_reloaded :
  let sp := with_all_words "laptop" default_parts in
  let st0 := load_recent_from_disk json_loads json_dumps (mk_store [] None) in
  let st1 := save_current_query json_dumps sp st0 in
  let st2 := load_recent_from_disk json_loads json_dumps st1 in
  exists parts_str,
    parts_str = Json.dumps_dict (dict_of_parts sp)
    /\ _recent_data st2
       = match json_loads parts_str with
         | Some j => [mk_entry "laptop" (Decoded j)]
         | None => []
         end.
Proof.
  eexists. split; [reflexivity|].
  vm_compute.
  match goal with |- context [json_loads ?s] => destruct (json_loads s) end;
    reflexivity.
Qed.

End StoreClaims.


Example ex_load_garbage :
  load_recent_from_disk (fun _ => @None unit) (fun _ => "null")
    (mk_store [mk_entry "old" (Decoded tt)] (Some "no section header here"))
  = mk_store [] (Some "no section header here").
Proof. reflexivity. Qed.

Example ex_load_bad_interpolation :
  load_recent_from_disk (fun _ => Some tt) (fun _ => "null")
    (mk_store [] (Some ("[Recent]" +:+ ConfigParser.newline +:+ "query_1 = 100%"
                        +:+ ConfigParser.newline)))
  = mk_store [] (Some ("[Recent]" +:+ ConfigParser.newline +:+ "query_1 = 100%"
                       +:+ ConfigParser.newline)).
Proof. reflexivity. Qed.

(** * More properties of the program *)

(** ** Option names and lines of the file *)

Section KeyFacts.
Import Py ConfigParser.

Lemma plain_key_app (a b : string) : plain_key (a +:+ b) = plain_key a && plain_key b.
Proof.
  induction a as [|c a IH]; [reflexivity|].
  rewrite append_cons. simpl. rewrite IH. by rewrite andb_assoc.
Qed.

Lemma key_char_facts (c : ascii) :
  key_char c = true ->
  isspace c = false /\ is_delimiter c = false /\ Ascii.eqb c "#" = false
  /\ Ascii.eqb c ";" = false /\ Ascii.eqb c "[" = false /\ lower_char c = c.
Proof.
  unfold key_char. rewrite !andb_true_iff, !negb_true_iff.
  intros (((((H1 & H2) & H3) & H4) & H5) & H6).
  apply Ascii.eqb_eq in H6. tauto.
Qed.

Lemma plain_key_digits (d : Decimal.uint) : plain_key (NilEmpty.string_of_uint d) = true.
Proof. induction d; simpl; [reflexivity | assumption ..]. Qed.

Lemma plain_key_str_of_nat (i : nat) : plain_key (str_of_nat i) = true.
Proof.
  unfold str_of_nat, NilZero.string_of_uint.
  destruct (Nat.to_uint i); [reflexivity | apply plain_key_digits ..].
Qed.

Lemma plain_query_key (i : nat) : plain_key (query_key i) = true.
Proof. unfold query_key. by rewrite plain_key_app, plain_key_str_of_nat. Qed.

Lemma plain_parts_key (i : nat) : plain_key (parts_key i) = true.
Proof. unfold parts_key. by rewrite plain_key_app, plain_key_str_of_nat. Qed.

Lemma plain_key_spaceless (k : string) : plain_key k = true -> spaceless k = true.
Proof.
  induction k as [|c k IH]; [reflexivity|]. simpl.
  intros H. apply andb_true_iff in H as [Hc Hk].
  apply key_char_facts in Hc as (Hs & _). rewrite Hs. simpl. auto.
Qed.

Lemma plain_key_lower (k : string) : plain_key k = true -> lower k = k.
Proof.
  induction k as [|c k IH]; [reflexivity|]. simpl.
  intros H. apply andb_true_iff in H as [Hc Hk].
  apply key_char_facts in Hc as (_ & _ & _ & _ & _ & Hl).
  rewrite Hl, IH by assumption. reflexivity.
Qed.

Lemma plain_key_no_char (k : string) (c : ascii) :
  isspace c = true -> plain_key k = true -> contains_char c k = false.
Proof.
  intros Hsp. induction k as [|a k IH]; [reflexivity|]. simpl.
  intros H. apply andb_true_iff in H as [Ha Hk].
  apply key_char_facts in Ha as (Hs & _).
  rewrite IH by assumption. rewrite orb_false_r.
  destruct (Ascii.eqb a c) eqn:E; [|reflexivity].
  apply Ascii.eqb_eq in E. congruence.
Qed.

Lemma split_delimiter_plain (k s : string) :
  plain_key k = true ->
  split_delimiter (k +:+ s)
  = match split_delimiter s with
    | Some (o, v) => Some (k +:+ o, v)
    | None => None
    end.
Proof.
  induction k as [|c k IH]; intros H.
  - rewrite append_empty_l. by destruct (split_delimiter s) as [[o v]|].
  - simpl in H. apply andb_true_iff in H as [Hc Hk].
    apply key_char_facts in Hc as (_ & Hd & _).
    rewrite append_cons. simpl. rewrite Hd, IH by assumption.
    by destruct (split_delimiter s) as [[o v]|].
Qed.

(** What [_read] sees in the line written for an option. *)
Lemma option_line_read (k v : string) :
  plain_key k = true -> k <> EmptyString -> lstrip v = v -> rstrip v = v ->
  let line := k +:+ " = " +:+ v in
  let value := strip line in
  truthy value = true
  /\ startswith "#" value = false /\ startswith ";" value = false
  /\ first_nonspace_start line = 0
  /\ sectcre_match value = None
  /\ exists v', optcre_match value = Some (k, v') /\ strip v' = v.
Proof.
  intros Hk Hne Hl Hr line value.
  destruct k as [|c k]; [done|]. clear Hne.
  assert (Hpk := Hk). simpl in Hk. apply andb_true_iff in Hk as [Hc Hk].
  apply key_char_facts in Hc as (Hs & Hd & H1 & H2 & H3 & _).
  assert (Hline : lstrip line = line) by (by apply lstrip_head).
  assert (Hvalue : value = String c k +:+ rstrip (" = " +:+ v)).
  { unfold value, strip. rewrite Hline. unfold line.
    by rewrite rstrip_app_spaceless by by apply plain_key_spaceless. }
  assert (Hsv : strip v = v) by (unfold strip; by rewrite Hl, Hr).
  rewrite Hvalue. rewrite append_cons.
  split; [reflexivity|]. split; [exact H1|]. split; [exact H2|].
  split.
  { unfold first_nonspace_start. rewrite Hline. simpl. by rewrite Hs. }
  split.
  { unfold sectcre_match.
    destruct c as [[] [] [] [] [] [] [] []]; try reflexivity; discriminate. }
  rewrite <- append_cons. unfold optcre_match.
  rewrite split_delimiter_plain by assumption.
  destruct v as [|a v].
  - exists EmptyString. split; [|reflexivity].
    change (rstrip (" = " +:+ "")) with " =". simpl split_delimiter. cbv iota beta.
    rewrite rstrip_app_spaceless by by apply plain_key_spaceless.
    change (rstrip " ") with EmptyString. by rewrite append_empty_r.
  - exists (String a v). split; [|exact Hsv].
    rewrite (rstrip_app_kept " = " (String a v)) by (done || assumption).
    change (split_delimiter (" = " +:+ String a v)) with (Some (" ", " " +:+ String a v)).
    cbv iota beta.
    rewrite rstrip_app_spaceless by by apply plain_key_spaceless.
    change (rstrip " ") with EmptyString. rewrite append_empty_r.
    change (lstrip (" " +:+ String a v)) with (lstrip (String a v)).
    by rewrite Hl.
Qed.

End KeyFacts.

(** ** Writing the list and reading it back *)

Section ValueFacts.
Import Py ConfigParser.

Implicit Types (opts : list (string * string)).

Lemma od_get_app {V : Type} (a b : list (string * V)) (k : string) :
  od_get (a ++ b) k = match od_get a k with Some v => Some v | None => od_get b k end.
Proof.
  induction a as [|[k' v'] a IH]; simpl; [reflexivity|].
  destruct (k' =? k); [reflexivity | exact IH].
Qed.

Lemma od_set_fresh {V : Type} (d : list (string * V)) (k : string) (v : V) :
  od_get d k = None -> od_set d k v = d ++ [(k, v)].
Proof.
  induction d as [|[k' v'] d IH]; simpl; [reflexivity|].
  destruct (k' =? k); [discriminate | intros H; by rewrite IH].
Qed.

Lemma od_get_not_in {V : Type} (d : list (string * V)) (k : string) :
  ~ In k (map fst d) -> od_get d k = None.
Proof.
  induction d as [|[k' v'] d IH]; simpl; [reflexivity|].
  intros H. destruct (k' =? k) eqn:E.
  - apply String.eqb_eq in E. tauto.
  - apply IH. tauto.
Qed.

Lemma clean_facts (v : string) :
  clean v = true ->
  contains_char "%" v = false /\ contains_char "010" v = false
  /\ contains_char "013" v = false /\ lstrip v = v /\ rstrip v = v.
Proof.
  unfold clean. rewrite !andb_true_iff, !negb_true_iff, !String.eqb_eq. tauto.
Qed.

Lemma drop_escaped_percent_none (v : string) :
  contains_char "%" v = false -> drop_escaped_percent v = v.
Proof.
  induction v as [|c v IH]; [reflexivity|].
  intros H. simpl in H. apply orb_false_iff in H as [Hc Hv].
  specialize (IH Hv).
  destruct c as [[] [] [] [] [] [] [] []]; simpl; try (f_equal; exact IH).
  discriminate.
Qed.

Lemma keycre_sub_none (v : string) :
  contains_char "%" v = false -> keycre_sub 0 v = v.
Proof.
  induction v as [|c v IH]; [reflexivity|].
  intros H. simpl in H. apply orb_false_iff in H as [Hc Hv].
  simpl. rewrite Hc. f_equal. by apply IH.
Qed.

(** A value without a percent sign passes the check made on writing. *)
Lemma before_set_no_percent (v : string) :
  contains_char "%" v = false -> before_set v = Some v.
Proof.
  intros H. unfold before_set.
  rewrite (drop_escaped_percent_none _ H), (keycre_sub_none _ H), H. reflexivity.
Qed.

(** And it is read as it stands. *)
Lemma before_get_no_percent (map : list (string * string)) (v : string) :
  contains_char "%" v = false -> before_get v map = Some v.
Proof.
  unfold before_get, MAX_INTERPOLATION_DEPTH. simpl interpolate_some.
  induction v as [|c v IH]; [reflexivity|].
  intros H. simpl in H. apply orb_false_iff in H as [Hc Hv].
  rewrite Hc. rewrite (IH Hv). reflexivity.
Qed.

Lemma optionxform_parts_key (i : nat) : optionxform (parts_key i) = parts_key i.
Proof. apply plain_key_lower, plain_parts_key. Qed.

Lemma parts_key_inj (i j : nat) : parts_key i = parts_key j -> i = j.
Proof.
  unfold parts_key. intros H. apply String.app_inj in H. by apply str_of_nat_inj.
Qed.

Lemma query_parts_key (i j : nat) : query_key i <> parts_key j.
Proof. unfold query_key, parts_key. discriminate. Qed.

(** Setting a new option of the section Recent to a value without a
    percent sign puts it at the end of the section. *)
Lemma set_recent_fresh opts (k v : string) :
  optionxform k = k -> od_get opts k = None -> contains_char "%" v = false ->
  set (mk [] [("Recent", opts)]) "Recent" k v
  = Some (mk [] [("Recent", opts ++ [(k, v)])]).
Proof.
  intros Hx Hf Hv. unfold set, has_section, od_mem. simpl.
  rewrite Hx.
  destruct (truthy v); rewrite ?(before_set_no_percent _ Hv);
    by rewrite (od_set_fresh _ _ _ Hf).
Qed.

End ValueFacts.

Section RoundTripFacts.
Context {J : Type} (json_dumps : J -> string).
Import Py ConfigParser.

Implicit Types (data : list (entry J)) (opts : list (string * string)).

(** The names set from index [i] on are those of the indices from [i] on. *)
Lemma entries_options_keys data (i : nat) (k : string) :
  In k (map fst (entries_options json_dumps i data)) ->
  exists j, i <= j < i + length data /\ (k = query_key j \/ k = parts_key j).
Proof.
  revert i. induction data as [|e data IH]; intros i; simpl; [tauto|].
  intros [<-|[<-|H]].
  - exists i. split; [lia | by left].
  - exists i. split; [lia | by right].
  - apply IH in H as (j & Hj & Hk). exists j. split; [lia | exact Hk].
Qed.

Lemma entries_options_fresh data (i j : nat) :
  j < i ->
  od_get (entries_options json_dumps i data) (query_key j) = None
  /\ od_get (entries_options json_dumps i data) (parts_key j) = None.
Proof.
  intros Hj. split; apply od_get_not_in; intros H;
    apply entries_options_keys in H as (j' & Hj' & [Hk|Hk]).
  - apply query_key_inj in Hk. lia.
  - by apply query_parts_key in Hk.
  - symmetry in Hk. by apply query_parts_key in Hk.
  - apply parts_key_inj in Hk. lia.
Qed.

Lemma entries_options_snoc data (i : nat) (e : entry J) :
  entries_options json_dumps i (data ++ [e])
  = entries_options json_dumps i data
    ++ [(query_key (i + length data), query e);
        (parts_key (i + length data), dumps_parts json_dumps (parts e))].
Proof.
  revert i. induction data as [|e' data IH]; intros i; simpl.
  - by rewrite Nat.add_0_r.
  - rewrite IH. by rewrite Nat.add_succ_r.
Qed.

Lemma Forall_clean_facts data :
  forallb (clean_entry json_dumps) data = true ->
  Forall (fun e => clean (query e) = true
                   /\ clean (dumps_parts json_dumps (parts e)) = true) data.
Proof.
  intros H. apply Forall_forall. intros e He.
  rewrite forallb_forall in H. specialize (H e).
  unfold clean_entry in H. rewrite andb_true_iff in H. apply H.
  by apply list_elem_of_In.
Qed.

(** The loop of [_write_recent_to_disk] on clean entries fills the section
    with their options, in order. *)
Lemma write_entries_clean data :
  forall (i : nat) opts,
    forallb (clean_entry json_dumps) data = true ->
    (forall j, i <= j ->
       od_get opts (query_key j) = None /\ od_get opts (parts_key j) = None) ->
    write_entries json_dumps i data (mk [] [("Recent", opts)])
    = Some (mk [] [("Recent", opts ++ entries_options json_dumps i data)]).
Proof.
  induction data as [|e data IH]; intros i opts Hclean Hfresh.
  - simpl. by rewrite app_nil_r.
  - simpl in Hclean. apply andb_true_iff in Hclean as [He Hdata].
    unfold clean_entry in He. apply andb_true_iff in He as [Hq Hp].
    apply clean_facts in Hq as (Hq & _). apply clean_facts in Hp as (Hp & _).
    destruct (Hfresh i (Nat.le_refl i)) as [Hfq Hfp].
    assert (Hfp' : od_get (opts ++ [(query_key i, query e)]) (parts_key i) = None).
    { rewrite od_get_app, Hfp. apply od_get_not_in. simpl. intros [E|[]].
      by apply query_parts_key in E. }
    simpl.
    rewrite (set_recent_fresh _ _ _ (optionxform_query_key i) Hfq Hq).
    rewrite (set_recent_fresh _ _ _ (optionxform_parts_key i) Hfp' Hp).
    rewrite IH; [|exact Hdata|].
    + by rewrite <- !app_assoc.
    + intros j Hj. rewrite <- app_assoc.
      rewrite (od_get_app opts), (od_get_app opts).
      destruct (Hfresh j ltac:(lia)) as [-> ->].
      split; apply od_get_not_in; simpl; intros [E|[E|[]]].
      * apply query_key_inj in E. lia.
      * symmetry in E. by apply query_parts_key in E.
      * by apply query_parts_key in E.
      * apply parts_key_inj in E. lia.
Qed.

End RoundTripFacts.

Section ReadBackFacts.
Import Py ConfigParser.

Implicit Types (opts : list (string * string)).

Lemma replace_char_none (c : ascii) (new s : string) :
  contains_char c s = false -> replace_char c new s = s.
Proof.
  induction s as [|a s IH]; [reflexivity|]. simpl.
  intros H. apply orb_false_iff in H as [Ha Hs]. rewrite Ha. f_equal. by apply IH.
Qed.

Lemma universal_newlines_none (s : string) :
  contains_char "013" s = false -> universal_newlines s = s.
Proof.
  induction s as [|c s IH]; [reflexivity|].
  intros H. simpl in H. apply orb_false_iff in H as [Hc Hs].
  specialize (IH Hs).
  destruct c as [[] [] [] [] [] [] [] []]; simpl; try (f_equal; exact IH).
  discriminate.
Qed.

Lemma split_on_line (l rest : string) :
  contains_char "010" l = false ->
  split_on "010" (l +:+ newline +:+ rest) = l :: split_on "010" rest.
Proof.
  induction l as [|c l IH]; [reflexivity|].
  intros H. simpl in H. apply orb_false_iff in H as [Hc Hl].
  rewrite append_cons. simpl. rewrite Hc, IH by assumption. reflexivity.
Qed.

Lemma split_on_unlines (lines : list string) :
  Forall (fun l => contains_char "010" l = false) lines ->
  split_on "010" (unlines lines) = lines ++ [EmptyString].
Proof.
  induction 1 as [|l lines Hl _ IH]; [reflexivity|].
  simpl. by rewrite split_on_line, IH.
Qed.

Lemma contains_char_unlines (c : ascii) (lines : list string) :
  contains_char c newline = false ->
  Forall (fun l => contains_char c l = false) lines ->
  contains_char c (unlines lines) = false.
Proof.
  intros Hc. induction 1 as [|l lines Hl _ IH]; [reflexivity|].
  simpl unlines. by rewrite !contains_char_app, Hl, IH, Hc.
Qed.

(** The lines of a text made of lines are those lines. *)
Lemma file_lines_unlines (lines : list string) :
  Forall (fun l => contains_char "010" l = false) lines ->
  Forall (fun l => contains_char "013" l = false) lines ->
  file_lines (unlines lines) = lines.
Proof.
  intros Hn Hr. unfold file_lines.
  rewrite universal_newlines_none by by apply contains_char_unlines.
  rewrite split_on_unlines by assumption.
  rewrite last_snoc. apply removelast_last.
Qed.

Lemma concat_lines (items : list (string * string)) (f : string * string -> string) :
  String.concat EmptyString (map (fun kv => f kv +:+ newline) items)
  = unlines (map f items).
Proof.
  induction items as [|kv items IH]; [reflexivity|].
  change (map (fun kv => f kv +:+ newline) (kv :: items))
    with ([f kv +:+ newline] ++ map (fun kv => f kv +:+ newline) items).
  rewrite concat_empty_app, IH. simpl. by rewrite append_assoc.
Qed.

(** The text written for a parser object that holds the section Recent
    alone, with values on one line each. *)
Lemma write_recent_text opts :
  Forall (fun kv => contains_char "010" (snd kv) = false) opts ->
  write (mk [] [("Recent", opts)])
  = unlines ("[Recent]" :: map option_line opts ++ [EmptyString]).
Proof.
  intros H. unfold write. simpl. rewrite append_empty_l. unfold write_section.
  assert (Hmap : map (fun kv => fst kv +:+ " = "
                        +:+ replace_char "010" (newline +:+ tab) (snd kv) +:+ newline) opts
                 = map (fun kv => option_line kv +:+ newline) opts).
  { apply map_ext_Forall. eapply Forall_impl; [exact H|]. intros kv Hkv. simpl in Hkv.
    unfold option_line. rewrite (replace_char_none _ _ _ Hkv).
    by rewrite !append_assoc. }
  simpl fst. simpl snd. rewrite Hmap, concat_lines.
  assert (Hu : forall a b, unlines (a ++ b) = unlines a +:+ unlines b).
  { intros a b. induction a as [|x a IH]; [reflexivity|].
    simpl. rewrite IH. by rewrite !append_assoc. }
  rewrite Hu. reflexivity.
Qed.

Lemma read_lines_app (st : read_state) (a b : list string) :
  read_lines st (a ++ b)
  = match read_lines st a with
    | Some st' => read_lines st' b
    | None => None
    end.
Proof.
  revert st. induction a as [|l a IH]; intros st; simpl; [reflexivity|].
  destruct (read_line st l); [apply IH | reflexivity].
Qed.

Lemma mem_pair_added (sect : list (string * list string)) (k : string) :
  od_get sect k = None ->
  mem_pair ("Recent", k) (rev (map (fun kv => ("Recent", fst kv)) sect)) = false.
Proof.
  intros H. unfold mem_pair.
  destruct (existsb _ _) eqn:E; [|reflexivity].
  apply existsb_exists in E as (y & Hy & Hk).
  apply in_rev, in_map_iff in Hy as ([k' v'] & <- & Hin). simpl in Hk.
  apply String.eqb_eq in Hk. subst k'.
  assert (Hmem : In k (map fst sect)) by (apply in_map_iff; by exists (k, v')).
  clear -H Hmem. exfalso. induction sect as [|[k0 v0] sect IH]; simpl in *; [done|].
  destruct (k0 =? k) eqn:E; [discriminate|].
  destruct Hmem as [->|Hmem]; [by rewrite String.eqb_refl in E | auto].
Qed.

(** One option line read in the section Recent. *)
Lemma read_option_line (sect : list (string * list string)) (last : option string)
    (k v : string) :
  plain_key k = true -> k <> EmptyString -> lstrip v = v -> rstrip v = v ->
  od_get sect k = None ->
  read_line (recent_state sect last) (option_line (k, v))
  = Some (recent_state (sect ++ [(k, [v])]) (Some k)).
Proof.
  intros Hk Hne Hl Hr Hfresh.
  destruct (option_line_read k v Hk Hne Hl Hr) as (H1 & H2 & H3 & H4 & H5 & v' & H6 & H7).
  unfold option_line. simpl fst. simpl snd.
  unfold read_line. cbv zeta. rewrite H2, H3. simpl orb. cbv iota.
  rewrite H1. simpl negb. cbv iota. rewrite H4.
  assert (Hcont : match open_option (recent_state sect last) with
                  | Some name =>
                      if (indent_level (recent_state sect last) <? 0)%nat
                      then Some name else None
                  | None => None
                  end = None).
  { by destruct (open_option (recent_state sect last)). }
  rewrite Hcont. rewrite H5.
  unfold read_option, with_indent, recent_state, cursect. simpl.
  rewrite H6.
  assert (Hx : optionxform (rstrip k) = k).
  { unfold optionxform. rewrite <- (append_empty_r k) at 1.
    rewrite rstrip_app_spaceless by by apply plain_key_spaceless.
    simpl. rewrite append_empty_r. by apply plain_key_lower. }
  rewrite Hx, (mem_pair_added _ _ Hfresh).
  assert (Htk : truthy k = true) by by destruct k.
  rewrite Htk. unfold set_cursect, od_mem. simpl.
  rewrite H7, (od_set_fresh _ _ _ Hfresh).
  rewrite map_app, rev_app_distr. reflexivity.
Qed.

End ReadBackFacts.

Section ReadRecentFacts.
Import Py ConfigParser.

Implicit Types (opts : list (string * string)).

Lemma clean_option_facts (kv : string * string) :
  clean_option kv = true ->
  plain_key (fst kv) = true /\ fst kv <> EmptyString /\ clean (snd kv) = true.
Proof.
  unfold clean_option. rewrite !andb_true_iff. intros [[H1 H2] H3].
  apply truthy_true in H2. tauto.
Qed.

(** The option lines of a section read one after the other. *)
Lemma read_option_lines opts :
  forall (sect : list (string * list string)) (last : option string),
    forallb clean_option opts = true ->
    NoDup (map fst sect ++ map fst opts) ->
    read_lines (recent_state sect last) (map option_line opts)
    = Some (recent_state (sect ++ map (fun kv => (fst kv, [snd kv])) opts)
              (last_option_name opts last)).
Proof.
  induction opts as [|[k v] opts IH]; intros sect last Hclean Hnd.
  - simpl. by rewrite app_nil_r.
  - simpl in Hclean. apply andb_true_iff in Hclean as [Hkv Hclean].
    apply clean_option_facts in Hkv as (Hk & Hne & Hv). simpl in Hk, Hne, Hv.
    apply clean_facts in Hv as (_ & _ & _ & Hl & Hr).
    assert (Hfresh : od_get sect k = None).
    { apply od_get_not_in. intros Hin.
      apply NoDup_app in Hnd as (_ & Hdis & _).
      apply (Hdis k); [by apply list_elem_of_In | simpl; by constructor]. }
    change (map option_line ((k, v) :: opts))
      with (option_line (k, v) :: map option_line opts).
    simpl read_lines. rewrite (read_option_line _ _ _ _ Hk Hne Hl Hr Hfresh).
    rewrite IH; [|exact Hclean|].
    + simpl map. by rewrite <- app_assoc.
    + rewrite map_app. simpl map. rewrite <- app_assoc. exact Hnd.
Qed.

End ReadRecentFacts.

Section ReadTextFacts.
Import Py ConfigParser.

Implicit Types (opts : list (string * string)).

Lemma concat_snoc_empty (sep : string) (val : list string) :
  val <> [] ->
  String.concat sep (val ++ [EmptyString]) = String.concat sep val +:+ sep.
Proof.
  induction val as [|x val IH]; [done|]. intros _.
  destruct val as [|y val].
  - simpl. by rewrite append_empty_r.
  - change ((x :: y :: val) ++ [EmptyString]) with (x :: (y :: val) ++ [EmptyString]).
    change (String.concat sep (x :: (y :: val) ++ [""]))
      with (x +:+ sep +:+ String.concat sep ((y :: val) ++ [""])).
    rewrite IH by done.
    change (String.concat sep (x :: y :: val))
      with (x +:+ sep +:+ String.concat sep (y :: val)).
    by rewrite !append_assoc.
Qed.

(** A blank line at the end of a value is dropped when the lines of the
    value are joined. *)
Lemma join_value_snoc_blank (val : list string) :
  join_value (val ++ [EmptyString]) = join_value val.
Proof.
  unfold join_value, join. destruct val as [|x val]; [reflexivity|].
  rewrite concat_snoc_empty by done. by apply rstrip_app_blank.
Qed.

Lemma od_set_keys {V : Type} (d : list (string * V)) (k : string) (v w : V) :
  od_get d k = Some v -> map fst (od_set d k w) = map fst d.
Proof.
  induction d as [|[k' v'] d IH]; simpl; [discriminate|].
  destruct (k' =? k) eqn:E.
  - intros _. apply String.eqb_eq in E. by subst.
  - intros H. simpl. by rewrite IH.
Qed.

Lemma od_set_joined (sect : list (string * list string)) (k : string) (val : list string) :
  od_get sect k = Some val ->
  map (fun kv => (fst kv, join_value (snd kv))) (od_set sect k (val ++ [EmptyString]))
  = map (fun kv => (fst kv, join_value (snd kv))) sect.
Proof.
  induction sect as [|[k' v'] sect IH]; simpl; [discriminate|].
  destruct (k' =? k) eqn:E.
  - intros [= ->]. apply String.eqb_eq in E. subst. simpl.
    by rewrite join_value_snoc_blank.
  - intros H. simpl. by rewrite IH.
Qed.

(** The blank line that ends the section changes no value. *)
Lemma read_blank_line (sect : list (string * list string)) (last : option string) :
  exists sect',
    read_line (recent_state sect last) EmptyString = Some (recent_state sect' last)
    /\ map (fun kv => (fst kv, join_value (snd kv))) sect'
       = map (fun kv => (fst kv, join_value (snd kv))) sect.
Proof.
  unfold read_line. simpl strip. simpl startswith. simpl orb. cbv iota zeta.
  simpl truthy. simpl negb. cbv iota.
  destruct last as [name|]; [|by exists sect].
  unfold open_option, cursect. simpl.
  destruct (truthy name); [|by exists sect].
  unfold append_to_option, cursect. simpl.
  destruct (od_get sect name) as [val|] eqn:E; [|by exists sect].
  exists (od_set sect name (val ++ [EmptyString])). split.
  - unfold set_cursect, od_mem, recent_state. simpl.
    replace (map (fun kv => ("Recent", kv.1)) (od_set sect name (val ++ [""])))
      with (map (fun kv => ("Recent", kv.1)) sect); [reflexivity|].
    rewrite <- !(map_map fst (fun k => ("Recent", k))).
    by rewrite (od_set_keys _ _ _ _ E).
  - by apply od_set_joined.
Qed.

Lemma option_line_no_char (kv : string * string) (c : ascii) :
  isspace c = true -> contains_char c " = " = false ->
  plain_key (fst kv) = true -> contains_char c (snd kv) = false ->
  contains_char c (option_line kv) = false.
Proof.
  intros Hsp Heq Hk Hv. unfold option_line.
  by rewrite !contains_char_app, (plain_key_no_char _ _ Hsp Hk), Hv, Heq.
Qed.

(** Reading the text written for the section Recent gives the section
    back. *)
Lemma read_recent_text opts :
  forallb clean_option opts = true ->
  NoDup (map fst opts) ->
  read empty (unlines ("[Recent]" :: map option_line opts ++ [EmptyString]))
  = Some (mk [] [("Recent", opts)]).
Proof.
  intros Hclean Hnd.
  assert (Hall : Forall (fun kv => plain_key (fst kv) = true
                                   /\ contains_char "010" (snd kv) = false
                                   /\ contains_char "013" (snd kv) = false
                                   /\ rstrip (snd kv) = snd kv) opts).
  { apply Forall_forall. intros kv Hkv.
    rewrite forallb_forall in Hclean. specialize (Hclean kv).
    apply clean_option_facts in Hclean as (Hk & _ & Hv); [|by apply list_elem_of_In].
    apply clean_facts in Hv. tauto. }
  unfold read. rewrite file_lines_unlines.
  - change (read_lines (read_start empty) ("[Recent]" :: ?l))
      with (read_lines (recent_state [] None) l).
    rewrite read_lines_app, (read_option_lines _ [] None Hclean Hnd).
    destruct (read_blank_line ([] ++ map (fun kv => (fst kv, [snd kv])) opts)
                (last_option_name opts None)) as (sect' & Hb & Hj).
    change (read_lines ?s [EmptyString])
      with (match read_line s EmptyString with
            | Some st' => Some st'
            | None => None
            end).
    rewrite Hb. simpl. rewrite Hj. simpl app.
    rewrite map_map. simpl.
    assert (Hm : map (fun x : string * string => (x.1, join_value [x.2])) opts = opts).
    { clear -Hall.
      induction Hall as [|[k v] opts (_ & _ & _ & Hr) _ IH]; [reflexivity|].
      simpl in *. rewrite IH. unfold join_value, join. simpl. by rewrite Hr. }
    by rewrite Hm.
  - constructor; [reflexivity|]. apply Forall_app. split; [|by repeat constructor].
    apply Forall_map. eapply Forall_impl; [exact Hall|].
    intros kv (Hk & Hn & _). by apply option_line_no_char.
  - constructor; [reflexivity|]. apply Forall_app. split; [|by repeat constructor].
    apply Forall_map. eapply Forall_impl; [exact Hall|].
    intros kv (Hk & _ & Hr & _). by apply option_line_no_char.
Qed.

End ReadTextFacts.

Section LookupFacts.
Import Py ConfigParser.

Implicit Types (opts : list (string * string)).

Lemma has_option_recent opts (k : string) :
  optionxform k = k ->
  has_option (mk [] [("Recent", opts)]) "Recent" k = od_mem opts k.
Proof.
  intros Hx. unfold has_option. simpl. rewrite Hx. unfold od_mem at 2. simpl.
  by rewrite orb_false_r.
Qed.

Lemma get_recent opts (k v : string) :
  optionxform k = k -> od_get opts k = Some v -> contains_char "%" v = false ->
  get (mk [] [("Recent", opts)]) "Recent" k = Value v.
Proof.
  intros Hx Hk Hv. unfold get, unify_values. simpl.
  rewrite Hx, app_nil_r, Hk. by rewrite (before_get_no_percent _ _ Hv).
Qed.

Lemma getitem_recent opts (k v : string) :
  optionxform k = k -> od_get opts k = Some v -> contains_char "%" v = false ->
  getitem (mk [] [("Recent", opts)]) "Recent" k = Some v.
Proof.
  intros Hx Hk Hv. unfold getitem.
  rewrite (has_option_recent _ _ Hx). unfold od_mem. rewrite Hk.
  by rewrite (get_recent _ _ _ Hx Hk Hv).
Qed.

Lemma get_fallback_recent opts (k v fallback : string) :
  optionxform k = k -> od_get opts k = Some v -> contains_char "%" v = false ->
  get_fallback (mk [] [("Recent", opts)]) "Recent" k fallback = Some v.
Proof.
  intros Hx Hk Hv. unfold get_fallback. by rewrite (get_recent _ _ _ Hx Hk Hv).
Qed.

End LookupFacts.

Section WrittenFacts.
Context {J : Type} (json_dumps : J -> string).
Import Py ConfigParser.

Implicit Types (data : list (entry J)) (st : store J).

Lemma entries_options_lookup data :
  forall (i n : nat),
    od_get (entries_options json_dumps i data) (query_key (i + n))
    = query <$> data !! n
    /\ od_get (entries_options json_dumps i data) (parts_key (i + n))
       = (fun e => dumps_parts json_dumps (parts e)) <$> data !! n.
Proof.
  induction data as [|e data IH]; intros i n; [done|].
  destruct n as [|n].
  - rewrite Nat.add_0_r. simpl entries_options.
    change (od_get ((?k1, ?v1) :: (?k2, ?v2) :: ?d) ?k)
      with (if k1 =? k then Some v1 else if k2 =? k then Some v2 else od_get d k).
    rewrite !String.eqb_refl.
    assert ((query_key i =? parts_key i) = false) as ->.
    { apply String.eqb_neq, query_parts_key. }
    done.
  - replace (i + S n) with (S i + n) by lia.
    destruct (IH (S i) n) as [IH1 IH2]. simpl entries_options.
    change (od_get ((?k1, ?v1) :: (?k2, ?v2) :: ?d) ?k)
      with (if k1 =? k then Some v1 else if k2 =? k then Some v2 else od_get d k).
    assert ((query_key i =? query_key (S i + n)) = false) as ->.
    { apply String.eqb_neq. intros E. apply query_key_inj in E. lia. }
    assert ((parts_key i =? query_key (S i + n)) = false) as ->.
    { apply String.eqb_neq. intros E. symmetry in E. by apply query_parts_key in E. }
    assert ((query_key i =? parts_key (S i + n)) = false) as ->.
    { apply String.eqb_neq, query_parts_key. }
    assert ((parts_key i =? parts_key (S i + n)) = false) as ->.
    { apply String.eqb_neq. intros E. apply parts_key_inj in E. lia. }
    by rewrite IH1, IH2.
Qed.

Lemma entries_options_clean data (i : nat) :
  forallb (clean_entry json_dumps) data = true ->
  forallb clean_option (entries_options json_dumps i data) = true.
Proof.
  revert i. induction data as [|e data IH]; intros i H; [reflexivity|].
  simpl in H. apply andb_true_iff in H as [He H].
  unfold clean_entry in He. apply andb_true_iff in He as [Hq Hp].
  simpl entries_options.
  change (forallb clean_option ((?k1, ?v1) :: (?k2, ?v2) :: ?d))
    with (clean_option (k1, v1) && (clean_option (k2, v2) && forallb clean_option d)).
  rewrite IH by assumption. unfold clean_option. simpl fst. simpl snd.
  rewrite plain_query_key, plain_parts_key, Hq, Hp. reflexivity.
Qed.

Lemma entries_options_nodup data (i : nat) :
  NoDup (map fst (entries_options json_dumps i data)).
Proof.
  revert i. induction data as [|e data IH]; intros i; [constructor|].
  simpl. constructor; [|constructor; [|apply IH]].
  - intros H. apply elem_of_cons in H as [H|H].
    + by apply query_parts_key in H.
    + apply list_elem_of_In in H.
      apply entries_options_keys in H as (j & Hj & [E|E]).
      * apply query_key_inj in E. lia.
      * by apply query_parts_key in E.
  - intros H. apply list_elem_of_In in H.
      apply entries_options_keys in H as (j & Hj & [E|E]).
    + symmetry in E. by apply query_parts_key in E.
    + apply parts_key_inj in E. lia.
Qed.

(** Clean entries are written, and the text written is read back as the
    parser object that was written. *)
Lemma write_clean st :
  forallb (clean_entry json_dumps) (_recent_data st) = true ->
  _write_recent_to_disk json_dumps st
  = mk_store (_recent_data st) (Some (write (recent_config json_dumps (_recent_data st)))).
Proof.
  intros H. unfold _write_recent_to_disk.
  change (setitem_empty empty "Recent") with (mk [] [("Recent", [])]).
  rewrite (write_entries_clean json_dumps _ 1 [] H); [reflexivity|].
  intros j _. by split.
Qed.

Lemma read_written data :
  forallb (clean_entry json_dumps) data = true ->
  read empty (write (recent_config json_dumps data))
  = Some (recent_config json_dumps data).
Proof.
  intros H. unfold recent_config.
  pose proof (entries_options_clean _ 1 H) as Hc.
  rewrite write_recent_text.
  - apply read_recent_text; [exact Hc | apply entries_options_nodup].
  - apply Forall_forall. intros kv Hkv.
    rewrite forallb_forall in Hc. specialize (Hc kv).
    apply clean_option_facts in Hc as (_ & _ & Hv); [|by apply list_elem_of_In].
    apply clean_facts in Hv. tauto.
Qed.

End WrittenFacts.

Section ReloadFacts.
Context {J : Type} (json_loads : string -> option J) (json_dumps : J -> string).
Import Py ConfigParser.

Implicit Types (data : list (entry J)) (st : store J).

(** The loop of [load_recent_from_disk] on the parser object written for a
    clean list: from the entry of index [length pre + 1] on, it decodes the
    entries that are left, one after the other. *)
Lemma read_entries_written (pre rest : list (entry J)) :
  forall (fuel : nat) (acc : list (entry J)),
    forallb (clean_entry json_dumps) (pre ++ rest) = true ->
    length rest < fuel ->
    read_entries json_loads fuel (S (length pre))
      (recent_config json_dumps (pre ++ rest)) acc
    = (acc ++ fst (decode_entries json_loads json_dumps rest),
       snd (decode_entries json_loads json_dumps rest)).
Proof.
  revert pre. induction rest as [|e rest IH]; intros pre fuel acc Hclean Hfuel.
  - destruct fuel as [|fuel]; [simpl in Hfuel; lia|].
    simpl. unfold recent_config.
    rewrite (has_option_recent _ _ (optionxform_query_key _)). unfold od_mem.
    destruct (entries_options_lookup json_dumps (pre ++ []) 1 (length pre)) as [Hl _].
    change (1 + length pre) with (S (length pre)) in Hl. rewrite Hl.
    rewrite lookup_ge_None_2 by (rewrite length_app; simpl; lia).
    simpl. by rewrite app_nil_r.
  - destruct fuel as [|fuel]; [simpl in Hfuel; lia|].
    assert (He : clean_entry json_dumps e = true).
    { rewrite forallb_app in Hclean. apply andb_true_iff in Hclean as [_ H].
      simpl in H. by apply andb_true_iff in H as [H _]. }
    unfold clean_entry in He. apply andb_true_iff in He as [Hq Hp].
    apply clean_facts in Hq as (Hq & _). apply clean_facts in Hp as (Hp & _).
    destruct (entries_options_lookup json_dumps (pre ++ e :: rest) 1 (length pre)) as [Hlq Hlp].
    rewrite list_lookup_middle in Hlq, Hlp by reflexivity. simpl in Hlq, Hlp.
    change (1 + length pre) with (S (length pre)) in Hlq, Hlp.
    simpl read_entries. unfold recent_config.
    rewrite (has_option_recent _ _ (optionxform_query_key _)). unfold od_mem.
    rewrite Hlq.
    rewrite (getitem_recent _ _ _ (optionxform_query_key _) Hlq Hq).
    rewrite (get_fallback_recent _ _ _ _ (optionxform_parts_key _) Hlp Hp).
    simpl decode_entries. unfold decode_entry.
    destruct (json_loads (dumps_parts json_dumps (parts e))) as [j|];
      [|simpl; by rewrite app_nil_r].
    specialize (IH (pre ++ [e]) fuel (acc ++ [mk_entry (query e) (Decoded j)])).
    rewrite <- app_assoc in IH. simpl app in IH.
    rewrite length_app in IH. simpl length in IH.
    replace (length pre + 1) with (S (length pre)) in IH by lia.
    unfold recent_config in IH. rewrite IH; [|exact Hclean | simpl in Hfuel; lia].
    destruct (decode_entries json_loads json_dumps rest) as [l o]. simpl.
    by rewrite <- app_assoc.
Qed.

End ReloadFacts.

(** ** The characters of the query and of the stored record *)

Section CharFacts.
Import Py.

Lemma lstrip_no_char (c : ascii) (s : string) :
  contains_char c s = false -> contains_char c (lstrip s) = false.
Proof.
  induction s as [|a s IH]; [reflexivity|]. intros H. simpl.
  destruct (isspace a); [|exact H].
  simpl in H. apply orb_false_iff in H as [_ H]. auto.
Qed.

Lemma rstrip_no_char (c : ascii) (s : string) :
  contains_char c s = false -> contains_char c (rstrip s) = false.
Proof.
  induction s as [|a s IH]; [reflexivity|]. intros H.
  simpl in H. apply orb_false_iff in H as [Ha Hs]. specialize (IH Hs).
  simpl. destruct (rstrip s) as [|b r].
  - destruct (isspace a); [reflexivity|]. simpl. by rewrite Ha.
  - simpl in *. by rewrite Ha, IH.
Qed.

Lemma strip_no_char (c : ascii) (s : string) :
  contains_char c s = false -> contains_char c (strip s) = false.
Proof. intros H. by apply rstrip_no_char, lstrip_no_char. Qed.

Lemma join_no_char (c : ascii) (sep : string) (l : list string) :
  contains_char c sep = false ->
  Forall (fun x => contains_char c x = false) l ->
  contains_char c (join sep l) = false.
Proof.
  intros Hsep. unfold join. induction 1 as [|x l Hx Hl IH]; [reflexivity|].
  destruct l as [|y l]; [exact Hx|].
  change (String.concat sep (x :: y :: l)) with (x +:+ sep +:+ String.concat sep (y :: l)).
  by rewrite !contains_char_app, Hx, Hsep, IH.
Qed.

Lemma fields_no_char (c : ascii) (s : string) :
  contains_char c s = false ->
  contains_char c (fst (fields s)) = false
  /\ Forall (fun w => contains_char c w = false) (snd (fields s)).
Proof.
  induction s as [|a s IH]; [by split|]. intros H.
  simpl in H. apply orb_false_iff in H as [Ha Hs].
  destruct (IH Hs) as [IH1 IH2]. simpl.
  destruct (fields s) as [w ws]. simpl in *.
  destruct (isspace a); simpl.
  - split; [reflexivity|]. destruct (truthy w); [by constructor | exact IH2].
  - split; [by rewrite Ha, IH1 | exact IH2].
Qed.

Lemma split_no_char (c : ascii) (s : string) :
  contains_char c s = false ->
  Forall (fun w => contains_char c w = false) (split s).
Proof.
  intros H. destruct (fields_no_char c s H) as [H1 H2]. unfold split.
  destruct (fields s) as [w ws]. simpl in *.
  destruct (truthy w); [by constructor | exact H2].
Qed.

Lemma split_on_no_char (c sep : ascii) (s : string) :
  contains_char c s = false ->
  Forall (fun w => contains_char c w = false) (split_on sep s).
Proof.
  induction s as [|a s IH]; [by repeat constructor|]. intros H.
  simpl in H. apply orb_false_iff in H as [Ha Hs]. specialize (IH Hs).
  simpl. destruct (Ascii.eqb a sep); [by constructor|].
  destruct (split_on sep s) as [|w ws]; [repeat constructor; simpl; by rewrite Ha|].
  inversion IH; subst. constructor; [simpl; by rewrite Ha | assumption].
Qed.

Ltac pick_in :=
  unfold query_constants, text_fields, In;
  repeat (first [left; reflexivity | right]).

Lemma option_list_no_char (c : ascii) (o : option string) :
  (forall t, o = Some t -> contains_char c t = false) ->
  Forall (fun x => contains_char c x = false) (option_list o).
Proof. destruct o; simpl; [constructor; auto | constructor]. Qed.

Lemma or_group_some (v t : string) :
  or_group v = Some t ->
  t = "(" +:+ join " OR " (List.filter truthy (map strip (split_on "|" v))) +:+ ")".
Proof.
  unfold or_group.
  destruct (List.filter truthy (map strip (split_on "|" v))); [discriminate|].
  congruence.
Qed.

(** A character that is neither in the text fields of a record nor among
    the constants of [build_query] is not in the query. *)
Lemma build_query_no_char (c : ascii) (sp : SearchParts) :
  forallb (fun k => negb (contains_char c k)) query_constants = true ->
  forallb (fun f => negb (contains_char c f)) (text_fields sp) = true ->
  contains_char c (build_query sp) = false.
Proof.
  intros Hc Hf.
  assert (HK : forall k, In k query_constants -> contains_char c k = false).
  { intros k Hk. rewrite forallb_forall in Hc. by apply negb_true_iff, Hc. }
  assert (HF : forall f, In f (text_fields sp) -> contains_char c f = false).
  { intros f Hin. rewrite forallb_forall in Hf. by apply negb_true_iff, Hf. }
  clear Hc Hf.
  assert (K1 := HK "allintitle:" ltac:(pick_in)).
  assert (K2 := HK "allintext:" ltac:(pick_in)).
  assert (K3 := HK "allinurl:" ltac:(pick_in)).
  assert (K4 := HK "allinanchor:" ltac:(pick_in)).
  assert (K5 := HK dquote ltac:(pick_in)).
  assert (K6 := HK "-" ltac:(pick_in)).
  assert (K7 := HK " " ltac:(pick_in)).
  assert (K8 := HK " OR " ltac:(pick_in)).
  assert (K9 := HK "(" ltac:(pick_in)).
  assert (K10 := HK ")" ltac:(pick_in)).
  assert (K11 := HK "site:" ltac:(pick_in)).
  assert (K12 := HK "filetype:" ltac:(pick_in)).
  assert (K13 := HK "intitle:" ltac:(pick_in)).
  assert (K14 := HK "inurl:" ltac:(pick_in)).
  assert (K15 := HK ".." ltac:(pick_in)).
  assert (K16 := HK "before:" ltac:(pick_in)).
  assert (K17 := HK "after:" ltac:(pick_in)).
  assert (F1 := HF (all_words sp) ltac:(pick_in)).
  assert (F2 := HF (exact_phrase sp) ltac:(pick_in)).
  assert (F3 := HF (exclude_words sp) ltac:(pick_in)).
  assert (F4 := HF (or_words sp) ltac:(pick_in)).
  assert (F5 := HF (site sp) ltac:(pick_in)).
  assert (F6 := HF (filetype sp) ltac:(pick_in)).
  assert (F7 := HF (intitle sp) ltac:(pick_in)).
  assert (F8 := HF (inurl sp) ltac:(pick_in)).
  assert (F9 := HF (range_from sp) ltac:(pick_in)).
  assert (F10 := HF (range_to sp) ltac:(pick_in)).
  assert (F11 := HF (range_unit sp) ltac:(pick_in)).
  assert (F12 := HF (before sp) ltac:(pick_in)).
  assert (F13 := HF (after sp) ltac:(pick_in)).
  clear HK HF.
  unfold build_query. apply strip_no_char, join_no_char; [exact K7|].
  rewrite pieces_of_tokens. unfold tokens_in_order.
  rewrite !omap_id_cons. simpl (omap id []).
  repeat (apply Forall_app; split); try apply Forall_nil_2;
    apply option_list_no_char; intros t.
  - unfold tok_all_words, location_prefix.
    destruct (truthy (all_words sp)); [|discriminate]. intros [= <-].
    rewrite contains_char_app, (strip_no_char _ _ F1), orb_false_r.
    repeat match goal with |- context [if ?b then _ else _] => destruct b end;
      assumption || reflexivity.
  - unfold tok_exact_phrase.
    destruct (truthy (exact_phrase sp)); [|discriminate]. intros [= <-].
    by rewrite !contains_char_app, K5, (strip_no_char _ _ F2).
  - unfold tok_exclude_words.
    destruct (truthy (exclude_words sp)); [|discriminate]. intros [= <-].
    apply join_no_char; [exact K7|]. apply Forall_map.
    eapply Forall_impl; [apply (split_no_char c _ F3)|].
    intros w Hw. cbv beta in *.
    change (contains_char c (String "-" w))
      with (contains_char c ("-" +:+ w)). by rewrite contains_char_app, K6, Hw.
  - unfold tok_or_words. intros Ht. apply or_group_some in Ht as ->.
    rewrite !contains_char_app, K9, K10, orb_false_r, orb_false_l.
    apply join_no_char; [exact K8|].
    apply Forall_forall. intros x Hx. apply list_elem_of_In in Hx.
    apply filter_In in Hx as [Hx _]. apply in_map_iff in Hx as (y & <- & Hy).
    apply strip_no_char.
    pose proof (split_on_no_char c "|" _ F4) as Hs.
    rewrite Forall_forall in Hs. apply Hs. by apply list_elem_of_In.
  - unfold tok_site. destruct (truthy (site sp)); [|discriminate]. intros [= <-].
    by rewrite contains_char_app, K11, (strip_no_char _ _ F5).
  - unfold tok_filetype. destruct (truthy (filetype sp)); [|discriminate]. intros [= <-].
    by rewrite contains_char_app, K12, (strip_no_char _ _ F6).
  - unfold tok_intitle. destruct (truthy (intitle sp)); [|discriminate]. intros [= <-].
    by rewrite contains_char_app, K13, (strip_no_char _ _ F7).
  - unfold tok_inurl. destruct (truthy (inurl sp)); [|discriminate]. intros [= <-].
    by rewrite contains_char_app, K14, (strip_no_char _ _ F8).
  - unfold tok_range.
    destruct (truthy (range_from sp) && truthy (range_to sp)); [|discriminate].
    intros [= <-].
    by rewrite !contains_char_app, K15, (strip_no_char _ _ F9), (strip_no_char _ _ F10),
      (strip_no_char _ _ F11).
  - unfold tok_before. destruct (truthy (before sp)); [|discriminate]. intros [= <-].
    by rewrite contains_char_app, K16, (strip_no_char _ _ F12).
  - unfold tok_after. destruct (truthy (after sp)); [|discriminate]. intros [= <-].
    by rewrite contains_char_app, K17, (strip_no_char _ _ F13).
Qed.

End CharFacts.

(** ** The text that [json.dumps] gives for a record *)

Section JsonFacts.
Import Py Json.

Lemma escape_char_one_line (c : ascii) :
  contains_char "010" (escape_char c) = false
  /\ contains_char "013" (escape_char c) = false.
Proof. destruct c as [[] [] [] [] [] [] [] []]; vm_compute; by split. Qed.

Lemma escape_char_percent (c : ascii) :
  Ascii.eqb "%" c = false -> contains_char "%" (escape_char c) = false.
Proof.
  destruct c as [[] [] [] [] [] [] [] []]; intros H; vm_compute in H |- *;
    congruence.
Qed.

Lemma escape_one_line (s : string) :
  contains_char "010" (escape s) = false /\ contains_char "013" (escape s) = false.
Proof.
  induction s as [|c s [IH1 IH2]]; [by split|]. simpl.
  destruct (escape_char_one_line c) as [H1 H2].
  by rewrite !contains_char_app, H1, H2, IH1, IH2.
Qed.

Lemma escape_percent (s : string) :
  contains_char "%" s = false -> contains_char "%" (escape s) = false.
Proof.
  induction s as [|c s IH]; [reflexivity|]. intros H.
  simpl in H. apply orb_false_iff in H as [Hc Hs]. simpl.
  by rewrite contains_char_app, (escape_char_percent _ Hc), IH.
Qed.

Lemma encode_one_line (s : string) :
  contains_char "010" (encode_basestring_ascii s) = false
  /\ contains_char "013" (encode_basestring_ascii s) = false.
Proof.
  unfold encode_basestring_ascii. destruct (escape_one_line s) as [H1 H2].
  rewrite !contains_char_app, H1, H2. by split.
Qed.

Lemma encode_percent (s : string) :
  contains_char "%" s = false ->
  contains_char "%" (encode_basestring_ascii s) = false.
Proof.
  intros H. unfold encode_basestring_ascii.
  by rewrite !contains_char_app, (escape_percent _ H).
Qed.

(** [json.dumps] of a dictionary of strings is one line. *)
Lemma dumps_dict_one_line (d : list (string * string)) :
  contains_char "010" (dumps_dict d) = false
  /\ contains_char "013" (dumps_dict d) = false.
Proof.
  unfold dumps_dict. rewrite !contains_char_app.
  assert (H : forall c : ascii,
            (forall s, contains_char c (encode_basestring_ascii s) = false) ->
            contains_char c ", " = false -> contains_char c ": " = false ->
            contains_char c
              (join ", "
                 (map (fun kv => encode_basestring_ascii (fst kv) +:+ ": "
                                 +:+ encode_basestring_ascii (snd kv)) d)) = false).
  { intros c Henc H1 H2. apply join_no_char; [exact H1|].
    apply Forall_forall. intros x Hx. apply list_elem_of_In in Hx.
    apply in_map_iff in Hx as (kv & <- & _).
    by rewrite !contains_char_app, !Henc, H2. }
  split; (rewrite H; [reflexivity | intros s; apply encode_one_line | reflexivity..]).
Qed.

Lemma dumps_dict_percent (d : list (string * string)) :
  forallb (fun kv => negb (contains_char "%" (fst kv))) d = true ->
  forallb (fun kv => negb (contains_char "%" (snd kv))) d = true ->
  contains_char "%" (dumps_dict d) = false.
Proof.
  intros Hk Hv. unfold dumps_dict. rewrite !contains_char_app.
  rewrite join_no_char; [reflexivity | reflexivity |].
  apply Forall_forall. intros x Hx. apply list_elem_of_In in Hx.
  apply in_map_iff in Hx as (kv & <- & Hin).
  rewrite forallb_forall in Hk, Hv.
  specialize (Hk kv Hin). specialize (Hv kv Hin).
  apply negb_true_iff in Hk, Hv.
  by rewrite !contains_char_app, (encode_percent _ Hk), (encode_percent _ Hv).
Qed.

Lemma dumps_dict_trimmed (d : list (string * string)) :
  lstrip (dumps_dict d) = dumps_dict d /\ rstrip (dumps_dict d) = dumps_dict d.
Proof.
  unfold dumps_dict. split.
  - by rewrite append_cons, append_empty_l.
  - rewrite <- append_assoc. apply rstrip_app_kept; [discriminate | reflexivity].
Qed.

End JsonFacts.

(** ** Records that the file can carry *)

Section StorableFacts.
Import Py.

Lemma storable_facts (sp : SearchParts) :
  storable sp = true ->
  forallb (fun kv => negb (contains_char "%" (snd kv))) (dict_of_parts sp) = true
  /\ forallb (fun f => negb (contains_char "%" f)) (text_fields sp) = true
  /\ forallb (fun f => negb (contains_char "010" f)) (text_fields sp) = true
  /\ forallb (fun f => negb (contains_char "013" f)) (text_fields sp) = true.
Proof.
  unfold storable. intros H. apply andb_true_iff in H as [Hp Hl].
  split; [exact Hp|].
  split.
  - unfold dict_of_parts in Hp. simpl in Hp.
    rewrite !andb_true_iff in Hp. unfold text_fields. simpl.
    rewrite !andb_true_iff. tauto.
  - unfold text_fields in *. simpl in Hl |- *.
    rewrite !andb_true_iff in Hl. rewrite !andb_true_iff. tauto.
Qed.

(** The query string of a storable record is a clean value, and so is the
    text of the record. *)
Lemma storable_clean (sp : SearchParts) :
  storable sp = true ->
  clean (build_query sp) = true
  /\ clean (Json.dumps_dict (dict_of_parts sp)) = true.
Proof.
  intros H. apply storable_facts in H as (Hd & Hp & Hn & Hr).
  unfold clean. split.
  - rewrite (build_query_no_char "%" sp eq_refl Hp).
    rewrite (build_query_no_char "010" sp eq_refl Hn).
    rewrite (build_query_no_char "013" sp eq_refl Hr).
    unfold build_query. by rewrite lstrip_strip, rstrip_strip, !String.eqb_refl.
  - destruct (dumps_dict_one_line (dict_of_parts sp)) as [H1 H2].
    destruct (dumps_dict_trimmed (dict_of_parts sp)) as [H3 H4].
    rewrite (dumps_dict_percent (dict_of_parts sp) eq_refl Hd), H1, H2, H3, H4.
    by rewrite !String.eqb_refl.
Qed.

End StorableFacts.

(** ** Writing the list and loading it again *)

Section ReloadWritten.
Context {J : Type} (json_loads : string -> option J) (json_dumps : J -> string).
Import Py ConfigParser.

Implicit Types (data : list (entry J)) (st : store J) (e : entry J).

Lemma entries_options_length data (i : nat) :
  length (entries_options json_dumps i data) = 2 * length data.
Proof.
  revert i. induction data as [|e data IH]; intros i; [reflexivity|].
  simpl. rewrite IH. lia.
Qed.

(** The body of the [try] of [load_recent_from_disk] on the text written
    for a clean list decodes the entries one after the other. *)
Lemma load_body_written st data :
  forallb (clean_entry json_dumps) data = true ->
  load_body json_loads st (write (recent_config json_dumps data))
  = decode_entries json_loads json_dumps data.
Proof.
  intros H. unfold load_body. rewrite (read_written json_dumps data H).
  change (contains (recent_config json_dumps data) "Recent") with true. cbv iota.
  assert (Hlen : length (visible_options (recent_config json_dumps data))
                 = 2 * length data).
  { unfold visible_options, recent_config. simpl.
    by rewrite app_nil_r, length_map, entries_options_length. }
  rewrite Hlen.
  pose proof (read_entries_written json_loads json_dumps [] data
                (S (2 * length data)) []) as Hr.
  simpl app in Hr. simpl length in Hr. rewrite Hr; [|exact H | lia].
  by destruct (decode_entries json_loads json_dumps data).
Qed.

Lemma decode_entries_outcome data :
  snd (decode_entries json_loads json_dumps data) <> OutOfFuel.
Proof.
  induction data as [|e data IH]; simpl; [discriminate|].
  destruct (decode_entry json_loads json_dumps e); [|discriminate].
  by destruct (decode_entries json_loads json_dumps data).
Qed.

Lemma decode_entries_all data :
  forallb (decodable json_loads json_dumps) data = true ->
  snd (decode_entries json_loads json_dumps data) = Finished
  /\ map query (fst (decode_entries json_loads json_dumps data)) = map query data
  /\ Forall2 (fun e e' => decode_entry json_loads json_dumps e = Some e') data
       (fst (decode_entries json_loads json_dumps data)).
Proof.
  induction data as [|e data IH]; [by repeat split; constructor|].
  intros H. simpl in H. apply andb_true_iff in H as [He H].
  destruct (IH H) as (IH1 & IH2 & IH3). simpl.
  unfold decodable in He.
  destruct (decode_entry json_loads json_dumps e) as [e'|] eqn:E; [|discriminate].
  destruct (decode_entries json_loads json_dumps data) as [l o]. simpl in *.
  split; [exact IH1|]. split.
  - f_equal; [|exact IH2]. unfold decode_entry in E.
    destruct (json_loads (dumps_parts json_dumps (parts e))); [|discriminate].
    by injection E as <-.
  - by constructor.
Qed.

Lemma kept_entry_facts data :
  forallb (kept_entry json_loads json_dumps) data = true ->
  forallb (clean_entry json_dumps) data = true
  /\ forallb (decodable json_loads json_dumps) data = true.
Proof.
  induction data as [|e data IH]; [by split|]. simpl. unfold kept_entry at 1.
  rewrite !andb_true_iff. intros [[H1 H2] H]. destruct (IH H). tauto.
Qed.

(** Loading what was written for a list of kept entries. *)
Lemma load_written data (any : list (entry J)) :
  forallb (kept_entry json_loads json_dumps) data = true ->
  load_recent_from_disk json_loads json_dumps
    (mk_store any (Some (write (recent_config json_dumps data))))
  = mk_store (fst (decode_entries json_loads json_dumps data))
      (Some (write (recent_config json_dumps data))).
Proof.
  intros H. apply kept_entry_facts in H as [Hc Hd].
  unfold load_recent_from_disk. cbn [file].
  rewrite (load_body_written _ data Hc).
  destruct (decode_entries_all data Hd) as (Ho & _).
  destruct (decode_entries json_loads json_dumps data) as [l o]. simpl in *.
  by rewrite Ho.
Qed.

Lemma forallb_filter_kept {A : Type} (p f : A -> bool) (l : list A) :
  forallb p l = true -> forallb p (List.filter f l) = true.
Proof.
  induction l as [|x l IH]; [reflexivity|]. simpl.
  intros H. apply andb_true_iff in H as [Hx Hl].
  destruct (f x); simpl; [by rewrite Hx, IH | auto].
Qed.

Lemma forallb_take_kept {A : Type} (p : A -> bool) (n : nat) (l : list A) :
  forallb p l = true -> forallb p (take n l) = true.
Proof.
  revert n. induction l as [|x l IH]; intros [|n]; try reflexivity. simpl.
  intros H. apply andb_true_iff in H as [Hx Hl]. by rewrite Hx, IH.
Qed.

(** A value that the parser refuses makes [set] raise. *)
Lemma set_refused (cfg : t) (section optname value : string) :
  before_set value = None -> set cfg section optname value = None.
Proof.
  intros H. unfold set.
  destruct (negb (section =? DEFAULTSECT) && negb (has_section cfg section));
    [reflexivity|].
  destruct value as [|c v]; [discriminate|].
  change (truthy (String c v)) with true. cbv iota. by rewrite H.
Qed.

(** One refused value in the list makes the loop of
    [_write_recent_to_disk] raise. *)
Lemma write_entries_refused data e :
  In e data ->
  before_set (query e) = None \/ before_set (dumps_parts json_dumps (parts e)) = None ->
  forall (i : nat) (cfg : t), write_entries json_dumps i data cfg = None.
Proof.
  intros Hin Hbad. induction data as [|x data IH]; [destruct Hin|].
  intros i cfg. simpl.
  destruct (set cfg "Recent" (query_key i) (query x)) as [cfg1|] eqn:E1; [|reflexivity].
  destruct (set cfg1 "Recent" (parts_key i) (dumps_parts json_dumps (parts x)))
    as [cfg2|] eqn:E2; [|reflexivity].
  destruct Hin as [->|Hin]; [|by apply IH].
  destruct Hbad as [Hb|Hb].
  - by rewrite (set_refused _ _ _ _ Hb) in E1.
  - by rewrite (set_refused _ _ _ _ Hb) in E2.
Qed.

Lemma write_refused st e :
  In e (_recent_data st) ->
  before_set (query e) = None \/ before_set (dumps_parts json_dumps (parts e)) = None ->
  _write_recent_to_disk json_dumps st = st.
Proof.
  intros Hin Hbad. unfold _write_recent_to_disk.
  by rewrite (write_entries_refused _ e Hin Hbad).
Qed.



End ReloadWritten.

(** ** The query string: what it is made of and when it is empty *)

Section QueryExtras.
Import Py.

Lemma blank_join_space (l : list string) : blank (join " " l) = forallb blank l.
Proof.
  unfold join. induction l as [|x l IH]; [reflexivity|].
  destruct l as [|y l]; [simpl; by rewrite andb_true_r|].
  change (String.concat " " (x :: y :: l)) with (x +:+ " " +:+ String.concat " " (y :: l)).
  rewrite !blank_app, IH. reflexivity.
Qed.

Lemma blank_strip (s : string) : blank (strip s) = blank s.
Proof.
  destruct (blank s) eqn:E.
  - apply strip_empty in E. by rewrite E.
  - destruct (blank (strip s)) eqn:E'; [|reflexivity].
    apply strip_empty in E'. rewrite strip_idem in E'.
    apply strip_empty in E'. congruence.
Qed.

Lemma blank_truthy (s : string) : truthy s = false -> blank s = true.
Proof. by destruct s. Qed.

Lemma fields_blank (s : string) : blank s = true <-> fields s = (EmptyString, []).
Proof.
  induction s as [|c s IH]; [done|]. simpl.
  destruct (fields s) as [w ws]. destruct (isspace c); simpl.
  - rewrite IH. destruct w as [|a w]; simpl.
    + split; congruence.
    + split; [discriminate | intros [= ?]; discriminate].
  - split; discriminate.
Qed.

Lemma split_blank (s : string) : split s = [] <-> blank s = true.
Proof.
  rewrite fields_blank. unfold split. destruct (fields s) as [w ws].
  destruct w as [|a w]; simpl; split; congruence.
Qed.

Lemma blank_exclude_token (v : string) :
  blank (join " " (map (String "-") (split v))) = blank v.
Proof.
  rewrite blank_join_space.
  destruct (split v) as [|w ws] eqn:E.
  - apply split_blank in E. by rewrite E.
  - simpl. destruct (blank v) eqn:B; [|reflexivity].
    apply split_blank in B. congruence.
Qed.

Lemma split_on_blank (v : string) :
  forallb blank (split_on "|" v)
  = all_chars (fun c => isspace c || Ascii.eqb c "|") v.
Proof.
  induction v as [|c v IH]; [reflexivity|]. simpl.
  destruct (Ascii.eqb c "|") eqn:E.
  - simpl. by rewrite IH, orb_true_r.
  - rewrite orb_false_r, <- IH.
    destruct (split_on "|" v) as [|w ws]; simpl; [by rewrite andb_true_r|].
    by rewrite andb_assoc.
Qed.

Lemma filter_truthy_strip_nil (l : list string) :
  List.filter truthy (map strip l) = [] <-> forallb blank l = true.
Proof.
  induction l as [|x l IH]; [done|]. simpl.
  destruct (truthy (strip x)) eqn:E.
  - split; [discriminate|]. intros H. apply andb_true_iff in H as [Hx _].
    apply strip_empty in Hx. rewrite Hx in E. discriminate.
  - apply truthy_false in E. apply strip_empty in E. rewrite E. simpl. exact IH.
Qed.

Lemma blank_pieces (l : list (option string)) :
  forallb blank (omap id l) = forallb tok_blank l.
Proof.
  induction l as [|t l IH]; [reflexivity|].
  rewrite omap_id_cons, forallb_app, IH. destruct t; simpl; [|reflexivity].
  by rewrite andb_true_r.
Qed.

Lemma tok_blank_all_words (sp : SearchParts) :
  tok_blank (tok_all_words sp)
  = negb (truthy (all_words sp))
    || (blank (all_words sp) && negb (truthy (location_prefix (terms_location sp)))).
Proof.
  unfold tok_all_words. destruct (truthy (all_words sp)); [|reflexivity].
  simpl. rewrite blank_app, blank_strip, andb_comm. f_equal.
  unfold location_prefix.
  repeat match goal with |- context [if ?b then _ else _] => destruct b end;
    reflexivity.
Qed.

Lemma tok_blank_or_words (sp : SearchParts) :
  tok_blank (tok_or_words sp)
  = all_chars (fun c => isspace c || Ascii.eqb c "|") (or_words sp).
Proof.
  rewrite <- split_on_blank. unfold tok_or_words, or_group.
  destruct (List.filter truthy (map strip (split_on "|" (or_words sp)))) eqn:E.
  - apply filter_truthy_strip_nil in E. by rewrite E.
  - simpl. destruct (forallb blank (split_on "|" (or_words sp))) eqn:B; [|reflexivity].
    apply filter_truthy_strip_nil in B. congruence.
Qed.

Lemma tok_blank_exclude_words (sp : SearchParts) :
  tok_blank (tok_exclude_words sp) = blank (exclude_words sp).
Proof.
  unfold tok_exclude_words. destruct (truthy (exclude_words sp)) eqn:E.
  - simpl. apply blank_exclude_token.
  - simpl. symmetry. by apply blank_truthy.
Qed.

Lemma tok_blank_range (sp : SearchParts) :
  tok_blank (tok_range sp) = negb (truthy (range_from sp) && truthy (range_to sp)).
Proof.
  unfold tok_range. destruct (truthy (range_from sp) && truthy (range_to sp));
    [|reflexivity].
  simpl. rewrite !blank_app. simpl. by rewrite !andb_false_r.
Qed.

Lemma tok_blank_prefixed (k v : string) :
  blank k = false ->
  tok_blank (if truthy v then Some (k +:+ strip v) else None) = negb (truthy v).
Proof.
  intros H. destruct (truthy v); [|reflexivity]. simpl. by rewrite blank_app, H.
Qed.

(** The joined tokens are blank exactly when no token shows. *)
Lemma blank_joined_pieces (sp : SearchParts) :
  blank (join " " (pieces_of sp)) = no_token sp.
Proof.
  rewrite blank_join_space, pieces_of_tokens, blank_pieces.
  unfold tokens_in_order, no_token.
  cbn [forallb]. rewrite tok_blank_all_words, tok_blank_exclude_words,
    tok_blank_or_words, tok_blank_range.
  unfold tok_exact_phrase, tok_site, tok_filetype, tok_intitle, tok_inurl,
    tok_before, tok_after.
  rewrite (tok_blank_prefixed "site:" _ eq_refl),
    (tok_blank_prefixed "filetype:" _ eq_refl),
    (tok_blank_prefixed "intitle:" _ eq_refl),
    (tok_blank_prefixed "inurl:" _ eq_refl),
    (tok_blank_prefixed "before:" _ eq_refl),
    (tok_blank_prefixed "after:" _ eq_refl).
  assert (He : tok_blank (if truthy (exact_phrase sp)
                          then Some (dquote +:+ strip (exact_phrase sp) +:+ dquote)
                          else None)
               = negb (truthy (exact_phrase sp))).
  { destruct (truthy (exact_phrase sp)); reflexivity. }
  rewrite He, andb_true_r, !andb_assoc. reflexivity.
Qed.

(** X1.  The query string depends on the thirteen text fields and on the
    place of the terms only: two records that agree on these give the same
    query string, whatever the search type, the image selectors and the
    region are. *)
Theorem build_query_ignores_selectors (a b : SearchParts) :
  text_fields a = text_fields b ->
  terms_location a = terms_location b ->
  build_query a = build_query b.
Proof.
  destruct a, b. unfold text_fields. simpl.
  intros [= -> -> -> -> -> -> -> -> -> -> -> -> ->] ->. reflexivity.
Qed.

(** X2.  Every character of the query string is a character of one of the
    text fields or of one of the constant pieces that [build_query] puts
    around them. *)
Theorem query_chars_from_fields (c : ascii) (sp : SearchParts) :
  contains_char c (build_query sp) = true ->
  existsb (contains_char c) (text_fields sp) = true
  \/ existsb (contains_char c) query_constants = true.
Proof.
  intros H.
  destruct (existsb (contains_char c) (text_fields sp)) eqn:Ef; [by left|].
  destruct (existsb (contains_char c) query_constants) eqn:Ek; [by right|].
  assert (Hno : forall l, existsb (contains_char c) l = false ->
                  forallb (fun x => negb (contains_char c x)) l = true).
  { induction l as [|x l IH]; [reflexivity|]. simpl.
    intros E. apply orb_false_iff in E as [-> E]. simpl. auto. }
  rewrite (build_query_no_char c sp (Hno _ Ek) (Hno _ Ef)) in H. discriminate.
Qed.

(** X3.  The query string has no white space at either end, so a query
    string made of white space only is the empty string. *)
Theorem build_query_trimmed (sp : SearchParts) :
  strip (build_query sp) = build_query sp
  /\ lstrip (build_query sp) = build_query sp
  /\ rstrip (build_query sp) = build_query sp
  /\ (blank (build_query sp) = true -> build_query sp = EmptyString).
Proof.
  unfold build_query.
  split; [apply strip_idem|]. split; [apply lstrip_strip|].
  split; [apply rstrip_strip|].
  intros H. apply strip_empty in H. by rewrite strip_idem in H.
Qed.

(** X4.  The query string is empty exactly when no token shows a character
    that is not white space: the words are empty, or blank with the place
    anywhere; the words to exclude are blank; the alternatives hold nothing
    but white space and bars; the two bounds of the range are not both
    there; every other text field is empty.  The preview shows the
    placeholder in these cases and in no other. *)
Theorem build_query_empty_iff (sp : SearchParts) :
  (build_query sp = EmptyString <-> no_token sp = true)
  /\ (forall st : string, update_preview_of st sp = EmptyPreview <-> no_token sp = true).
Proof.
  assert (H : build_query sp = EmptyString <-> no_token sp = true).
  { unfold build_query. rewrite strip_empty. by rewrite blank_joined_pieces. }
  split; [exact H|].
  intros st. rewrite <- H. unfold update_preview_of.
  destruct (build_query sp) as [|c q]; simpl; split; congruence.
Qed.

End QueryExtras.

(** X1 at a record and the same record with the search type Images. *)
Lemma build_query_ignores_selectors_witness :
  text_fields (with_search_type "Images" (with_all_words "laptop" default_parts))
  = text_fields (with_all_words "laptop" default_parts)
  /\ build_query (with_search_type "Images" (with_all_words "laptop" default_parts))
     = build_query (with_all_words "laptop" default_parts).
Proof.
  split; [reflexivity|].
  apply (build_query_ignores_selectors
           (with_search_type "Images" (with_all_words "laptop" default_parts))
           (with_all_words "laptop" default_parts)); reflexivity.
Defined.

(** X2 at a letter of the words of a record. *)
Lemma query_chars_from_fields_witness :
  Py.contains_char "l" (build_query (with_all_words "laptop" default_parts)) = true
  /\ (existsb (Py.contains_char "l") (text_fields (with_all_words "laptop" default_parts))
      = true
      \/ existsb (Py.contains_char "l") query_constants = true).
Proof.
  split; [reflexivity|].
  apply (query_chars_from_fields "l" (with_all_words "laptop" default_parts)).
  reflexivity.
Defined.

(** ** The URL: its characters, its parameters, and where it goes *)

Section UrlExtras.
Import Py Urllib.

Lemma all_chars_app (p : ascii -> bool) (a b : string) :
  all_chars p (a +:+ b) = all_chars p a && all_chars p b.
Proof.
  induction a as [|x a IH]; [reflexivity|].
  rewrite append_cons. simpl. rewrite IH. by rewrite andb_assoc.
Qed.

Lemma all_chars_join (p : ascii -> bool) (sep : string) (l : list string) :
  all_chars p sep = true ->
  Forall (fun x => all_chars p x = true) l ->
  all_chars p (join sep l) = true.
Proof.
  intros Hsep. unfold join. induction 1 as [|x l Hx Hl IH]; [reflexivity|].
  destruct l as [|y l]; [exact Hx|].
  change (String.concat sep (x :: y :: l)) with (x +:+ sep +:+ String.concat sep (y :: l)).
  by rewrite !all_chars_app, Hx, Hsep, IH.
Qed.

Lemma encode_char_url (c : ascii) : all_chars url_char (encode_char_plus c) = true.
Proof. destruct c as [[] [] [] [] [] [] [] []]; vm_compute; reflexivity. Qed.

Lemma quote_plus_url (s : string) : all_chars url_char (quote_plus s) = true.
Proof.
  rewrite quote_plus_encoding.
  induction s as [|c s IH]; [reflexivity|]. simpl.
  by rewrite all_chars_app, encode_char_url, IH.
Qed.

Lemma url_char_not_space (c : ascii) : url_char c = true -> isspace c = false.
Proof.
  destruct c as [[] [] [] [] [] [] [] []]; vm_compute; intros H;
    first [reflexivity | discriminate H].
Qed.

Lemma url_chars_spaceless (s : string) :
  all_chars url_char s = true -> spaceless s = true.
Proof.
  induction s as [|c s IH]; [reflexivity|]. simpl.
  intros H. apply andb_true_iff in H as [Hc Hs].
  by rewrite (url_char_not_space _ Hc), IH.
Qed.

Lemma code_url (d : dict) (k code : string) :
  forallb (all_chars url_char) (map snd d) = true ->
  dict_get d k = Some code -> all_chars url_char code = true.
Proof.
  intros Hd Hk. rewrite forallb_forall in Hd. apply Hd.
  by apply dict_get_in with k.
Qed.

Lemma tbs_parts_url (sp : SearchParts) :
  Forall (fun x => all_chars url_char x = true) (tbs_parts_of sp).
Proof.
  apply Forall_forall. intros code Hin. apply list_elem_of_In in Hin.
  assert (Htab : forall d : dict, forallb (all_chars url_char) (map snd d) = true ->
                   In code (map snd d) -> all_chars url_char code = true).
  { intros d Hd Hc. rewrite forallb_forall in Hd. by apply Hd. }
  apply in_tbs_parts in Hin as [H|[H|[H|[H|H]]]];
    [exact (Htab size_map eq_refl H) | exact (Htab aspect_map eq_refl H) |
    | exact (Htab type_map eq_refl H) | exact (Htab usage_map eq_refl H)].
  unfold color_codes in H.
  destruct (dict_get color_map (color_filter sp)) as [c|] eqn:E.
  - destruct H as [<-|[]]. exact (code_url color_map (color_filter sp) c eq_refl E).
  - destruct ((color_filter sp =? "Specific color") && truthy (specific_color sp));
      [|destruct H].
    apply option_list_in in H. by apply (Htab spec_map eq_refl).
Qed.

Lemma url_frag_url (st : string) (sp : SearchParts) (q : string) :
  all_chars url_char (url_frag_of st sp q) = true.
Proof.
  rewrite url_frag_of_eq, !all_chars_app, quote_plus_url.
  assert (Htbm : all_chars url_char (tbm_param st) = true).
  { unfold tbm_param. destruct (dict_get tbm_map st) as [code|] eqn:E; [|reflexivity].
    by rewrite all_chars_app, (code_url tbm_map st code eq_refl E). }
  rewrite Htbm. destruct (st =? "Images"); [|reflexivity].
  rewrite all_chars_app.
  assert (Htbs : all_chars url_char (tbs_param sp) = true).
  { unfold tbs_param. pose proof (tbs_parts_url sp) as Hall.
    destruct (tbs_parts_of sp) as [|x l]; [reflexivity|].
    rewrite all_chars_app. by rewrite all_chars_join. }
  assert (Hcr : all_chars url_char (cr_param sp) = true).
  { unfold cr_param.
    destruct (dict_get region_map (region sp)) as [code|] eqn:E; [|reflexivity].
    by rewrite all_chars_app, (code_url region_map (region sp) code eq_refl E). }
  by rewrite Htbs, Hcr.
Qed.

Lemma url_frag_strip (st : string) (sp : SearchParts) (q : string) :
  strip (url_frag_of st sp q) = url_frag_of st sp q.
Proof. apply spaceless_strip, url_chars_spaceless, url_frag_url. Qed.

Lemma url_frag_starts (st : string) (sp : SearchParts) (q : string) :
  exists rest, url_frag_of st sp q = String "q" (String "=" rest).
Proof. rewrite url_frag_of_eq. eexists. by rewrite !append_cons, append_empty_l. Qed.

(** X5.  Whatever the fields hold, the URL query string has no other
    characters than letters, digits, the four signs [_.-~] that
    [quote_plus] leaves alone, the plus sign and the percent sign of the
    encoding, and the signs [&], [=], [:] and [,] of the parameters; so it
    has no white space, and trimming it changes nothing. *)
Theorem url_frag_alphabet (st : string) (sp : SearchParts) (q : string) :
  all_chars url_char (url_frag_of st sp q) = true
  /\ spaceless (url_frag_of st sp q) = true
  /\ strip (url_frag_of st sp q) = url_frag_of st sp q.
Proof.
  split; [apply url_frag_url|].
  split; [apply url_chars_spaceless, url_frag_url | apply url_frag_strip].
Qed.

(** X6.  For a search type other than Images the URL query string is the
    [q] parameter followed by the [tbm] parameter of the search type, when
    it has one: the image selectors and the region have no effect. *)
Theorem other_searches_ignore_image_filters (st : string) (a b : SearchParts) (q : string) :
  st <> "Images" ->
  url_frag_of st a q = url_frag_of st b q
  /\ url_frag_of st a q
     = "q=" +:+ quote_plus q
       +:+ match dict_get tbm_map st with
           | Some code => "&tbm=" +:+ code
           | None => EmptyString
           end.
Proof.
  intros H. rewrite !url_frag_of_eq, (eqb_ne _ _ H), append_empty_r.
  split; reflexivity.
Qed.

(** X8.  Copy and Open use the preview: when the query string is empty
    nothing is copied and no page is opened; otherwise the URL query string
    is copied as it is, and the page opened is that string after the
    address of the search page. *)
Theorem browser_opens_previewed_url (st : string) (sp : SearchParts) :
  open_in_browser (update_preview_of st sp)
  = (if truthy (build_query sp)
     then Some ("https://www.google.com/search?" +:+ url_frag_of st sp (build_query sp))
     else None)
  /\ copy_query (update_preview_of st sp)
     = (if truthy (build_query sp)
        then Some (url_frag_of st sp (build_query sp))
        else None).
Proof.
  unfold update_preview_of.
  destruct (truthy (build_query sp)); simpl negb; cbv iota; [|by split].
  unfold open_in_browser, copy_query. rewrite url_frag_strip.
  destruct (url_frag_starts st sp (build_query sp)) as [rest ->].
  by split.
Qed.

End UrlExtras.

Section SelectorFacts.
Import Py.

Lemma is_item_in (items : list string) (text : string) :
  is_item items text = true -> In text items.
Proof.
  unfold is_item. intros H. apply existsb_exists in H as (x & Hx & E).
  apply String.eqb_eq in E. by subst.
Qed.

Ltac each_item H :=
  apply is_item_in in H; simpl in H;
  repeat (destruct H as [<-|H]; [try reflexivity|]); try destruct H.

Lemma size_chosen (text : string) :
  is_item image_size_items text = true ->
  length (option_list (dict_get size_map text)) = chosen image_size_items text.
Proof. intros H. each_item H. Qed.

Lemma aspect_chosen (text : string) :
  is_item aspect_items text = true ->
  length (option_list (dict_get aspect_map text)) = chosen aspect_items text.
Proof. intros H. each_item H. Qed.

Lemma type_chosen (text : string) :
  is_item image_type_items text = true ->
  length (option_list (dict_get type_map text)) = chosen image_type_items text.
Proof. intros H. each_item H. Qed.

Lemma usage_chosen (text : string) :
  is_item usage_items text = true ->
  length (option_list (dict_get usage_map text)) = chosen usage_items text.
Proof. intros H. each_item H. Qed.

Lemma specific_chosen (text : string) :
  is_item specific_color_items text = true ->
  truthy text = true /\ length (option_list (dict_get spec_map text)) = 1.
Proof. intros H. each_item H; by split. Qed.

Lemma region_chosen (text : string) :
  is_item regions text = true ->
  (dict_get region_map text = None <-> text = "Any region").
Proof. intros H. each_item H; split; (discriminate || reflexivity). Qed.

Lemma search_type_chosen (text : string) :
  is_item search_type_items text = true ->
  (dict_get tbm_map text = None <-> text = "Web").
Proof. intros H. each_item H; split; (discriminate || reflexivity). Qed.

Lemma dict_get_key (d : dict) (k v : string) :
  dict_get d k = Some v -> In k (map fst d).
Proof.
  induction d as [|[k' v'] d IH]; simpl; [discriminate|].
  destruct (k' =? k) eqn:E; [|by right; auto].
  apply String.eqb_eq in E. by left.
Qed.

Lemma terms_chosen (text : string) :
  is_item terms_items text = true <-> dict_get terms_location_map text <> None.
Proof.
  split.
  - intros H. each_item H; discriminate.
  - intros H. destruct (dict_get terms_location_map text) as [v|] eqn:E; [|congruence].
    apply dict_get_key in E. unfold is_item. apply existsb_exists.
    exists text. split; [exact E | apply String.eqb_refl].
Qed.

Lemma color_chosen (color specific : string) :
  is_item color_items color = true ->
  is_item specific_color_items specific = true ->
  length
    (match dict_get color_map color with
     | Some code => [code]
     | None =>
         if (color =? "Specific color")
            && truthy (if color =? "Specific color" then specific else EmptyString)
         then option_list
                (dict_get spec_map
                   (if color =? "Specific color" then specific else EmptyString))
         else []
     end)
  = chosen color_items color.
Proof.
  intros H Hs. each_item H. each_item Hs.
Qed.

End SelectorFacts.

(** The number of codes of the tbs parameter in a form whose selectors
    show items of theirs. *)
Lemma tbs_length_chosen (w : Widgets) (sp : SearchParts) :
  selectable w = true ->
  gather_parts w = Some sp ->
  length (tbs_parts_of sp)
  = chosen image_size_items (image_size_combo w)
    + chosen aspect_items (aspect_combo w)
    + chosen color_items (color_combo w)
    + chosen image_type_items (image_type_combo w)
    + chosen usage_items (usage_combo w)
  /\ (dict_get region_map (region sp) = None <-> region_combo w = "Any region")
  /\ (dict_get tbm_map (search_type_combo w) = None <-> search_type_combo w = "Web").
Proof.
  intros Hsel Hg. unfold selectable in Hsel. rewrite !andb_true_iff in Hsel.
  destruct Hsel as ((((((((Hterms & Hst) & Hsize) & Haspect) & Hcolor) & Hspec) & Htype)
                      & Hregion) & Husage).
  unfold gather_parts in Hg.
  destruct (dict_get terms_location_map (terms_combo w)) as [loc|]; [|discriminate].
  injection Hg as <-.
  rewrite tbs_parts_of_eq, !length_app. unfold color_codes. cbn [image_size aspect_ratio
    color_filter specific_color image_type usage_rights region search_type].
  rewrite (size_chosen _ Hsize), (aspect_chosen _ Haspect), (type_chosen _ Htype),
    (usage_chosen _ Husage), (color_chosen _ _ Hcolor Hspec).
  split; [lia|].
  split; [by apply region_chosen | by apply search_type_chosen].
Qed.

Lemma chosen_zero (items : list string) (text : string) :
  chosen items text = 0 <-> text = first_item items.
Proof.
  unfold chosen. destruct (text =? first_item items) eqn:E.
  - apply String.eqb_eq in E. by split.
  - apply String.eqb_neq in E. split; [discriminate | contradiction].
Qed.

(** X7.  In a form whose selectors show items of theirs, the URL query
    string is the [q] parameter followed by three parts, each empty or one
    parameter.  The tbm parameter is left out exactly for the search type
    Web.  For a search type other than Images there is neither a tbs nor a
    cr parameter, whatever the image selectors and the region show.  For
    Images, each of the five image selectors that shows another item than
    its first gives one code of the tbs parameter and the others give
    none, so the parameter is left out exactly when all five show their
    first item, and is otherwise the codes with commas between them; the
    cr parameter is left out exactly for the region Any region. *)
Theorem tbs_counts_chosen_filters (w : Widgets) (sp : SearchParts) (q : string) :
  selectable w = true ->
  gather_parts w = Some sp ->
  exists tbm tbs cr : string,
    url_frag_of (search_type_combo w) sp q
    = "q=" +:+ percent_encode q +:+ tbm +:+ tbs +:+ cr
    /\ (tbm = EmptyString <-> search_type_combo w = "Web")
    /\ (tbm = EmptyString \/ exists code, tbm = "&tbm=" +:+ code)
    /\ (search_type_combo w <> "Images" -> tbs = EmptyString /\ cr = EmptyString)
    /\ (search_type_combo w = "Images" ->
        length (tbs_parts_of sp)
        = chosen image_size_items (image_size_combo w)
          + chosen aspect_items (aspect_combo w)
          + chosen color_items (color_combo w)
          + chosen image_type_items (image_type_combo w)
          + chosen usage_items (usage_combo w)
        /\ (tbs = EmptyString
            <-> image_size_combo w = "Any size" /\ aspect_combo w = "Any aspect ratio"
                /\ color_combo w = "Any color" /\ image_type_combo w = "Any type"
                /\ usage_combo w = "All")
        /\ (tbs = EmptyString \/ tbs = "&tbs=" +:+ glue "," (tbs_parts_of sp))
        /\ (cr = EmptyString <-> region_combo w = "Any region")
        /\ (cr = EmptyString \/ exists code, cr = "&cr=" +:+ code)).
Proof.
  intros Hsel Hg.
  destruct (tbs_length_chosen w sp Hsel Hg) as (Hlen & Hreg & Htbm).
  exists (tbm_param (search_type_combo w)),
    (if search_type_combo w =? "Images" then tbs_param sp else EmptyString),
    (if search_type_combo w =? "Images" then cr_param sp else EmptyString).
  split.
  { rewrite url_frag_of_eq, quote_plus_percent_encode.
    destruct (search_type_combo w =? "Images"); [reflexivity|].
    by rewrite !append_empty_r. }
  split.
  { unfold tbm_param. rewrite <- Htbm.
    destruct (dict_get tbm_map (search_type_combo w)); [|by split].
    rewrite append_cons. split; discriminate. }
  split.
  { unfold tbm_param. destruct (dict_get tbm_map (search_type_combo w)) as [code|];
      [right; by exists code | by left]. }
  split.
  { intros Hne. by rewrite (eqb_ne _ _ Hne). }
  intros Himg. rewrite Himg. change ("Images" =? "Images") with true. cbv iota.
  split; [exact Hlen|].
  split.
  { unfold tbs_param. split.
    - intros Hempty.
      assert (Hnil : length (tbs_parts_of sp) = 0).
      { destruct (tbs_parts_of sp); [reflexivity|].
        rewrite append_cons in Hempty. discriminate. }
      rewrite Hlen in Hnil.
      assert (H1 : chosen image_size_items (image_size_combo w) = 0) by lia.
      assert (H2 : chosen aspect_items (aspect_combo w) = 0) by lia.
      assert (H3 : chosen color_items (color_combo w) = 0) by lia.
      assert (H4 : chosen image_type_items (image_type_combo w) = 0) by lia.
      assert (H5 : chosen usage_items (usage_combo w) = 0) by lia.
      apply chosen_zero in H1, H2, H3, H4, H5. by repeat split.
    - intros (E1 & E2 & E3 & E4 & E5).
      rewrite E1, E2, E3, E4, E5 in Hlen. simpl in Hlen.
      destruct (tbs_parts_of sp); [reflexivity | discriminate]. }
  split.
  { unfold tbs_param. destruct (tbs_parts_of sp) as [|x l] eqn:E; [by left|].
    right. by rewrite join_glue. }
  split.
  { unfold cr_param. rewrite <- Hreg.
    destruct (dict_get region_map (region sp)); [|by split].
    rewrite append_cons. split; discriminate. }
  unfold cr_param. destruct (dict_get region_map (region sp)) as [code|];
    [right; by exists code | by left].
Qed.

(** X6 at a video search, with and without a colour chosen. *)
Lemma other_searches_ignore_image_filters_witness :
  "Videos" <> "Images"
  /\ url_frag_of "Videos" (with_color "Specific color" "Red" default_parts) "cats"
     = url_frag_of "Videos" default_parts "cats".
Proof.
  split; [discriminate|].
  apply (other_searches_ignore_image_filters "Videos"
           (with_color "Specific color" "Red" default_parts) default_parts "cats").
  discriminate.
Defined.

(** X7 at an image search with three of the five selectors off their
    first item, and at the same form as a video search. *)
Lemma tbs_counts_chosen_filters_witness :
  selectable red_images_form = true
  /\ gather_parts red_images_form = Some red_images_parts
  /\ exists tbm tbs cr : string,
       url_frag_of "Images" red_images_parts "roses"
       = "q=" +:+ "roses" +:+ tbm +:+ tbs +:+ cr
       /\ length (tbs_parts_of red_images_parts) = 3.
Proof.
  split; [reflexivity|]. split; [reflexivity|].
  destruct (tbs_counts_chosen_filters red_images_form red_images_parts "roses"
              eq_refl eq_refl)
    as (tbm & tbs & cr & Hurl & _ & _ & _ & Himg).
  exists tbm, tbs, cr. split; [exact Hurl|].
  exact (proj1 (Himg eq_refl)).
Defined.

Example ex_image_filters_url :
  url_frag_of "Images" red_images_parts "roses"
  = "q=roses&tbm=isch&tbs=isz:l,isc:red,itp:photo&cr=countryFR"
  /\ url_frag_of "Videos" red_images_parts "roses" = "q=roses&tbm=vid".
Proof. split; reflexivity. Qed.

(** ** The form: what [gather_parts] reads, Clear and the date presets *)

Section FormExtras.
Import Py.

Lemma update_preview_eq (w : Widgets) :
  update_preview w
  = match gather_parts w with
    | Some sp => Some (update_preview_of (search_type_combo w) sp)
    | None => None
    end.
Proof. reflexivity. Qed.

(** X9.  [gather_parts] succeeds exactly when the selector of the place of
    the terms shows one of its five items, so it does in every form whose
    selectors show items of theirs; and it reads nothing from a date editor
    whose check box is unchecked, nor from the selector of the specific
    colour unless the colour filter is Specific color: two forms that show
    the same give the same record and the same preview. *)
Theorem gather_parts_reads_what_is_shown (a b : Widgets) :
  same_shown a b ->
  gather_parts a = gather_parts b
  /\ update_preview a = update_preview b
  /\ (gather_parts a <> None <-> is_item terms_items (terms_combo a) = true)
  /\ (selectable a = true -> gather_parts a <> None).
Proof.
  intros H.
  assert (Hg : gather_parts a = gather_parts b).
  { destruct H as (E1 & E2 & E3 & E4 & E5 & E6 & E7 & E8 & E9 & E10 & E11 & E12
                   & Eac & Ha & Ebc & Hb & Est & Esz & Eas & Eco & Hc & Eit & Ere & Eus).
    unfold gather_parts.
    rewrite <- E1, <- E2, <- E3, <- E4, <- E5, <- E6, <- E7, <- E8, <- E9, <- E10,
      <- E11, <- E12, <- Eac, <- Ebc, <- Est, <- Esz, <- Eas, <- Eco, <- Eit, <- Ere,
      <- Eus.
    assert (Ea : (if after_checkbox a then after_dateedit b else EmptyString)
                 = (if after_checkbox a then after_dateedit a else EmptyString)).
    { destruct (after_checkbox a); [by rewrite Ha | reflexivity]. }
    assert (Eb : (if before_checkbox a then before_dateedit b else EmptyString)
                 = (if before_checkbox a then before_dateedit a else EmptyString)).
    { destruct (before_checkbox a); [by rewrite Hb | reflexivity]. }
    assert (Ec : (if color_combo a =? "Specific color" then specific_color_combo b
                  else EmptyString)
                 = (if color_combo a =? "Specific color" then specific_color_combo a
                    else EmptyString)).
    { destruct (color_combo a =? "Specific color") eqn:E; [|reflexivity].
      apply String.eqb_eq in E. by rewrite Hc. }
    by rewrite Ea, Eb, Ec. }
  assert (Hterms : gather_parts a <> None <-> is_item terms_items (terms_combo a) = true).
  { rewrite terms_chosen. unfold gather_parts.
    destruct (dict_get terms_location_map (terms_combo a)); split; congruence. }
  split; [exact Hg|]. split.
  - rewrite !update_preview_eq, Hg.
    destruct H as (_ & _ & _ & _ & _ & _ & _ & _ & _ & _ & _ & _ & _ & _ & _ & _
                   & -> & _). reflexivity.
  - split; [exact Hterms|]. intros Hsel. apply Hterms.
    unfold selectable in Hsel. rewrite !andb_true_iff in Hsel. tauto.
Qed.

(** X10.  Clear brings the form back to how [__init__] left it, with the
    dates the editors hold: the record gathered from it is the default
    record, the preview shows the placeholder, and Copy, Open and Save do
    nothing. *)
Theorem clear_all_gives_default_record (w : Widgets) :
  clear_all w = initial_form (after_dateedit w) (before_dateedit w)
  /\ selectable (clear_all w) = true
  /\ gather_parts (clear_all w) = Some default_parts
  /\ update_preview (clear_all w) = Some EmptyPreview
  /\ copy_query EmptyPreview = None
  /\ open_in_browser EmptyPreview = None
  /\ forall (J : Type) (json_dumps : J -> string) (st : store J),
       save_current_query json_dumps default_parts st = st.
Proof. by repeat split. Qed.

(** X11.  A date preset with all three numbers zero leaves the form as it
    is.  Otherwise it takes the first of days, months and years that is not
    zero, puts the date that lies so far back in the editor of the date
    after, checks its box and unchecks the box of the date before: the
    record gathered afterwards is the one gathered before with that date
    after and no date before. *)
Theorem date_preset_sets_after_only
    (addDays addMonths addYears : Z -> string) (days months years : Z)
    (w : Widgets) (sp : SearchParts) :
  gather_parts w = Some sp ->
  let w' := set_date_preset addDays addMonths addYears days months years w in
  let d := if negb (days =? 0)%Z then addDays (- days)%Z
           else if negb (months =? 0)%Z then addMonths (- months)%Z
           else addYears (- years)%Z in
  (days = 0%Z /\ months = 0%Z /\ years = 0%Z -> w' = w)
  /\ (days <> 0%Z \/ months <> 0%Z \/ years <> 0%Z ->
      gather_parts w' = Some (with_dates EmptyString d sp)
      /\ tok_before (with_dates EmptyString d sp) = None).
Proof.
  intros Hg w' d. split.
  - intros (-> & -> & ->). reflexivity.
  - intros Hnz.
    assert (Hw : w' = with_after_only d w).
    { subst w' d. unfold set_date_preset.
      destruct (days =? 0)%Z eqn:Ed; simpl; [|reflexivity].
      destruct (months =? 0)%Z eqn:Em; simpl; [|reflexivity].
      destruct (years =? 0)%Z eqn:Ey; simpl; [|reflexivity].
      apply Z.eqb_eq in Ed, Em, Ey. tauto. }
    rewrite Hw. split; [|reflexivity].
    unfold gather_parts in *.
    change (terms_combo (with_after_only d w)) with (terms_combo w).
    destruct (dict_get terms_location_map (terms_combo w)) as [loc|]; [|discriminate].
    injection Hg as <-. reflexivity.
Qed.

End FormExtras.

(** X9 at two forms that differ in the dates of the editors, with both
    check boxes unchecked. *)
Lemma gather_parts_reads_what_is_shown_witness :
  same_shown (initial_form "2024-10-05" "2024-11-04") (initial_form "1999-01-01" "2000-01-01")
  /\ gather_parts (initial_form "2024-10-05" "2024-11-04")
     = gather_parts (initial_form "1999-01-01" "2000-01-01").
Proof.
  assert (H : same_shown (initial_form "2024-10-05" "2024-11-04")
                (initial_form "1999-01-01" "2000-01-01")).
  { unfold same_shown. simpl. repeat split; discriminate. }
  split; [exact H|].
  exact (proj1 (gather_parts_reads_what_is_shown _ _ H)).
Defined.

(** X11 at the preset of the past week, on a day whose date seven days
    back prints as 2024-10-28. *)
Lemma date_preset_sets_after_only_witness :
  gather_parts red_images_form = Some red_images_parts
  /\ gather_parts
       (set_date_preset (fun _ => "2024-10-28") (fun _ => "2024-10-04")
          (fun _ => "2023-11-04") 7 0 0 red_images_form)
     = Some (with_dates EmptyString "2024-10-28" red_images_parts).
Proof.
  split; [reflexivity|].
  refine (proj1 (proj2 (date_preset_sets_after_only (fun _ => "2024-10-28")
                          (fun _ => "2024-10-04") (fun _ => "2023-11-04") 7 0 0
                          red_images_form red_images_parts eq_refl) _)).
  left. discriminate.
Defined.

(** ** The file as bytes: what a locale reads back *)

Section AsciiFacts.
Import Py Urllib.

Lemma utf8_ascii_char (c : ascii) :
  is_ascii c = true ->
  utf8_char c = [byte_of_ascii c]
  /\ (Byte.to_nat (byte_of_ascii c) <? 128)%nat = true
  /\ ascii_of_byte (byte_of_ascii c) = c.
Proof.
  destruct c as [[] [] [] [] [] [] [] []]; vm_compute; intros H;
    first [discriminate H | by repeat split].
Qed.

Lemma ascii_decode_utf8 (t : string) :
  ascii_only t = true -> ascii_decode (utf8 t) = Some t.
Proof.
  induction t as [|c t IH]; [reflexivity|]. unfold ascii_only. simpl.
  intros H. apply andb_true_iff in H as [Hc Ht].
  destruct (utf8_ascii_char c Hc) as (-> & Hb & Ha).
  simpl. by rewrite Hb, (IH Ht), Ha.
Qed.

Lemma latin1_decode_utf8 (t : string) :
  ascii_only t = true -> latin1_decode (utf8 t) = Some t.
Proof.
  induction t as [|c t IH]; [reflexivity|]. unfold ascii_only. simpl.
  intros H. apply andb_true_iff in H as [Hc Ht].
  destruct (utf8_ascii_char c Hc) as (-> & Hb & Ha).
  simpl. by rewrite (IH Ht), Ha.
Qed.

Lemma ascii_decode_compatible : ascii_compatible ascii_decode.
Proof. intros t H. by apply ascii_decode_utf8. Qed.

Lemma latin1_decode_compatible : ascii_compatible latin1_decode.
Proof. intros t H. by apply latin1_decode_utf8. Qed.

Lemma all_chars_no_char (p : ascii -> bool) (s : string) :
  (forall c, p c = false -> contains_char c s = false) -> all_chars p s = true.
Proof.
  induction s as [|a s IH]; [reflexivity|]. intros H. simpl.
  destruct (p a) eqn:E.
  - simpl. apply IH. intros c Hc. specialize (H c Hc). simpl in H.
    by apply orb_false_iff in H as [_ H].
  - specialize (H a E). simpl in H. by rewrite Ascii.eqb_refl in H.
Qed.

Lemma all_chars_contains (p : ascii -> bool) (s : string) (c : ascii) :
  all_chars p s = true -> p c = false -> contains_char c s = false.
Proof.
  induction s as [|a s IH]; [reflexivity|]. simpl.
  intros H Hc. apply andb_true_iff in H as [Ha Hs].
  rewrite (IH Hs Hc), orb_false_r. apply Ascii.eqb_neq. intros ->. congruence.
Qed.

Lemma constants_ascii (c : ascii) :
  is_ascii c = false ->
  forallb (fun k => negb (contains_char c k)) query_constants = true.
Proof.
  destruct c as [[] [] [] [] [] [] [] []]; vm_compute; intros H;
    first [discriminate H | reflexivity].
Qed.

(** Text fields of characters below 128 give a query string of such
    characters. *)
Lemma build_query_ascii (sp : SearchParts) :
  forallb ascii_only (text_fields sp) = true -> ascii_only (build_query sp) = true.
Proof.
  intros H. apply all_chars_no_char. intros c Hc.
  apply build_query_no_char; [by apply constants_ascii|].
  apply forallb_forall. intros f Hf. rewrite forallb_forall in H.
  apply negb_true_iff. apply (all_chars_contains is_ascii f c); [by apply H | exact Hc].
Qed.

Lemma escape_char_ascii (c : ascii) : ascii_only (Json.escape_char c) = true.
Proof. destruct c as [[] [] [] [] [] [] [] []]; vm_compute; reflexivity. Qed.

Lemma escape_ascii (s : string) : ascii_only (Json.escape s) = true.
Proof.
  unfold ascii_only. induction s as [|c s IH]; [reflexivity|]. simpl.
  pose proof (escape_char_ascii c) as Hc. unfold ascii_only in Hc.
  by rewrite all_chars_app, IH, Hc.
Qed.

(** [json.dumps] of a record writes characters below 128 only. *)
Lemma dumps_dict_ascii (d : list (string * string)) :
  ascii_only (Json.dumps_dict d) = true.
Proof.
  unfold ascii_only, Json.dumps_dict. rewrite !all_chars_app.
  rewrite all_chars_join; [reflexivity | reflexivity |].
  apply Forall_forall. intros x Hx. apply list_elem_of_In in Hx.
  apply in_map_iff in Hx as (kv & <- & _).
  unfold Json.encode_basestring_ascii. rewrite !all_chars_app.
  pose proof (escape_ascii (fst kv)) as H1. pose proof (escape_ascii (snd kv)) as H2.
  unfold ascii_only in H1, H2. by rewrite H1, H2.
Qed.

Lemma ascii_digits (d : Decimal.uint) : ascii_only (NilEmpty.string_of_uint d) = true.
Proof. induction d; simpl; [reflexivity | assumption ..]. Qed.

Lemma ascii_str_of_nat (i : nat) : ascii_only (str_of_nat i) = true.
Proof.
  unfold str_of_nat, NilZero.string_of_uint.
  destruct (Nat.to_uint i); [reflexivity | apply ascii_digits ..].
Qed.

Lemma unlines_ascii (lines : list string) :
  forallb ascii_only lines = true -> ascii_only (unlines lines) = true.
Proof.
  unfold ascii_only. induction lines as [|l lines IH]; [reflexivity|]. simpl.
  intros H. apply andb_true_iff in H as [Hl Hs].
  by rewrite !all_chars_app, Hl, (IH Hs).
Qed.

End AsciiFacts.

Section LocaleFacts.
Context {J : Type} (json_loads : string -> option J) (json_dumps : J -> string).
Import Py ConfigParser.

Implicit Types (data : list (entry J)) (st : store J).

Lemma entries_options_ascii data (i : nat) :
  forallb (ascii_entry json_dumps) data = true ->
  forallb ascii_only (map option_line (entries_options json_dumps i data)) = true.
Proof.
  revert i. induction data as [|e data IH]; intros i H; [reflexivity|].
  simpl in H. apply andb_true_iff in H as [He H].
  unfold ascii_entry in He. apply andb_true_iff in He as [Hq Hp].
  simpl entries_options.
  change (forallb ascii_only (map option_line (?a :: ?b :: ?l)))
    with (ascii_only (option_line a)
          && (ascii_only (option_line b) && forallb ascii_only (map option_line l))).
  rewrite (IH _ H). unfold option_line, ascii_only in *. simpl fst. simpl snd.
  unfold query_key, parts_key. rewrite !all_chars_app, Hq, Hp.
  pose proof (ascii_str_of_nat i) as Hi. unfold ascii_only in Hi. by rewrite Hi.
Qed.

(** The text written for clean entries of characters below 128 has such
    characters only. *)
Lemma written_ascii data :
  forallb (clean_entry json_dumps) data = true ->
  forallb (ascii_entry json_dumps) data = true ->
  ascii_only (write (recent_config json_dumps data)) = true.
Proof.
  intros Hc Ha. unfold recent_config.
  pose proof (entries_options_clean json_dumps data 1 Hc) as Hopt.
  rewrite write_recent_text.
  - apply unlines_ascii. simpl. rewrite forallb_app.
    by rewrite (entries_options_ascii data 1 Ha).
  - apply Forall_forall. intros kv Hkv.
    rewrite forallb_forall in Hopt. specialize (Hopt kv).
    apply clean_option_facts in Hopt as (_ & _ & Hv); [|by apply list_elem_of_In].
    apply clean_facts in Hv. tauto.
Qed.

(** Where the locale reads the file back as the text written,
    [load_recent_from_disk_locale] is [load_recent_from_disk]. *)
Lemma locale_load_agrees (locale_decode : list Byte.byte -> option string) st :
  (forall text, file st = Some text -> read_back locale_decode text = Some text) ->
  load_recent_from_disk_locale json_loads json_dumps locale_decode st
  = load_recent_from_disk json_loads json_dumps st.
Proof.
  intros H. unfold load_recent_from_disk_locale, load_recent_from_disk.
  destruct (file st) as [text|]; [|reflexivity]. by rewrite (H text eq_refl).
Qed.

Lemma locale_load_written (locale_decode : list Byte.byte -> option string)
    data (any : list (entry J)) :
  ascii_compatible locale_decode ->
  forallb (kept_entry json_loads json_dumps) data = true ->
  forallb (ascii_entry json_dumps) data = true ->
  load_recent_from_disk_locale json_loads json_dumps locale_decode
    (mk_store any (Some (write (recent_config json_dumps data))))
  = mk_store (fst (decode_entries json_loads json_dumps data))
      (Some (write (recent_config json_dumps data))).
Proof.
  intros Hloc Hk Ha.
  rewrite locale_load_agrees; [by apply load_written|].
  intros text [= <-]. apply Hloc, written_ascii; [|exact Ha].
  by apply (kept_entry_facts json_loads json_dumps).
Qed.

End LocaleFacts.

(** ** The recent-queries store: more of what it does *)

Section StoreExtras.
Context {J : Type} (json_loads : string -> option J) (json_dumps : J -> string).

Implicit Types (data : list (entry J)) (st : store J) (e : entry J).

(** X12.  [delete_selected_recent] takes the entry of the selected row out
    of the list in memory and nothing else, whether or not the file can be
    written: a row past the end of the list changes neither the list nor
    the file, a row of the list shortens the list by one, leaves the
    entries before the row where they are and moves the ones after it up by
    one. *)
Theorem delete_removes_selected_row (idx : nat) st :
  _recent_data (delete_selected_recent json_dumps idx st) = delete idx (_recent_data st)
  /\ (length (_recent_data st) <= idx -> delete_selected_recent json_dumps idx st = st)
  /\ (idx < length (_recent_data st) ->
      length (_recent_data (delete_selected_recent json_dumps idx st))
      = length (_recent_data st) - 1)
  /\ (forall j : nat,
        j < idx ->
        _recent_data (delete_selected_recent json_dumps idx st) !! j
        = _recent_data st !! j)
  /\ (forall j : nat,
        idx <= j ->
        _recent_data (delete_selected_recent json_dumps idx st) !! j
        = _recent_data st !! S j).
Proof.
  assert (Hdata : _recent_data (delete_selected_recent json_dumps idx st)
                  = delete idx (_recent_data st)).
  { unfold delete_selected_recent.
    destruct (length (_recent_data st) <=? idx)%nat eqn:E.
    - apply Nat.leb_le in E. symmetry. revert idx E.
      induction (_recent_data st) as [|e l IH]; intros [|i] Hi; simpl in *;
        try reflexivity; try lia.
      f_equal. apply IH. lia.
    - by rewrite write_keeps_recent. }
  split; [exact Hdata|]. rewrite Hdata.
  split; [|split; [|split]].
  - intros H. unfold delete_selected_recent.
    apply Nat.leb_le in H. by rewrite H.
  - intros H. apply length_delete. by apply lookup_lt_is_Some.
  - intros j Hj. by apply list_lookup_delete_lt.
  - intros j Hj. by apply list_lookup_delete_ge.
Qed.


(** X14.  An entry whose query string or whose record the parser object
    refuses, as it refuses a lone percent sign, stops every later write
    for as long as it is in the list: [_write_recent_to_disk] changes
    nothing, and saving a record of another query to a list that is not
    full leaves the file as it was. *)
Theorem refused_entry_blocks_writes st e :
  In e (_recent_data st) ->
  ConfigParser.before_set (query e) = None
  \/ ConfigParser.before_set (dumps_parts json_dumps (parts e)) = None ->
  _write_recent_to_disk json_dumps st = st
  /\ forall sp : SearchParts,
       build_query sp <> query e ->
       length (_recent_data st) < MAX_RECENT ->
       file (save_current_query json_dumps sp st) = file st.
Proof.
  intros Hin Hbad. split; [by apply write_refused with e|].
  intros sp Hq Hlen. unfold save_current_query.
  destruct (Py.truthy (build_query sp)); simpl; [|reflexivity].
  rewrite (write_refused json_dumps _ e); [reflexivity | | exact Hbad].
  simpl. right.
  assert (Hf : In e (List.filter (fun e0 => negb (query e0 =? build_query sp))
                       (_recent_data st))).
  { apply filter_In. split; [exact Hin|].
    apply negb_true_iff, String.eqb_neq. congruence. }
  rewrite take_ge; [exact Hf|].
  pose proof (filter_length_le (fun e0 => negb (query e0 =? build_query sp))
                (_recent_data st)) as Hle.
  unfold MAX_RECENT in Hlen. lia.
Qed.

(** X15.  In a locale that reads the bytes below 128 as the characters
    of the same numbers, writing a list of entries of any length and
    loading the file again gives the entries back in their order, each with
    its query string as it was and its record as [json.loads] decodes the
    text written for it, provided the entries are ones the file carries
    (no percent sign, no line end, no white space at either end of a
    value), [json.loads] accepts them, and their characters are all below
    128.  The file is written as UTF-8 and read in the locale. *)
Theorem reload_after_write (locale_decode : list Byte.byte -> option string)
    data (f : option string) :
  ascii_compatible locale_decode ->
  forallb (kept_entry json_loads json_dumps) data = true ->
  forallb (ascii_entry json_dumps) data = true ->
  let written := _write_recent_to_disk json_dumps (mk_store data f) in
  let loaded :=
    load_recent_from_disk_locale json_loads json_dumps locale_decode written in
  file written = Some (ConfigParser.write (recent_config json_dumps data))
  /\ read_back locale_decode (ConfigParser.write (recent_config json_dumps data))
     = Some (ConfigParser.write (recent_config json_dumps data))
  /\ file loaded = file written
  /\ map query (_recent_data loaded) = map query data
  /\ Forall2 (fun e e' => decode_entry json_loads json_dumps e = Some e')
       data (_recent_data loaded).
Proof.
  intros Hloc H Ha written loaded.
  destruct (kept_entry_facts json_loads json_dumps data H) as [Hc Hd].
  assert (Hw : written = mk_store data
                 (Some (ConfigParser.write (recent_config json_dumps data)))).
  { subst written. by rewrite write_clean. }
  assert (Hl : loaded = mk_store (fst (decode_entries json_loads json_dumps data))
                 (Some (ConfigParser.write (recent_config json_dumps data)))).
  { subst loaded. rewrite Hw. by apply locale_load_written. }
  destruct (decode_entries_all json_loads json_dumps data Hd) as (_ & Hq & Hp).
  rewrite Hl, Hw. simpl. split; [reflexivity|]. split; [|by repeat split].
  apply Hloc. by apply written_ascii.
Qed.

(** X16.  In a locale that reads the bytes below 128 as the characters
    of the same numbers: a record whose fields hold no percent sign and
    whose text fields hold no line end and only characters below 128,
    saved to a list of entries that the file carries and loaded again, is
    at position 0 with its query string and with its record as
    [json.loads] decodes it; the file is the one written for the list in
    memory, and the queries of the list loaded are those of the list in
    memory, in their order. *)
Theorem save_then_reload (locale_decode : list Byte.byte -> option string)
    (sp : SearchParts) st (j : J) :
  ascii_compatible locale_decode ->
  storable sp = true ->
  forallb ascii_only (text_fields sp) = true ->
  build_query sp <> EmptyString ->
  json_loads (Json.dumps_dict (dict_of_parts sp)) = Some j ->
  forallb (kept_entry json_loads json_dumps) (_recent_data st) = true ->
  forallb (ascii_entry json_dumps) (_recent_data st) = true ->
  let saved := save_current_query json_dumps sp st in
  let loaded :=
    load_recent_from_disk_locale json_loads json_dumps locale_decode saved in
  _recent_data loaded !! 0 = Some (mk_entry (build_query sp) (Decoded j))
  /\ map query (_recent_data loaded) = map query (_recent_data saved)
  /\ file saved
     = Some (ConfigParser.write (recent_config json_dumps (_recent_data saved)))
  /\ file loaded = file saved.
Proof.
  intros Hloc Hs Hasc Hq Hj Hold Holda saved loaded.
  set (new := mk_entry (build_query sp) (@FormDict J sp)).
  set (data := take MAX_RECENT
                 (new :: List.filter (fun e => negb (query e =? build_query sp))
                           (_recent_data st))).
  assert (Hsaved : saved = _write_recent_to_disk json_dumps (mk_store data (file st))).
  { subst saved. unfold save_current_query.
    apply truthy_true in Hq. by rewrite Hq. }
  assert (Hnew : kept_entry json_loads json_dumps new = true).
  { destruct (storable_clean sp Hs) as [H1 H2].
    unfold kept_entry, clean_entry, decodable, decode_entry. simpl.
    by rewrite H1, H2, Hj. }
  assert (Hnewa : ascii_entry json_dumps new = true).
  { unfold ascii_entry. simpl.
    by rewrite (build_query_ascii sp Hasc), dumps_dict_ascii. }
  assert (Hkept : forallb (kept_entry json_loads json_dumps) data = true).
  { subst data. apply forallb_take_kept. simpl. rewrite Hnew. simpl.
    by apply forallb_filter_kept. }
  assert (Hkepta : forallb (ascii_entry json_dumps) data = true).
  { subst data. apply forallb_take_kept. simpl. rewrite Hnewa. simpl.
    by apply forallb_filter_kept. }
  destruct (kept_entry_facts json_loads json_dumps data Hkept) as [Hc Hd].
  assert (Hw : saved = mk_store data
                 (Some (ConfigParser.write (recent_config json_dumps data)))).
  { rewrite Hsaved. by rewrite write_clean. }
  assert (Hl : loaded = mk_store (fst (decode_entries json_loads json_dumps data))
                 (Some (ConfigParser.write (recent_config json_dumps data)))).
  { subst loaded. rewrite Hw. by apply locale_load_written. }
  destruct (decode_entries_all json_loads json_dumps data Hd) as (_ & Hqs & Hp).
  rewrite Hl, Hw. simpl. split; [|by repeat split].
  change data with (new :: take 19 (List.filter (fun e => negb (query e =? build_query sp))
                                      (_recent_data st))) in Hp.
  inversion Hp as [|e e' l l' He _ E1 E2]. simpl.
  unfold decode_entry in He. simpl in He. rewrite Hj in He. by injection He as <-.
Qed.

(** X17.  [load_recent_from_disk] takes nothing from the list in memory:
    the list and the file after it depend on the file only. *)
Theorem load_replaces_list (d1 d2 : list (entry J)) (f : option string) :
  load_recent_from_disk json_loads json_dumps (mk_store d1 f)
  = load_recent_from_disk json_loads json_dumps (mk_store d2 f).
Proof.
  unfold load_recent_from_disk. simpl. destruct f as [text|]; [|reflexivity].
  unfold load_body. by destruct (ConfigParser.read ConfigParser.empty text).
Qed.

Lemma read_entries_gap (config : ConfigParser.t) (k : nat) :
  ConfigParser.has_option config "Recent" (query_key k) = false ->
  forall (fuel i : nat) data,
    i <= k ->
    length (fst (read_entries json_loads fuel i config data)) <= length data + (k - i).
Proof.
  intros Hk. induction fuel as [|fuel IH]; intros i data Hi; [simpl; lia|].
  simpl.
  destruct (ConfigParser.has_option config "Recent" (query_key i)) eqn:E;
    [|simpl; lia].
  assert (i <> k) by (intros ->; congruence).
  destruct (ConfigParser.getitem config "Recent" (query_key i)); [|simpl; lia].
  destruct (ConfigParser.get_fallback config "Recent" (parts_key i) "{}"); [|simpl; lia].
  destruct (json_loads _); [|simpl; lia].
  etrans; [apply IH; lia|]. rewrite length_app. simpl. lia.
Qed.

(** X18.  The loop of [load_recent_from_disk] reads the entries 1, 2, 3
    and so on and stops at the first number without a query in the file:
    when the file has no query of number [k + 1], at most [k] entries are
    loaded, whatever the file holds under higher numbers. *)
Theorem load_stops_at_first_gap st (text : string) (config : ConfigParser.t) (k : nat) :
  file st = Some text ->
  ConfigParser.read ConfigParser.empty text = Some config ->
  ConfigParser.has_option config "Recent" (query_key (S k)) = false ->
  length (_recent_data (load_recent_from_disk json_loads json_dumps st)) <= k.
Proof.
  intros Hf Hr Hk. unfold load_recent_from_disk. rewrite Hf.
  unfold load_body. rewrite Hr.
  pose proof (read_entries_gap config (S k) Hk
                (S (length (visible_options config))) 1 [] ltac:(lia)) as Hlen.
  destruct (ConfigParser.contains config "Recent").
  - destruct (read_entries json_loads _ 1 config []) as [data o].
    simpl in Hlen. destruct o; simpl; lia.
  - simpl. lia.
Qed.

End StoreExtras.


(** X14 at a list that holds an entry with a percent sign: saving another
    query leaves the text of the file as it was. *)
Lemma refused_entry_blocks_writes_witness :
  In (mk_entry "100%" (Decoded tt)) [mk_entry "100%" (Decoded tt)]
  /\ ConfigParser.before_set "100%" = None
  /\ file (save_current_query (fun _ : unit => "null")
             (with_all_words "laptop" default_parts)
             (mk_store [mk_entry "100%" (Decoded tt)] (Some "old text")))
     = Some "old text".
Proof.
  split; [by left|]. split; [reflexivity|].
  refine (proj2 (refused_entry_blocks_writes (fun _ : unit => "null")
                   (mk_store [mk_entry "100%" (Decoded tt)] (Some "old text"))
                   (mk_entry "100%" (Decoded tt)) _ _)
            (with_all_words "laptop" default_parts) _ _).
  - simpl. by left.
  - by left.
  - discriminate.
  - unfold MAX_RECENT. simpl. lia.
Defined.

(** X15 at a list of two entries, in the locale C, with the text of a
    record as its decoded value. *)
Lemma reload_after_write_witness :
  ascii_compatible ascii_decode
  /\ forallb (kept_entry Some (fun s : string => s))
       [mk_entry "site:example.com laptop"
          (FormDict (with_site "example.com" (with_all_words "laptop" default_parts)));
        mk_entry "tablet" (Decoded "{}")] = true
  /\ map query
       (_recent_data
          (load_recent_from_disk_locale Some (fun s : string => s) ascii_decode
             (_write_recent_to_disk (fun s : string => s)
                (mk_store
                   [mk_entry "site:example.com laptop"
                      (FormDict (with_site "example.com"
                                   (with_all_words "laptop" default_parts)));
                    mk_entry "tablet" (Decoded "{}")] None))))
     = ["site:example.com laptop"; "tablet"].
Proof.
  assert (H : forallb (kept_entry Some (fun s : string => s))
                [mk_entry "site:example.com laptop"
                   (FormDict (with_site "example.com"
                                (with_all_words "laptop" default_parts)));
                 mk_entry "tablet" (Decoded "{}")] = true)
    by (vm_compute; reflexivity).
  split; [exact ascii_decode_compatible|]. split; [exact H|].
  refine (proj1 (proj2 (proj2 (proj2
           (reload_after_write Some (fun s : string => s) ascii_decode
              [mk_entry "site:example.com laptop"
                 (FormDict (with_site "example.com"
                              (with_all_words "laptop" default_parts)));
               mk_entry "tablet" (Decoded "{}")] None ascii_decode_compatible H _))))).
  vm_compute. reflexivity.
Defined.

(** X16 at a record with one word, saved to a list of one entry, in a
    Latin-1 locale. *)
Lemma save_then_reload_witness :
  ascii_compatible latin1_decode
  /\ storable (with_all_words "laptop" default_parts) = true
  /\ build_query (with_all_words "laptop" default_parts) <> EmptyString
  /\ forallb (kept_entry Some (fun s : string => s)) [mk_entry "tablet" (Decoded "{}")]
     = true
  /\ _recent_data
       (load_recent_from_disk_locale Some (fun s : string => s) latin1_decode
          (save_current_query (fun s : string => s)
             (with_all_words "laptop" default_parts)
             (mk_store [mk_entry "tablet" (Decoded "{}")] None))) !! 0
     = Some (mk_entry "laptop"
               (Decoded (Json.dumps_dict (dict_of_parts (with_all_words "laptop" default_parts))))).
Proof.
  split; [exact latin1_decode_compatible|].
  split; [reflexivity|]. split; [discriminate|]. split; [vm_compute; reflexivity|].
  refine (proj1 (save_then_reload Some (fun s : string => s) latin1_decode
                   (with_all_words "laptop" default_parts)
                   (mk_store [mk_entry "tablet" (Decoded "{}")] None)
                   (Json.dumps_dict (dict_of_parts (with_all_words "laptop" default_parts)))
                   latin1_decode_compatible _ _ _ _ _ _)).
  - reflexivity.
  - reflexivity.
  - discriminate.
  - reflexivity.
  - vm_compute. reflexivity.
  - vm_compute. reflexivity.
Defined.

(** Outside these characters the locale decides.  A query with the letter
    of code 233 is written as two bytes: the locale C refuses them and the
    list loaded is empty; a Latin-1 locale reads them as two characters and
    the query loaded is another one. *)
Example ex_reload_locale_c :
  _recent_data
    (load_recent_from_disk_locale Some (fun s : string => s) ascii_decode
       (save_current_query (fun s : string => s)
          (with_all_words ("caf" +:+ String (ascii_of_nat 233) EmptyString) default_parts)
          (mk_store [] None)))
  = [].
Proof. vm_compute. reflexivity. Qed.

Example ex_reload_locale_latin1 :
  map query
    (_recent_data
       (load_recent_from_disk_locale Some (fun s : string => s) latin1_decode
          (save_current_query (fun s : string => s)
             (with_all_words ("caf" +:+ String (ascii_of_nat 233) EmptyString)
                default_parts)
             (mk_store [] None))))
  = ["caf" +:+ String (ascii_of_nat 195) (String (ascii_of_nat 169) EmptyString)].
Proof. vm_compute. reflexivity. Qed.

(** X18 at a file with the queries 1 and 3: one entry is loaded. *)
Lemma load_stops_at_first_gap_witness :
  ConfigParser.read ConfigParser.empty
    ("[Recent]" +:+ ConfigParser.newline +:+ "query_1 = a" +:+ ConfigParser.newline
     +:+ "query_3 = c" +:+ ConfigParser.newline)
  = Some (ConfigParser.mk [] [("Recent", [("query_1", "a"); ("query_3", "c")])])
  /\ length
       (_recent_data
          (load_recent_from_disk (fun _ => Some tt) (fun _ : unit => "null")
             (mk_store []
                (Some ("[Recent]" +:+ ConfigParser.newline +:+ "query_1 = a"
                       +:+ ConfigParser.newline +:+ "query_3 = c"
                       +:+ ConfigParser.newline))))) <= 1.
Proof.
  split; [reflexivity|].
  apply (load_stops_at_first_gap (fun _ => Some tt) (fun _ : unit => "null")
           (mk_store []
              (Some ("[Recent]" +:+ ConfigParser.newline +:+ "query_1 = a"
                     +:+ ConfigParser.newline +:+ "query_3 = c"
                     +:+ ConfigParser.newline)))
           ("[Recent]" +:+ ConfigParser.newline +:+ "query_1 = a" +:+ ConfigParser.newline
            +:+ "query_3 = c" +:+ ConfigParser.newline)
           (ConfigParser.mk [] [("Recent", [("query_1", "a"); ("query_3", "c")])]) 1);
    reflexivity.
Defined.

(** ** The [q] parameter carries the query string, continued *)

Section UrlCarries.
Import Py Urllib.

(** X19.  The [q] parameter carries the query string: decoding what
    [quote_plus] writes gives the string back, so two different strings are
    never written the same way, and two different query strings never give
    the same URL query string under the same search type and selectors. *)
Theorem url_carries_query (st : string) (sp : SearchParts) :
  (forall q : string, decode_query (quote_plus q) = q)
  /\ (forall q1 q2 : string, quote_plus q1 = quote_plus q2 -> q1 = q2)
  /\ (forall q1 q2 : string, url_frag_of st sp q1 = url_frag_of st sp q2 -> q1 = q2).
Proof.
  assert (Hdec : forall q : string, decode_query (quote_plus q) = q).
  { intros q. rewrite quote_plus_encoding. apply decode_encoded. }
  assert (Hinj : forall q1 q2 : string, quote_plus q1 = quote_plus q2 -> q1 = q2).
  { intros q1 q2 H. rewrite <- (Hdec q1), <- (Hdec q2). by rewrite H. }
  split; [exact Hdec|]. split; [exact Hinj|].
  intros q1 q2 H. rewrite !url_frag_of_eq in H.
  rewrite !append_cons, append_empty_l in H. injection H as H.
  rewrite <- !append_assoc in H. apply append_inj_tail in H.
  apply append_inj_tail in H. by apply Hinj.
Qed.

End UrlCarries.

(** ** Saving twice *)

Section SaveTwice.
Context {J : Type} (json_dumps : J -> string).

Implicit Types (data : list (entry J)) (st : store J).

Lemma filter_all_kept {A : Type} (f : A -> bool) (l : list A) :
  forallb f l = true -> List.filter f l = l.
Proof.
  induction l as [|x l IH]; [reflexivity|]. simpl.
  intros H. apply andb_true_iff in H as [-> H]. by rewrite IH.
Qed.

Lemma forallb_filter_self {A : Type} (f : A -> bool) (l : list A) :
  forallb f (List.filter f l) = true.
Proof.
  induction l as [|x l IH]; [reflexivity|]. simpl.
  destruct (f x) eqn:E; [simpl; by rewrite E | exact IH].
Qed.

(** Writing the same list again, over the file just written, changes
    nothing. *)
Lemma write_same_list data (f : option string) :
  _write_recent_to_disk json_dumps
    (mk_store data (file (_write_recent_to_disk json_dumps (mk_store data f))))
  = _write_recent_to_disk json_dumps (mk_store data f).
Proof.
  unfold _write_recent_to_disk. cbn [_recent_data].
  destruct (write_entries json_dumps 1 data
              (ConfigParser.setitem_empty ConfigParser.empty "Recent")) as [cfg|];
    reflexivity.
Qed.

Lemma save_with_query (sp : SearchParts) st :
  Py.truthy (build_query sp) = true ->
  save_current_query json_dumps sp st
  = _write_recent_to_disk json_dumps
      (mk_store
         (take MAX_RECENT
            (mk_entry (build_query sp) (FormDict sp)
             :: List.filter (fun e => negb (query e =? build_query sp)) (_recent_data st)))
         (file st)).
Proof. intros E. unfold save_current_query. by rewrite E. Qed.

(** X20.  Saving the same record twice in a row is the same as saving it
    once: the list and the file after the second Save are those after the
    first. *)
Theorem save_twice_same (sp : SearchParts) st :
  save_current_query json_dumps sp (save_current_query json_dumps sp st)
  = save_current_query json_dumps sp st.
Proof.
  destruct (Py.truthy (build_query sp)) eqn:E.
  2:{ assert (H : forall s : store J, save_current_query json_dumps sp s = s).
      { intros s. unfold save_current_query. by rewrite E. }
      by rewrite !H. }
  rewrite (save_with_query sp st E).
  set (q := build_query sp).
  set (new := mk_entry q (@FormDict J sp)).
  set (keep := fun e : entry J => negb (query e =? q)).
  set (data := take MAX_RECENT (new :: List.filter keep (_recent_data st))).
  rewrite (save_with_query sp _ E). fold q new keep.
  rewrite write_keeps_recent. cbn [_recent_data].
  assert (Hdata : take MAX_RECENT (new :: List.filter keep data) = data).
  { subst data.
    assert (Ht : forall l, take MAX_RECENT (new :: l) = new :: take 19 l)
      by reflexivity.
    assert (Hq : keep new = false).
    { subst keep new. simpl. by rewrite String.eqb_refl. }
    rewrite !Ht. cbn [List.filter]. rewrite Hq. f_equal.
    rewrite filter_all_kept.
    - apply take_idemp.
    - apply forallb_take_kept, forallb_filter_self. }
  rewrite Hdata. apply write_same_list.
Qed.

End SaveTwice.
